(** * Bewerbungsassistent: keyword extraction, validation, text extraction,
      letter composition and document export

    A shallow embedding of [api.py] (the Flask endpoint) and [app.py] (the
    Streamlit form), and the properties of their natural-language
    specification.

    Python values are modelled as follows.
    - A [str] is the list of its Unicode code points, so that [len], slicing
      and the regular expression count characters the way Python does.
    - The spaCy tagger, pdfplumber, python-docx and the OpenAI client are
      collaborators outside the repository.  The tagger and the generation
      service are functions passed to the code, each answering or raising;
      what the two document libraries do with an upload is carried by the
      upload itself.
    - A call that may raise returns a [res]; [try_except] is Python's
      [try: ... except Exception as e: ...].
    - The calls a claim speaks of (keyword extraction, generation service)
      are recorded in a trace by a writer monad. *)

From Stdlib Require Import ZArith Lia Bool Ascii String.
From Stdlib Require Import List Sorted Permutation.
Import ListNotations.
Local Open Scope Z_scope.

(** ** Python strings *)

Module Py.

Definition str := list Z.

(** Source literals are written as UTF-8 text; [u] decodes them to code
    points (one to four bytes per character). *)
Fixpoint utf8_decode (pending : nat) (acc : Z) (bs : list Z) : str :=
  match bs with
  | [] => []
  | b :: bs' =>
      match pending with
      | O =>
          if b <? 128 then b :: utf8_decode 0 0 bs'
          else if b <? 224 then utf8_decode 1 (b - 192) bs'
          else if b <? 240 then utf8_decode 2 (b - 224) bs'
          else utf8_decode 3 (b - 240) bs'
      | S O => (acc * 64 + (b - 128)) :: utf8_decode 0 0 bs'
      | S k => utf8_decode k (acc * 64 + (b - 128)) bs'
      end
  end.

Definition bytes_of (s : string) : list Z :=
  map (fun a => Z.of_nat (nat_of_ascii a)) (list_ascii_of_string s).

Definition u (s : string) : str := utf8_decode 0 0 (bytes_of s).

Fixpoint str_eqb (a b : str) : bool :=
  match a, b with
  | [], [] => true
  | x :: a', y :: b' => (x =? y) && str_eqb a' b'
  | _, _ => false
  end.

Definition str_eq_dec (a b : str) : {a = b} + {a <> b} :=
  list_eq_dec Z.eq_dec a b.

(** [w in l] for a list of strings. *)
Definition mem (w : str) (l : list str) : bool := existsb (str_eqb w) l.

(** [len(s)] *)
Definition len (s : str) : Z := Z.of_nat (length s).

(** [s[:k]] and [l[:k]]: a negative bound counts from the end. *)
Definition slice_to {A} (l : list A) (k : Z) : list A :=
  if k <? 0 then firstn (Z.to_nat (Z.of_nat (length l) + k)) l
  else firstn (Z.to_nat k) l.

(** [sep.join(l)] *)
Fixpoint join (sep : str) (l : list str) : str :=
  match l with
  | [] => []
  | [w] => w
  | w :: l' => w ++ sep ++ join sep l'
  end.

(** *** [str.lower]

    Python lower-cases by the Unicode character database; the tables below
    are those of CPython 3.11 (Unicode 14.0.0). *)

(** The code points [lo], [lo + step], ... up to [hi]. *)
Definition in_run (lo hi step c : Z) : bool :=
  (lo <=? c) && (c <=? hi) && ((c - lo) mod step =? 0).

Definition in_ranges (ranges : list (Z * Z)) (c : Z) : bool :=
  existsb (fun r => (fst r <=? c) && (c <=? snd r)) ranges.

(** The simple lower-case mapping: every code point of the run [lo], [hi],
    [step] is mapped to itself plus [delta]. *)
Definition lower_table : list (Z * Z * Z * Z) :=
  [ (65, 90, 1, 32); (192, 214, 1, 32); (216, 222, 1, 32); (256, 302, 2, 1);
    (306, 310, 2, 1); (313, 327, 2, 1); (330, 374, 2, 1);
    (376, 376, 1, -121); (377, 381, 2, 1); (385, 385, 1, 210);
    (386, 388, 2, 1); (390, 390, 1, 206); (391, 391, 1, 1);
    (393, 394, 1, 205); (395, 395, 1, 1); (398, 398, 1, 79);
    (399, 399, 1, 202); (400, 400, 1, 203); (401, 401, 1, 1);
    (403, 403, 1, 205); (404, 404, 1, 207); (406, 406, 1, 211);
    (407, 407, 1, 209); (408, 408, 1, 1); (412, 412, 1, 211);
    (413, 413, 1, 213); (415, 415, 1, 214); (416, 420, 2, 1);
    (422, 422, 1, 218); (423, 423, 1, 1); (425, 425, 1, 218);
    (428, 428, 1, 1); (430, 430, 1, 218); (431, 431, 1, 1);
    (433, 434, 1, 217); (435, 437, 2, 1); (439, 439, 1, 219);
    (440, 440, 1, 1); (444, 444, 1, 1); (452, 452, 1, 2); (453, 453, 1, 1);
    (455, 455, 1, 2); (456, 456, 1, 1); (458, 458, 1, 2); (459, 475, 2, 1);
    (478, 494, 2, 1); (497, 497, 1, 2); (498, 500, 2, 1);
    (502, 502, 1, -97); (503, 503, 1, -56); (504, 542, 2, 1);
    (544, 544, 1, -130); (546, 562, 2, 1); (570, 570, 1, 10795);
    (571, 571, 1, 1); (573, 573, 1, -163); (574, 574, 1, 10792);
    (577, 577, 1, 1); (579, 579, 1, -195); (580, 580, 1, 69);
    (581, 581, 1, 71); (582, 590, 2, 1); (880, 882, 2, 1); (886, 886, 1, 1);
    (895, 895, 1, 116); (902, 902, 1, 38); (904, 906, 1, 37);
    (908, 908, 1, 64); (910, 911, 1, 63); (913, 929, 1, 32);
    (931, 939, 1, 32); (975, 975, 1, 8); (984, 1006, 2, 1);
    (1012, 1012, 1, -60); (1015, 1015, 1, 1); (1017, 1017, 1, -7);
    (1018, 1018, 1, 1); (1021, 1023, 1, -130); (1024, 1039, 1, 80);
    (1040, 1071, 1, 32); (1120, 1152, 2, 1); (1162, 1214, 2, 1);
    (1216, 1216, 1, 15); (1217, 1229, 2, 1); (1232, 1326, 2, 1);
    (1329, 1366, 1, 48); (4256, 4293, 1, 7264); (4295, 4295, 1, 7264);
    (4301, 4301, 1, 7264); (5024, 5103, 1, 38864); (5104, 5109, 1, 8);
    (7312, 7354, 1, -3008); (7357, 7359, 1, -3008); (7680, 7828, 2, 1);
    (7838, 7838, 1, -7615); (7840, 7934, 2, 1); (7944, 7951, 1, -8);
    (7960, 7965, 1, -8); (7976, 7983, 1, -8); (7992, 7999, 1, -8);
    (8008, 8013, 1, -8); (8025, 8031, 2, -8); (8040, 8047, 1, -8);
    (8072, 8079, 1, -8); (8088, 8095, 1, -8); (8104, 8111, 1, -8);
    (8120, 8121, 1, -8); (8122, 8123, 1, -74); (8124, 8124, 1, -9);
    (8136, 8139, 1, -86); (8140, 8140, 1, -9); (8152, 8153, 1, -8);
    (8154, 8155, 1, -100); (8168, 8169, 1, -8); (8170, 8171, 1, -112);
    (8172, 8172, 1, -7); (8184, 8185, 1, -128); (8186, 8187, 1, -126);
    (8188, 8188, 1, -9); (8486, 8486, 1, -7517); (8490, 8490, 1, -8383);
    (8491, 8491, 1, -8262); (8498, 8498, 1, 28); (8544, 8559, 1, 16);
    (8579, 8579, 1, 1); (9398, 9423, 1, 26); (11264, 11311, 1, 48);
    (11360, 11360, 1, 1); (11362, 11362, 1, -10743);
    (11363, 11363, 1, -3814); (11364, 11364, 1, -10727);
    (11367, 11371, 2, 1); (11373, 11373, 1, -10780);
    (11374, 11374, 1, -10749); (11375, 11375, 1, -10783);
    (11376, 11376, 1, -10782); (11378, 11378, 1, 1); (11381, 11381, 1, 1);
    (11390, 11391, 1, -10815); (11392, 11490, 2, 1); (11499, 11501, 2, 1);
    (11506, 11506, 1, 1); (42560, 42604, 2, 1); (42624, 42650, 2, 1);
    (42786, 42798, 2, 1); (42802, 42862, 2, 1); (42873, 42875, 2, 1);
    (42877, 42877, 1, -35332); (42878, 42886, 2, 1); (42891, 42891, 1, 1);
    (42893, 42893, 1, -42280); (42896, 42898, 2, 1); (42902, 42920, 2, 1);
    (42922, 42922, 1, -42308); (42923, 42923, 1, -42319);
    (42924, 42924, 1, -42315); (42925, 42925, 1, -42305);
    (42926, 42926, 1, -42308); (42928, 42928, 1, -42258);
    (42929, 42929, 1, -42282); (42930, 42930, 1, -42261);
    (42931, 42931, 1, 928); (42932, 42946, 2, 1); (42948, 42948, 1, -48);
    (42949, 42949, 1, -42307); (42950, 42950, 1, -35384);
    (42951, 42953, 2, 1); (42960, 42960, 1, 1); (42966, 42968, 2, 1);
    (42997, 42997, 1, 1); (65313, 65338, 1, 32); (66560, 66599, 1, 40);
    (66736, 66771, 1, 40); (66928, 66938, 1, 39); (66940, 66954, 1, 39);
    (66956, 66962, 1, 39); (66964, 66965, 1, 39); (68736, 68786, 1, 64);
    (71840, 71871, 1, 32); (93760, 93791, 1, 32); (125184, 125217, 1, 34) ].

Fixpoint lookup_lower (table : list (Z * Z * Z * Z)) (c : Z) : option Z :=
  match table with
  | [] => None
  | (lo, hi, step, delta) :: table' =>
      if in_run lo hi step c then Some (c + delta) else lookup_lower table' c
  end.

(** The full lower-case mapping of one character: capital I with dot above
    becomes two characters, every other character one. *)
Definition lower_full (c : Z) : str :=
  if c =? 304 then [105; 775]
  else match lookup_lower lower_table c with
       | Some d => [d]
       | None => [c]
       end.

(** The cased characters (lower case, upper case or title case), as
    ranges. *)
Definition cased_table : list (Z * Z) :=
  [ (65, 90); (97, 122); (170, 170); (181, 181); (186, 186); (192, 214);
    (216, 246); (248, 442); (444, 447); (452, 659); (661, 696); (704, 705);
    (736, 740); (837, 837); (880, 883); (886, 887); (890, 893); (895, 895);
    (902, 902); (904, 906); (908, 908); (910, 929); (931, 1013);
    (1015, 1153); (1162, 1327); (1329, 1366); (1376, 1416); (4256, 4293);
    (4295, 4295); (4301, 4301); (4304, 4346); (4349, 4351); (5024, 5109);
    (5112, 5117); (7296, 7304); (7312, 7354); (7357, 7359); (7424, 7615);
    (7680, 7957); (7960, 7965); (7968, 8005); (8008, 8013); (8016, 8023);
    (8025, 8025); (8027, 8027); (8029, 8029); (8031, 8061); (8064, 8116);
    (8118, 8124); (8126, 8126); (8130, 8132); (8134, 8140); (8144, 8147);
    (8150, 8155); (8160, 8172); (8178, 8180); (8182, 8188); (8305, 8305);
    (8319, 8319); (8336, 8348); (8450, 8450); (8455, 8455); (8458, 8467);
    (8469, 8469); (8473, 8477); (8484, 8484); (8486, 8486); (8488, 8488);
    (8490, 8493); (8495, 8500); (8505, 8505); (8508, 8511); (8517, 8521);
    (8526, 8526); (8544, 8575); (8579, 8580); (9398, 9449); (11264, 11492);
    (11499, 11502); (11506, 11507); (11520, 11557); (11559, 11559);
    (11565, 11565); (42560, 42605); (42624, 42653); (42786, 42887);
    (42891, 42894); (42896, 42954); (42960, 42961); (42963, 42963);
    (42965, 42969); (42997, 42998); (43000, 43002); (43824, 43866);
    (43868, 43880); (43888, 43967); (64256, 64262); (64275, 64279);
    (65313, 65338); (65345, 65370); (66560, 66639); (66736, 66771);
    (66776, 66811); (66928, 66938); (66940, 66954); (66956, 66962);
    (66964, 66965); (66967, 66977); (66979, 66993); (66995, 67001);
    (67003, 67004); (67456, 67456); (67459, 67461); (67463, 67504);
    (67506, 67514); (68736, 68786); (68800, 68850); (71840, 71903);
    (93760, 93823); (119808, 119892); (119894, 119964); (119966, 119967);
    (119970, 119970); (119973, 119974); (119977, 119980); (119982, 119993);
    (119995, 119995); (119997, 120003); (120005, 120069); (120071, 120074);
    (120077, 120084); (120086, 120092); (120094, 120121); (120123, 120126);
    (120128, 120132); (120134, 120134); (120138, 120144); (120146, 120485);
    (120488, 120512); (120514, 120538); (120540, 120570); (120572, 120596);
    (120598, 120628); (120630, 120654); (120656, 120686); (120688, 120712);
    (120714, 120744); (120746, 120770); (120772, 120779); (122624, 122633);
    (122635, 122654); (125184, 125251); (127280, 127305); (127312, 127337);
    (127344, 127369) ].

(** The case-ignorable characters, as ranges. *)
Definition case_ignorable_table : list (Z * Z) :=
  [ (39, 39); (46, 46); (58, 58); (94, 94); (96, 96); (168, 168);
    (173, 173); (175, 175); (180, 180); (183, 184); (688, 879); (884, 885);
    (890, 890); (900, 901); (903, 903); (1155, 1161); (1369, 1369);
    (1375, 1375); (1425, 1469); (1471, 1471); (1473, 1474); (1476, 1477);
    (1479, 1479); (1524, 1524); (1536, 1541); (1552, 1562); (1564, 1564);
    (1600, 1600); (1611, 1631); (1648, 1648); (1750, 1757); (1759, 1768);
    (1770, 1773); (1807, 1807); (1809, 1809); (1840, 1866); (1958, 1968);
    (2027, 2037); (2042, 2042); (2045, 2045); (2070, 2093); (2137, 2139);
    (2184, 2184); (2192, 2193); (2200, 2207); (2249, 2306); (2362, 2362);
    (2364, 2364); (2369, 2376); (2381, 2381); (2385, 2391); (2402, 2403);
    (2417, 2417); (2433, 2433); (2492, 2492); (2497, 2500); (2509, 2509);
    (2530, 2531); (2558, 2558); (2561, 2562); (2620, 2620); (2625, 2626);
    (2631, 2632); (2635, 2637); (2641, 2641); (2672, 2673); (2677, 2677);
    (2689, 2690); (2748, 2748); (2753, 2757); (2759, 2760); (2765, 2765);
    (2786, 2787); (2810, 2815); (2817, 2817); (2876, 2876); (2879, 2879);
    (2881, 2884); (2893, 2893); (2901, 2902); (2914, 2915); (2946, 2946);
    (3008, 3008); (3021, 3021); (3072, 3072); (3076, 3076); (3132, 3132);
    (3134, 3136); (3142, 3144); (3146, 3149); (3157, 3158); (3170, 3171);
    (3201, 3201); (3260, 3260); (3263, 3263); (3270, 3270); (3276, 3277);
    (3298, 3299); (3328, 3329); (3387, 3388); (3393, 3396); (3405, 3405);
    (3426, 3427); (3457, 3457); (3530, 3530); (3538, 3540); (3542, 3542);
    (3633, 3633); (3636, 3642); (3654, 3662); (3761, 3761); (3764, 3772);
    (3782, 3782); (3784, 3789); (3864, 3865); (3893, 3893); (3895, 3895);
    (3897, 3897); (3953, 3966); (3968, 3972); (3974, 3975); (3981, 3991);
    (3993, 4028); (4038, 4038); (4141, 4144); (4146, 4151); (4153, 4154);
    (4157, 4158); (4184, 4185); (4190, 4192); (4209, 4212); (4226, 4226);
    (4229, 4230); (4237, 4237); (4253, 4253); (4348, 4348); (4957, 4959);
    (5906, 5908); (5938, 5939); (5970, 5971); (6002, 6003); (6068, 6069);
    (6071, 6077); (6086, 6086); (6089, 6099); (6103, 6103); (6109, 6109);
    (6155, 6159); (6211, 6211); (6277, 6278); (6313, 6313); (6432, 6434);
    (6439, 6440); (6450, 6450); (6457, 6459); (6679, 6680); (6683, 6683);
    (6742, 6742); (6744, 6750); (6752, 6752); (6754, 6754); (6757, 6764);
    (6771, 6780); (6783, 6783); (6823, 6823); (6832, 6862); (6912, 6915);
    (6964, 6964); (6966, 6970); (6972, 6972); (6978, 6978); (7019, 7027);
    (7040, 7041); (7074, 7077); (7080, 7081); (7083, 7085); (7142, 7142);
    (7144, 7145); (7149, 7149); (7151, 7153); (7212, 7219); (7222, 7223);
    (7288, 7293); (7376, 7378); (7380, 7392); (7394, 7400); (7405, 7405);
    (7412, 7412); (7416, 7417); (7468, 7530); (7544, 7544); (7579, 7679);
    (8125, 8125); (8127, 8129); (8141, 8143); (8157, 8159); (8173, 8175);
    (8189, 8190); (8203, 8207); (8216, 8217); (8228, 8228); (8231, 8231);
    (8234, 8238); (8288, 8292); (8294, 8303); (8305, 8305); (8319, 8319);
    (8336, 8348); (8400, 8432); (11388, 11389); (11503, 11505);
    (11631, 11631); (11647, 11647); (11744, 11775); (11823, 11823);
    (12293, 12293); (12330, 12333); (12337, 12341); (12347, 12347);
    (12441, 12446); (12540, 12542); (40981, 40981); (42232, 42237);
    (42508, 42508); (42607, 42610); (42612, 42621); (42623, 42623);
    (42652, 42655); (42736, 42737); (42752, 42785); (42864, 42864);
    (42888, 42890); (42994, 42996); (43000, 43001); (43010, 43010);
    (43014, 43014); (43019, 43019); (43045, 43046); (43052, 43052);
    (43204, 43205); (43232, 43249); (43263, 43263); (43302, 43309);
    (43335, 43345); (43392, 43394); (43443, 43443); (43446, 43449);
    (43452, 43453); (43471, 43471); (43493, 43494); (43561, 43566);
    (43569, 43570); (43573, 43574); (43587, 43587); (43596, 43596);
    (43632, 43632); (43644, 43644); (43696, 43696); (43698, 43700);
    (43703, 43704); (43710, 43711); (43713, 43713); (43741, 43741);
    (43756, 43757); (43763, 43764); (43766, 43766); (43867, 43871);
    (43881, 43883); (44005, 44005); (44008, 44008); (44013, 44013);
    (64286, 64286); (64434, 64450); (65024, 65039); (65043, 65043);
    (65056, 65071); (65106, 65106); (65109, 65109); (65279, 65279);
    (65287, 65287); (65294, 65294); (65306, 65306); (65342, 65342);
    (65344, 65344); (65392, 65392); (65438, 65439); (65507, 65507);
    (65529, 65531); (66045, 66045); (66272, 66272); (66422, 66426);
    (67456, 67461); (67463, 67504); (67506, 67514); (68097, 68099);
    (68101, 68102); (68108, 68111); (68152, 68154); (68159, 68159);
    (68325, 68326); (68900, 68903); (69291, 69292); (69446, 69456);
    (69506, 69509); (69633, 69633); (69688, 69702); (69744, 69744);
    (69747, 69748); (69759, 69761); (69811, 69814); (69817, 69818);
    (69821, 69821); (69826, 69826); (69837, 69837); (69888, 69890);
    (69927, 69931); (69933, 69940); (70003, 70003); (70016, 70017);
    (70070, 70078); (70089, 70092); (70095, 70095); (70191, 70193);
    (70196, 70196); (70198, 70199); (70206, 70206); (70367, 70367);
    (70371, 70378); (70400, 70401); (70459, 70460); (70464, 70464);
    (70502, 70508); (70512, 70516); (70712, 70719); (70722, 70724);
    (70726, 70726); (70750, 70750); (70835, 70840); (70842, 70842);
    (70847, 70848); (70850, 70851); (71090, 71093); (71100, 71101);
    (71103, 71104); (71132, 71133); (71219, 71226); (71229, 71229);
    (71231, 71232); (71339, 71339); (71341, 71341); (71344, 71349);
    (71351, 71351); (71453, 71455); (71458, 71461); (71463, 71467);
    (71727, 71735); (71737, 71738); (71995, 71996); (71998, 71998);
    (72003, 72003); (72148, 72151); (72154, 72155); (72160, 72160);
    (72193, 72202); (72243, 72248); (72251, 72254); (72263, 72263);
    (72273, 72278); (72281, 72283); (72330, 72342); (72344, 72345);
    (72752, 72758); (72760, 72765); (72767, 72767); (72850, 72871);
    (72874, 72880); (72882, 72883); (72885, 72886); (73009, 73014);
    (73018, 73018); (73020, 73021); (73023, 73029); (73031, 73031);
    (73104, 73105); (73109, 73109); (73111, 73111); (73459, 73460);
    (78896, 78904); (92912, 92916); (92976, 92982); (92992, 92995);
    (94031, 94031); (94095, 94111); (94176, 94177); (94179, 94180);
    (110576, 110579); (110581, 110587); (110589, 110590); (113821, 113822);
    (113824, 113827); (118528, 118573); (118576, 118598); (119143, 119145);
    (119155, 119170); (119173, 119179); (119210, 119213); (119362, 119364);
    (121344, 121398); (121403, 121452); (121461, 121461); (121476, 121476);
    (121499, 121503); (121505, 121519); (122880, 122886); (122888, 122904);
    (122907, 122913); (122915, 122916); (122918, 122922); (123184, 123197);
    (123566, 123566); (123628, 123631); (125136, 125142); (125252, 125259);
    (127995, 127999); (917505, 917505); (917536, 917631); (917760, 917999) ].

Definition cased (c : Z) : bool := in_ranges cased_table c.
Definition case_ignorable (c : Z) : bool := in_ranges case_ignorable_table c.

Fixpoint skip_ignorable (s : str) : str :=
  match s with
  | [] => []
  | c :: s' => if case_ignorable c then skip_ignorable s' else s
  end.

(** Capital sigma is in final position when a cased character stands
    before it and none after it, case-ignorable characters apart.
    [before] holds the characters to the left, nearest first. *)
Definition final_sigma (before after : str) : bool :=
  match skip_ignorable before with
  | c :: _ =>
      cased c
      && match skip_ignorable after with
         | d :: _ => negb (cased d)
         | [] => true
         end
  | [] => false
  end.

Fixpoint lower_from (before s : str) : str :=
  match s with
  | [] => []
  | c :: s' =>
      (if c =? 931 then [if final_sigma before s' then 962 else 963]
       else lower_full c)
      ++ lower_from (c :: before) s'
  end.

Definition lower (s : str) : str := lower_from [] s.

(** [str.lower] changes the character [c]. *)
Definition changed (c : Z) : bool := negb (str_eqb (lower_full c) [c]).

(** The code points of a run, listed. *)
Definition run_points (lo hi step : Z) : list Z :=
  map (fun k => lo + step * Z.of_nat k)
      (seq 0 (S (Z.to_nat ((hi - lo) / step)))).

(** [str.isspace] for one character: the code points Python treats as
    whitespace. *)
Definition is_space (c : Z) : bool :=
  ((9 <=? c) && (c <=? 13)) || ((28 <=? c) && (c <=? 32))
  || (c =? 133) || (c =? 160) || (c =? 5760)
  || ((8192 <=? c) && (c <=? 8202))
  || (c =? 8232) || (c =? 8233) || (c =? 8239) || (c =? 8287) || (c =? 12288).

Fixpoint lstrip (s : str) : str :=
  match s with
  | [] => []
  | c :: s' => if is_space c then lstrip s' else s
  end.

Definition rstrip (s : str) : str := rev (lstrip (rev s)).

(** [str.strip()]: the left end is found first, then the right end. *)
Definition strip (s : str) : str := rstrip (lstrip s).

(** [needle in s] for strings. *)
Fixpoint starts_with (p s : str) : bool :=
  match p, s with
  | [], _ => true
  | x :: p', y :: s' => (x =? y) && starts_with p' s'
  | _ :: _, [] => false
  end.

Fixpoint contains (needle s : str) : bool :=
  starts_with needle s
  || match s with
     | [] => false
     | _ :: s' => contains needle s'
     end.

Definition LF : Z := 10.

(** [s.split("\n\n")]: the text is cut at each blank-line boundary, scanning
    from the left; [acc] holds the current piece, reversed. *)
Fixpoint split_blank_from (acc : str) (s : str) : list str :=
  match s with
  | [] => [rev acc]
  | c :: s' =>
      match s' with
      | d :: s'' =>
          if (c =? LF) && (d =? LF) then rev acc :: split_blank_from [] s''
          else split_blank_from (c :: acc) s'
      | [] => [rev (c :: acc)]
      end
  end.

Definition split_blank (s : str) : list str := split_blank_from [] s.

(** *** [re]: the only pattern of the program, a character class repeated
    at least [n] times ([[...]{n,}]) *)

Inductive class_item : Type :=
| Range (lo hi : Z)
| Chr (c : Z).

Definition in_class (cls : list class_item) (c : Z) : bool :=
  existsb (fun i => match i with
                    | Range lo hi => (lo <=? c) && (c <=? hi)
                    | Chr d => c =? d
                    end) cls.

(** The greedy repetition consumes the longest run of class characters. *)
Fixpoint run_length (cls : list class_item) (s : str) : nat :=
  match s with
  | c :: s' => if in_class cls c then S (run_length cls s') else O
  | [] => O
  end.

Definition match_here (cls : list class_item) (n : nat) (s : str) : bool :=
  (n <=? run_length cls s)%nat.

(** [bool(re.search(pattern, s))]: a match is tried at every position. *)
Fixpoint re_search (cls : list class_item) (n : nat) (s : str) : bool :=
  match_here cls n s
  || match s with
     | [] => false
     | _ :: s' => re_search cls n s'
     end.

(** *** [collections.Counter] *)

(** A counter is a dict: its items are kept in insertion order, that is in
    the order in which the keys were first counted. *)
Definition counter := list (str * nat).

Fixpoint incr (w : str) (c : counter) : counter :=
  match c with
  | [] => [(w, 1%nat)]
  | (k, n) :: c' =>
      if str_eqb k w then (k, S n) :: c' else (k, n) :: incr w c'
  end.

Definition keys (c : counter) : list str := map fst c.

Definition Counter (l : list str) : counter :=
  fold_left (fun c w => incr w c) l [].

(** [sorted(items, key=itemgetter(1), reverse=True)]: descending by count
    and stable, so items of equal count keep their order. *)
Fixpoint insert_desc (x : str * nat) (l : counter) : counter :=
  match l with
  | [] => [x]
  | y :: l' => if (snd x <? snd y)%nat then y :: insert_desc x l' else x :: l
  end.

Fixpoint sorted_desc (c : counter) : counter :=
  match c with
  | [] => []
  | x :: c' => insert_desc x (sorted_desc c')
  end.

(** [max(items, key=itemgetter(1))]: the first item of greatest count. *)
Definition pick (best y : str * nat) : str * nat :=
  if (snd best <? snd y)%nat then y else best.

Definition max_first (c : counter) : option (str * nat) :=
  match c with
  | [] => None
  | x :: c' => Some (fold_left pick c' x)
  end.

(** [heapq.nlargest(n, items, key=itemgetter(1))], branch by branch: [max]
    for [n == 1]; the sorted list cut at [n] when [n] is at least the number
    of items; otherwise the heap selection, which starts from
    [zip(range(0, -n, -1), it)], empty for [n <= 0], and else returns the [n]
    greatest items in sorted order. *)
Definition nlargest (n : Z) (items : counter) : counter :=
  if n =? 1 then
    match max_first items with
    | Some x => [x]
    | None => []
    end
  else if Z.of_nat (length items) <=? n then slice_to (sorted_desc items) n
  else if n <=? 0 then []
  else firstn (Z.to_nat n) (sorted_desc items).

(** [Counter.most_common(n)] with [n] given. *)
Definition most_common (c : counter) (n : Z) : counter := nlargest n c.

(** *** Exceptions and the trace of calls *)

(** The outcome of a call that may raise; an exception is represented by
    its message [str(e)]. *)
Inductive res (A : Type) : Type :=
| Ok (a : A)
| Raise (e : str).
Arguments Ok {A} a.
Arguments Raise {A} e.

Inductive event : Type :=
| Extract (text : str)            (* a run of the keyword extractor *)
| Chat (system prompt : str).    (* a request to the generation service *)

(** A computation: its outcome and the calls it made, in order. *)
Definition Eff (A : Type) : Type := (res A * list event)%type.

Definition ret {A} (a : A) : Eff A := (Ok a, []).

Definition raise {A} (e : str) : Eff A := (Raise e, []).

Definition bind {A B} (m : Eff A) (f : A -> Eff B) : Eff B :=
  match m with
  | (Ok a, t) => let (r, t') := f a in (r, t ++ t')
  | (Raise e, t) => (Raise e, t)
  end.

(** [try: m except Exception as e: h e] *)
Definition try_except {A} (m : Eff A) (h : str -> Eff A) : Eff A :=
  match m with
  | (Ok a, t) => (Ok a, t)
  | (Raise e, t) => let (r, t') := h e in (r, t ++ t')
  end.

Definition lift {A} (r : res A) : Eff A := (r, []).

Definition tell (e : event) : Eff unit := (Ok tt, [e]).

Fixpoint mapM {A B} (f : A -> Eff B) (l : list A) : Eff (list B) :=
  match l with
  | [] => ret []
  | x :: l' => bind (f x) (fun y => bind (mapM f l') (fun ys => ret (y :: ys)))
  end.

Definition outcome {A} (m : Eff A) : res A := fst m.
Definition trace {A} (m : Eff A) : list event := snd m.

Definition is_chat (e : event) : bool :=
  match e with
  | Chat _ _ => true
  | Extract _ => false
  end.

(** The generation service was not called. *)
Definition no_chat (t : list event) : Prop := forallb (fun e => negb (is_chat e)) t = true.

End Py.

Import Py.

Notation "x <- m ;; k" := (bind m (fun x => k))
  (at level 61, m at next level, right associativity).

(** ** Collaborators *)

(** A token of the tagger: surface form, coarse category, stop-word flag. *)
Record Token : Type := {
  text : str;
  pos_ : str;
  is_stop : bool
}.

(** An upload.  [pdf_open] is what [pdfplumber.open] makes of it: an
    exception, or the pages, each with the outcome of [extract_text()]
    ([None] for a page without text).  [docx_open] is what [Document] makes
    of it: an exception, or the text of its paragraphs. *)
Record FileStorage : Type := {
  filename : str;
  mimetype : str;
  pdf_open : res (list (res (option str)));
  docx_open : res (list str)
}.

(** The tagger is called with a text and returns its tokens or raises
    (spaCy refuses a text longer than its [max_length], for one).
    [answering f] is a tagger that answers every text, with [f text]. *)
Definition answering (f : str -> list Token) : str -> res (list Token) :=
  fun text => Ok (f text).

(** A block of a word-processing document. *)
Inductive block : Type :=
| Heading (level : Z) (title : str)
| Paragraph (content : str).

Definition document := list block.

(** [Document()] starts without blocks; [add_heading] and [add_paragraph]
    append one. *)
Definition new_document : document := [].
Definition add_heading (d : document) (title : str) (level : Z) : document :=
  d ++ [Heading level title].
Definition add_paragraph (d : document) (content : str) : document :=
  d ++ [Paragraph content].

Definition MIME_PDF : str := u "application/pdf".
Definition MIME_DOCX : str :=
  u "application/vnd.openxmlformats-officedocument.wordprocessingml.document".

(** ** [api.py]: the programmatic entry point *)

Module Api.

Definition blacklisted_terms : list str :=
  [ u "daten"; u "persönliche"; u "nachname"; u "geburtsort"; u "geburtstag";
    u "adresse"; u "telefon"; u "email"; u "e-mail"; u "straße";
    u "postleitzahl" ].

Definition priority_terms : list str :=
  [ u "vermögensberatung"; u "kundenberatung"; u "finanzwesen";
    u "bankkauffrau"; u "bankkaufmann"; u "kundenmanagement";
    u "finanzprodukte" ].

(** The filter of the list comprehension. *)
Definition keeps (token : Token) : bool :=
  mem (pos_ token) [u "NOUN"; u "ADJ"; u "VERB"]
  && (3 <? len (text token))
  && negb (is_stop token)
  && negb (mem (lower (text token)) blacklisted_terms).

(** The body of [extract_keywords] after [doc = nlp(text)]. *)
Definition keywords_of (doc : list Token) : list str :=
  map (fun token => lower (text token)) (filter keeps doc).

Definition prioritized_of (keywords : list str) : list str :=
  filter (fun word => mem word keywords) priority_terms.

Definition rank (doc : list Token) : list str :=
  let keywords := keywords_of doc in
  let keyword_counts := Counter keywords in
  let prioritized := prioritized_of keywords in
  let other_keywords :=
    map fst (most_common keyword_counts (5 - Z.of_nat (length prioritized))) in
  prioritized ++ slice_to other_keywords (5 - Z.of_nat (length prioritized)).

(** [[a-zA-ZäöüÄÖÜß]] *)
Definition letters : list class_item :=
  [ Range 97 122; Range 65 90; Chr 228; Chr 246; Chr 252; Chr 196; Chr 214;
    Chr 220; Chr 223 ].

Definition is_valid_input (text : str) : bool :=
  (10 <=? len text) && re_search letters 3 text.

Definition NO_TEXT_PDF : str :=
  u "Fehler: Kein extrahierbarer Text in der PDF-Datei.".
Definition NO_TEXT_DOCX : str :=
  u "Fehler: Kein extrahierbarer Text in der DOCX-Datei.".

(** [page.extract_text() or ""] *)
Definition page_text (page : res (option str)) : Eff str :=
  t <- lift page ;;
  ret (match t with
       | Some s => s
       | None => []
       end).

Definition extract_text_from_pdf (file : FileStorage) : Eff str :=
  try_except
    (pages <- lift (pdf_open file) ;;
     texts <- mapM page_text pages ;;
     let text := concat texts in
     match strip text with
     | [] => ret NO_TEXT_PDF
     | _ :: _ => ret text
     end)
    (fun e => ret (u "Fehler beim Lesen der PDF: " ++ e)).

Definition extract_text_from_docx (file : FileStorage) : Eff str :=
  try_except
    (paragraphs <- lift (docx_open file) ;;
     let text := concat paragraphs in
     match strip text with
     | [] => ret NO_TEXT_DOCX
     | _ :: _ => ret text
     end)
    (fun e => ret (u "Fehler beim Lesen der DOCX: " ++ e)).

(** [all([...])] over strings: none is empty. *)
Definition all_filled (l : list str) : bool :=
  forallb (fun s => match s with
                    | [] => false
                    | _ :: _ => true
                    end) l.

Definition SYSTEM : str := u "Du bist ein professioneller Bewerbungsassistent.".

Definition FEHLER : str := u "Fehler".

Section Collaborators.

(** The tagger: the tokens of a text, or an exception, the same on every
    call with the same text (the loaded model is not changed by a call).
    The generation service: the content of the first choice of its answer
    to a system and a user message, or an exception. *)
Variable nlp : str -> res (list Token).
Variable chat : str -> str -> res str.

Definition extract_keywords (text : str) : Eff (list str) :=
  _ <- tell (Extract text) ;;
  doc <- lift (nlp text) ;;
  ret (rank doc).

(** The f-string, piece by piece. *)
Definition prompt_of (cv_text job_text strengths weaknesses name company tone : str)
    (cv_keywords job_keywords : list str) : str :=
  u "
    Erstelle ein " ++ lower tone
  ++ u "es Motivationsschreiben auf Deutsch für " ++ name
  ++ u ", der/die sich bei " ++ company
  ++ u " auf eine Position als Bankkauffrau/-mann bewirbt. Verwende die folgenden Informationen:

    **Lebenslauf (Auszug)**: " ++ slice_to cv_text 1000
  ++ u "
    **Wichtige Schlüsselwörter aus dem Lebenslauf**: " ++ join (u ", ") cv_keywords
  ++ u "
    **Stellenprofil (Auszug)**: " ++ slice_to job_text 1000
  ++ u "
    **Wichtige Schlüsselwörter aus dem Stellenprofil**: " ++ join (u ", ") job_keywords
  ++ u "
    **Stärken**: " ++ strengths
  ++ u "
    **Schwächen**: " ++ weaknesses
  ++ u "

    Das Schreiben soll:
    - Höflich und professionell sein.
    - Die Qualifikationen des Bewerbers mit den Anforderungen der Stelle verknüpfen.
    - Stärken hervorheben und Schwächen positiv darstellen.
    - Maximal 400 Wörter lang sein.
    - Mit einer höflichen Schlussformel enden.
    ".

Definition generate_cover_letter
    (cv_text job_text strengths weaknesses name company tone : str) : Eff str :=
  if negb (all_filled [cv_text; job_text; strengths; weaknesses; name; company])
  then ret (u "Fehler: Alle Felder müssen ausgefüllt sein.")
  else if negb (is_valid_input strengths) || negb (is_valid_input weaknesses)
  then ret (u "Fehler: Stärken und Schwächen müssen sinnvolle Eingaben sein.")
  else
    cv_keywords <- extract_keywords cv_text ;;
    job_keywords <- extract_keywords job_text ;;
    let prompt :=
      prompt_of cv_text job_text strengths weaknesses name company tone
                cv_keywords job_keywords in
    try_except
      (_ <- tell (Chat SYSTEM prompt) ;;
       content <- lift (chat SYSTEM prompt) ;;
       ret (strip content))
      (fun e => ret (u "Fehler bei der API-Anfrage: " ++ e)).

(** *** The endpoint [/generate_cover_letter] *)

(** [request.files.get] and [request.form.get]: [None] for a missing
    part. *)
Record request : Type := {
  cv_file : option FileStorage;
  job_file : option FileStorage;
  strengths : option str;
  weaknesses : option str;
  name : option str;
  company : option str;
  tone : option str
}.

Inductive json : Type :=
| JError (error : str)
| JLetter (cover_letter : str) (cv_keywords job_keywords : list str).

Record response : Type := {
  status : Z;
  body : json
}.

(** [jsonify(...)] alone answers with status 200. *)
Definition jsonify (j : json) : response := {| status := 200; body := j |}.
Definition jsonify_status (j : json) (code : Z) : response :=
  {| status := code; body := j |}.

(** The truth value of an upload is that of its file name. *)
Definition file_given (f : option FileStorage) : bool :=
  match f with
  | Some file =>
      match filename file with
      | [] => false
      | _ :: _ => true
      end
  | None => false
  end.

(** The truth value of a form field: present and not empty. *)
Definition field_given (f : option str) : bool :=
  match f with
  | Some (_ :: _) => true
  | _ => false
  end.

(** The string of a form field that is present. *)
Definition val (f : option str) : str :=
  match f with
  | Some s => s
  | None => []
  end.

(** An upload that is given, as the two [if not ...] guards see it. *)
Definition given (f : option FileStorage) : option FileStorage :=
  if file_given f then f else None.

Definition error (message : str) (code : Z) : Eff response :=
  ret (jsonify_status (JError message) code).

(** The endpoint from the check of the two extracted texts on. *)
Definition respond (req : request) (tone cv_text job_text : str) : Eff response :=
  if contains FEHLER cv_text
  then error (u "Fehler beim Verarbeiten des Lebenslaufs: " ++ cv_text) 400
  else if contains FEHLER job_text
  then error (u "Fehler beim Verarbeiten des Stellenprofils: " ++ job_text) 400
  else if negb (forallb field_given
                  [name req; company req; strengths req; weaknesses req])
  then error (u "Alle Textfelder müssen ausgefüllt sein.") 400
  else if negb (is_valid_input (val (strengths req)))
          || negb (is_valid_input (val (weaknesses req)))
  then error (u "Stärken und Schwächen müssen sinnvolle Eingaben sein.") 400
  else
    cover_letter <- generate_cover_letter cv_text job_text
                      (val (strengths req)) (val (weaknesses req))
                      (val (name req)) (val (company req)) tone ;;
    if contains FEHLER cover_letter
    then error cover_letter 500
    else
      cv_keywords <- extract_keywords cv_text ;;
      job_keywords <- extract_keywords job_text ;;
      ret (jsonify (JLetter cover_letter cv_keywords job_keywords)).

(** The text of the résumé, or [None] for a media type that is refused. *)
Definition read_cv (cv_file : FileStorage) : Eff (option str) :=
  if str_eqb (mimetype cv_file) MIME_PDF then
    cv_text <- extract_text_from_pdf cv_file ;; ret (Some cv_text)
  else if str_eqb (mimetype cv_file) MIME_DOCX then
    cv_text <- extract_text_from_docx cv_file ;; ret (Some cv_text)
  else ret None.

Definition api_generate_cover_letter (req : request) : Eff response :=
  try_except
    (let tone := match tone req with
                 | Some t => t
                 | None => u "Professionell"
                 end in
     match given (cv_file req) with
     | None => error (u "Bitte laden Sie einen Lebenslauf hoch.") 400
     | Some cv_file =>
     match given (job_file req) with
     | None => error (u "Bitte laden Sie ein Stellenprofil hoch.") 400
     | Some job_file =>
         cv <- read_cv cv_file ;;
         match cv with
         | None =>
             error (u "Ungültiges Lebenslauf-Format: " ++ mimetype cv_file
                    ++ u ". Nur PDF oder DOCX erlaubt.") 400
         | Some cv_text =>
             if str_eqb (mimetype job_file) MIME_PDF then
               job_text <- extract_text_from_pdf job_file ;;
               respond req tone cv_text job_text
             else
               error (u "Ungültiges Stellenprofil-Format: " ++ mimetype job_file
                      ++ u ". Nur PDF erlaubt.") 400
         end
     end
     end)
    (fun e => error e 500).

End Collaborators.

(** *** The endpoint [/generate_docx] *)

Definition TITLE : str := u "Motivationsschreiben".

Inductive docx_response : Type :=
| SendFile (attachment : document)
| JsonError (error : str) (code : Z).

(** [cover_letter] is [data.get('cover_letter')]; [save] is what
    [doc.save(filename)] does: it writes the file or raises. *)
Definition generate_docx (cover_letter : option str)
    (save : document -> res unit) : Eff docx_response :=
  try_except
    (match cover_letter with
     | Some (c :: letter) =>
         let doc := new_document in
         let doc := add_heading doc TITLE 1 in
         let doc :=
           fold_left (fun d paragraph => add_paragraph d (strip paragraph))
                     (split_blank (c :: letter)) doc in
         _ <- lift (save doc) ;;
         ret (SendFile doc)
     | _ => ret (JsonError (u "Kein Motivationsschreiben angegeben.") 400)
     end)
    (fun e => ret (JsonError e 500)).

End Api.

(** ** [app.py]: the interactive form

    The functions of the form are embedded from their own text, and so is
    the script that runs when the button is pressed. *)

Module App.

Definition blacklisted_terms : list str :=
  [ u "daten"; u "persönliche"; u "nachname"; u "geburtsort"; u "geburtstag";
    u "adresse"; u "telefon"; u "email"; u "e-mail"; u "straße";
    u "postleitzahl" ].

Definition priority_terms : list str :=
  [ u "vermögensberatung"; u "kundenberatung"; u "finanzwesen";
    u "bankkauffrau"; u "bankkaufmann"; u "kundenmanagement";
    u "finanzprodukte" ].

Definition keeps (token : Token) : bool :=
  mem (pos_ token) [u "NOUN"; u "ADJ"; u "VERB"]
  && (3 <? len (text token))
  && negb (is_stop token)
  && negb (mem (lower (text token)) blacklisted_terms).

Definition keywords_of (doc : list Token) : list str :=
  map (fun token => lower (text token)) (filter keeps doc).

Definition prioritized_of (keywords : list str) : list str :=
  filter (fun word => mem word keywords) priority_terms.

Definition rank (doc : list Token) : list str :=
  let keywords := keywords_of doc in
  let keyword_counts := Counter keywords in
  let prioritized := prioritized_of keywords in
  let other_keywords :=
    map fst (most_common keyword_counts (5 - Z.of_nat (length prioritized))) in
  prioritized ++ slice_to other_keywords (5 - Z.of_nat (length prioritized)).

Definition letters : list class_item :=
  [ Range 97 122; Range 65 90; Chr 228; Chr 246; Chr 252; Chr 196; Chr 214;
    Chr 220; Chr 223 ].

Definition is_valid_input (text : str) : bool :=
  (10 <=? len text) && re_search letters 3 text.

Definition page_text (page : res (option str)) : Eff str :=
  t <- lift page ;;
  ret (match t with
       | Some s => s
       | None => []
       end).

(** The form's extractors return the concatenated text as it is. *)
Definition extract_text_from_pdf (file : FileStorage) : Eff str :=
  try_except
    (pages <- lift (pdf_open file) ;;
     texts <- mapM page_text pages ;;
     let text := concat texts in
     ret text)
    (fun e => ret (u "Fehler beim Lesen der PDF: " ++ e)).

Definition extract_text_from_docx (file : FileStorage) : Eff str :=
  try_except
    (paragraphs <- lift (docx_open file) ;;
     let text := concat paragraphs in
     ret text)
    (fun e => ret (u "Fehler beim Lesen der DOCX: " ++ e)).

Definition SYSTEM : str := u "Du bist ein professioneller Bewerbungsassistent.".

Definition TITLE : str := u "Motivationsschreiben".

Section Collaborators.

Variable nlp : str -> res (list Token).
Variable chat : str -> str -> res str.

Definition extract_keywords (text : str) : Eff (list str) :=
  _ <- tell (Extract text) ;;
  doc <- lift (nlp text) ;;
  ret (rank doc).

Definition prompt_of (cv_text job_text strengths weaknesses name company : str)
    (cv_keywords job_keywords : list str) : str :=
  u "
    Erstelle ein professionelles, flüssiges und individuelles Motivationsschreiben auf Deutsch für "
  ++ name
  ++ u ", der/die sich bei " ++ company
  ++ u " auf eine Position als Bankkauffrau/-mann bewirbt. Verwende die folgenden Informationen:

    **Lebenslauf (Auszug)**: " ++ slice_to cv_text 1000
  ++ u "
    **Wichtige Schlüsselwörter aus dem Lebenslauf**: " ++ join (u ", ") cv_keywords
  ++ u "
    **Stellenprofil (Auszug)**: " ++ slice_to job_text 1000
  ++ u "
    **Wichtige Schlüsselwörter aus dem Stellenprofil**: " ++ join (u ", ") job_keywords
  ++ u "
    **Stärken**: " ++ strengths
  ++ u "
    **Schwächen**: " ++ weaknesses
  ++ u "

    Das Schreiben soll:
    - Höflich und professionell sein.
    - Die Qualifikationen des Bewerbers mit den Anforderungen der Stelle verknüpfen.
    - Stärken hervorheben und Schwächen positiv darstellen.
    - Maximal 400 Wörter lang sein.
    - Mit einer höflichen Schlussformel enden.
    ".

Definition generate_cover_letter
    (cv_text job_text strengths weaknesses name company : str) : Eff str :=
  cv_keywords <- extract_keywords cv_text ;;
  job_keywords <- extract_keywords job_text ;;
  let prompt :=
    prompt_of cv_text job_text strengths weaknesses name company
              cv_keywords job_keywords in
  try_except
    (_ <- tell (Chat SYSTEM prompt) ;;
     content <- lift (chat SYSTEM prompt) ;;
     ret (strip content))
    (fun e => ret (u "Fehler bei der API-Anfrage: " ++ e)).

End Collaborators.

(** [doc.save] is left out: the document built is the result. *)
Definition save_cover_letter (text : str) : document :=
  let doc := new_document in
  let doc := add_heading doc TITLE 1 in
  fold_left (fun d paragraph => add_paragraph d (strip paragraph))
            (split_blank text) doc.

(** *** The script behind the button

    What the script shows after "Motivationsschreiben generieren" was
    pressed, in order.  [st.stop()] ends the run.  The script catches no
    exception: one raised by [doc.save] ends the run after the letter was
    shown, and Streamlit shows it in a box, [StException]; one raised by
    the tagger ends the run before anything was shown and is the outcome
    of the run.  An upload of the form carries its media type in [type],
    here the field [mimetype]; it is true whenever it is there. *)

Inductive widget : Type :=
| StError (message : str)
| StWrite (args : list str)
| StDownload (label : str) (data : document) (file_name mime : str)
| StException (e : str).

Record form : Type := {
  name : str;
  company : str;
  cv_file : option FileStorage;
  job_file : option FileStorage;
  strengths : str;
  weaknesses : str;
  tone : str
}.

(** The truth value of a string. *)
Definition filled (s : str) : bool :=
  match s with
  | [] => false
  | _ :: _ => true
  end.

Definition FEHLER : str := u "Fehler".

Definition FILENAME : str := u "Motivationsschreiben.docx".

Section Form.

Variable nlp : str -> res (list Token).
Variable chat : str -> str -> res str.

(** What [doc.save(filename)] does with the document. *)
Variable save : document -> res unit.

(** The résumé text: empty for a media type the script does not know. *)
Definition read_cv (cv : FileStorage) : Eff str :=
  if str_eqb (mimetype cv) MIME_PDF then extract_text_from_pdf cv
  else if str_eqb (mimetype cv) MIME_DOCX then extract_text_from_docx cv
  else ret [].

(** The two lines of keywords, shown when both texts are there and neither
    contains the marker word. *)
Definition show_keywords (cv_text job_text : str) : Eff (list widget) :=
  if filled cv_text && filled job_text
     && negb (contains FEHLER cv_text || contains FEHLER job_text)
  then
    cv_keywords <- extract_keywords nlp cv_text ;;
    job_keywords <- extract_keywords nlp job_text ;;
    ret [ StWrite [u "**Schlüsselwörter (Lebenslauf):**"; join (u ", ") cv_keywords];
          StWrite [u "**Schlüsselwörter (Stellenprofil):**"; join (u ", ") job_keywords] ]
  else ret [].

(** The letter, and the download when the file could be written. *)
Definition show_letter (f : form) (cv_text job_text : str) : Eff (list widget) :=
  if filled cv_text && filled job_text then
    if contains FEHLER cv_text || contains FEHLER job_text then
      ret [StError (u "Fehler beim Verarbeiten der hochgeladenen Dateien.")]
    else
      cover_letter <- generate_cover_letter nlp chat cv_text job_text
                        (strengths f) (weaknesses f) (name f) (company f) ;;
      let written := [StWrite [u "**Motivationsschreiben:**"]; StWrite [cover_letter]] in
      let doc := save_cover_letter cover_letter in
      match save doc with
      | Ok _ =>
          ret (written
               ++ [StDownload (u "Motivationsschreiben herunterladen") doc
                              FILENAME MIME_DOCX])
      | Raise e => ret (written ++ [StException e])
      end
  else ret [StError (u "Bitte füllen Sie alle Felder aus.")].

Definition on_generate (f : form) : Eff (list widget) :=
  if negb (is_valid_input (strengths f)) || negb (is_valid_input (weaknesses f))
  then ret [StError (u "Bitte geben Sie sinnvolle Stärken und Schwächen ein (mindestens 10 Zeichen, keine zufälligen Zeichen).")]
  else if negb (filled (name f)) || negb (filled (company f))
  then ret [StError (u "Bitte geben Sie Ihren Namen und den Unternehmensnamen ein.")]
  else
    match cv_file f with
    | None => ret [StError (u "Bitte laden Sie einen Lebenslauf hoch.")]
    | Some cv =>
        cv_text <- read_cv cv ;;
        match job_file f with
        | None => ret [StError (u "Bitte laden Sie ein Stellenprofil hoch.")]
        | Some job =>
            job_text <- extract_text_from_pdf job ;;
            keywords <- show_keywords cv_text job_text ;;
            letter <- show_letter f cv_text job_text ;;
            ret (keywords ++ letter)
        end
    end.

End Form.

End App.

(** ** The specification's notions *)

Module Spec.

(** A letter of the validator: Basic Latin letters and the German umlaut
    letters with sharp s. *)
Definition alphabetic (c : Z) : Prop :=
  97 <= c <= 122 \/ 65 <= c <= 90 \/ In c [228; 246; 252; 196; 214; 220; 223].

(** The text contains a run of at least three consecutive letters. *)
Definition has_letter_run (s : str) : Prop :=
  exists pre run post,
    s = pre ++ run ++ post /\ (3 <= length run)%nat /\ Forall alphabetic run.

Definition valid (s : str) : Prop := 10 <= len s /\ has_letter_run s.

(** The letters that have a lower-case form of their own (Unicode 14.0.0),
    as runs [lo], [hi], [step]: the code points [lo], [lo + step], ... up
    to [hi].  Among them are the capitals of the Latin, Greek and Cyrillic
    alphabets, capital sharp s included.  A capital without a lower-case
    form, such as the double-struck C, is not among them. *)
Definition capitals : list (Z * Z * Z) :=
  [ (65, 90, 1); (192, 214, 1); (216, 222, 1); (256, 310, 2); (313, 327, 2);
    (330, 376, 2); (377, 381, 2); (385, 386, 1); (388, 390, 2);
    (391, 393, 2); (394, 395, 1); (398, 401, 1); (403, 404, 1);
    (406, 408, 1); (412, 413, 1); (415, 416, 1); (418, 422, 2);
    (423, 425, 2); (428, 430, 2); (431, 433, 2); (434, 435, 1);
    (437, 439, 2); (440, 440, 1); (444, 444, 1); (452, 453, 1);
    (455, 456, 1); (458, 459, 1); (461, 475, 2); (478, 494, 2);
    (497, 498, 1); (500, 502, 2); (503, 504, 1); (506, 562, 2);
    (570, 571, 1); (573, 574, 1); (577, 579, 2); (580, 582, 1);
    (584, 590, 2); (880, 882, 2); (886, 886, 1); (895, 895, 1);
    (902, 904, 2); (905, 906, 1); (908, 910, 2); (911, 913, 2);
    (914, 929, 1); (931, 939, 1); (975, 975, 1); (984, 1006, 2);
    (1012, 1012, 1); (1015, 1017, 2); (1018, 1018, 1); (1021, 1071, 1);
    (1120, 1152, 2); (1162, 1216, 2); (1217, 1229, 2); (1232, 1326, 2);
    (1329, 1366, 1); (4256, 4293, 1); (4295, 4295, 1); (4301, 4301, 1);
    (5024, 5109, 1); (7312, 7354, 1); (7357, 7359, 1); (7680, 7828, 2);
    (7838, 7934, 2); (7944, 7951, 1); (7960, 7965, 1); (7976, 7983, 1);
    (7992, 7999, 1); (8008, 8013, 1); (8025, 8031, 2); (8040, 8047, 1);
    (8072, 8079, 1); (8088, 8095, 1); (8104, 8111, 1); (8120, 8124, 1);
    (8136, 8140, 1); (8152, 8155, 1); (8168, 8172, 1); (8184, 8188, 1);
    (8486, 8486, 1); (8490, 8491, 1); (8498, 8498, 1); (8544, 8559, 1);
    (8579, 8579, 1); (9398, 9423, 1); (11264, 11311, 1); (11360, 11362, 2);
    (11363, 11364, 1); (11367, 11373, 2); (11374, 11376, 1);
    (11378, 11378, 1); (11381, 11381, 1); (11390, 11392, 1);
    (11394, 11490, 2); (11499, 11501, 2); (11506, 11506, 1);
    (42560, 42604, 2); (42624, 42650, 2); (42786, 42798, 2);
    (42802, 42862, 2); (42873, 42877, 2); (42878, 42886, 2);
    (42891, 42893, 2); (42896, 42898, 2); (42902, 42922, 2);
    (42923, 42926, 1); (42928, 42932, 1); (42934, 42948, 2);
    (42949, 42951, 1); (42953, 42953, 1); (42960, 42960, 1);
    (42966, 42968, 2); (42997, 42997, 1); (65313, 65338, 1);
    (66560, 66599, 1); (66736, 66771, 1); (66928, 66938, 1);
    (66940, 66954, 1); (66956, 66962, 1); (66964, 66965, 1);
    (68736, 68786, 1); (71840, 71871, 1); (93760, 93791, 1);
    (125184, 125217, 1) ].

Definition capital (c : Z) : Prop :=
  exists lo hi step,
    In (lo, hi, step) capitals /\ lo <= c <= hi /\ (c - lo) mod step = 0.

(** No character of the string has a lower-case form of its own. *)
Definition lowercase (s : str) : Prop := Forall (fun c => ~ capital c) s.

(** How often a term occurs among the candidates, and where it occurs
    first. *)
Definition occurrences (w : str) (cands : list str) : nat :=
  count_occ str_eq_dec cands w.

Fixpoint first_index (w : str) (cands : list str) : nat :=
  match cands with
  | [] => O
  | x :: cands' => if str_eq_dec x w then O else S (first_index w cands')
  end.

(** [a] is ranked before [b]: it is more frequent, or as frequent and
    first seen earlier. *)
Definition ranks_before (cands : list str) (a b : str) : Prop :=
  (occurrences b cands < occurrences a cands)%nat
  \/ (occurrences a cands = occurrences b cands
      /\ (first_index a cands < first_index b cands)%nat).

(** The frequency ranking of the candidates: every candidate term once,
    in descending frequency, ties in the order of first occurrence. *)
Definition is_ranking (cands r : list str) : Prop :=
  (forall w, In w r <-> In w cands)
  /\ NoDup r
  /\ StronglySorted (ranks_before cands) r.

(** The priority terms that occur among the candidates, in the order of the
    priority list. *)
Definition priority_hits (terms cands : list str) : list str :=
  filter (fun w => if in_dec str_eq_dec w cands then true else false) terms.

(** The keyword list of the specification: the priority terms found, then
    the top [5 - p] terms of the ranking ([p] the number of priority terms
    found; none when [p] exceeds 5). *)
Definition keyword_list (terms cands ranking : list str) : list str :=
  let prio := priority_hits terms cands in
  prio ++ firstn (5 - length prio) ranking.

(** What holds of [Counter l]: its keys are the terms of [l], each once, in
    the order of first occurrence, and each is stored with its number of
    occurrences. *)
Record counted (l : list str) (c : counter) : Prop := {
  counted_keys : forall w, In w (keys c) <-> In w l;
  counted_nodup : NoDup (keys c);
  counted_count : Forall (fun kv => snd kv = occurrences (fst kv) l) c;
  counted_order :
    StronglySorted
      (fun a b => (first_index a l < first_index b l)%nat) (keys c)
}.

(** The concatenated per-page text of a PDF that can be read, and the
    concatenated per-paragraph text of a word-processing document. *)
Definition pdf_text (file : FileStorage) (t : str) : Prop :=
  exists pages texts,
    pdf_open file = Ok pages
    /\ Forall2 (fun page s => page = Ok (Some s) \/ (page = Ok None /\ s = []))
               pages texts
    /\ t = concat texts.

Definition docx_text (file : FileStorage) (t : str) : Prop :=
  exists paragraphs, docx_open file = Ok paragraphs /\ t = concat paragraphs.

(** The upload cannot be read: opening it raises, or a page does. *)
Definition pdf_unreadable (file : FileStorage) (e : str) : Prop :=
  pdf_open file = Raise e
  \/ exists pages before after,
       pdf_open file = Ok pages
       /\ pages = before ++ Raise e :: after
       /\ Forall (fun page => exists t, page = Ok t) before.

(** A line of the prompt: line feed, four blanks, the label. *)
Definition line (label : string) : str := LF :: u "    " ++ u label.

(** [x] is the excerpt of [t]: its first 1000 characters, all of it when it
    is shorter. *)
Definition excerpt (t x : str) : Prop :=
  (exists rest, t = x ++ rest) /\ length x = Nat.min 1000 (length t).

(** [s] is the terms of [l] in their order, with a comma and a blank
    between neighbours and nothing before the first or after the last. *)
Inductive comma_separated : list str -> str -> Prop :=
| cs_none : comma_separated [] []
| cs_last (w : str) : comma_separated [w] w
| cs_more (w : str) (l : list str) (s : str) :
    l <> [] -> comma_separated l s ->
    comma_separated (w :: l) (w ++ [44; 32] ++ s).

(** The prompt holds, under their labels, the excerpts of the two texts,
    the terms of the two keyword lists separated by comma and blank, and
    the strengths and weaknesses as they are. *)
Definition embeds (prompt cv_text job_text strengths weaknesses : str)
    (cv_keywords job_keywords : list str) : Prop :=
  exists head cv_excerpt job_excerpt cv_terms job_terms tail,
    excerpt cv_text cv_excerpt
    /\ excerpt job_text job_excerpt
    /\ comma_separated cv_keywords cv_terms
    /\ comma_separated job_keywords job_terms
    /\ prompt
       = head
         ++ line "**Lebenslauf (Auszug)**: " ++ cv_excerpt
         ++ line "**Wichtige Schlüsselwörter aus dem Lebenslauf**: " ++ cv_terms
         ++ line "**Stellenprofil (Auszug)**: " ++ job_excerpt
         ++ line "**Wichtige Schlüsselwörter aus dem Stellenprofil**: " ++ job_terms
         ++ line "**Stärken**: " ++ strengths
         ++ line "**Schwächen**: " ++ weaknesses
         ++ tail.

(** Empty or white space only. *)
Definition blank (t : str) : Prop := Forall (fun c => is_space c = true) t.

(** A résumé upload the endpoint can use: it has a name, is a PDF or a
    word-processing document by its media type, and its text [t] is read
    without error, is not blank and does not contain the marker word. *)
Definition usable_cv (file : FileStorage) (t : str) : Prop :=
  filename file <> []
  /\ ((mimetype file = MIME_PDF /\ pdf_text file t)
      \/ (mimetype file = MIME_DOCX /\ docx_text file t))
  /\ ~ blank t
  /\ contains Api.FEHLER t = false.

(** The same for the job posting, which must be a PDF. *)
Definition usable_job (file : FileStorage) (t : str) : Prop :=
  filename file <> []
  /\ mimetype file = MIME_PDF
  /\ pdf_text file t
  /\ ~ blank t
  /\ contains Api.FEHLER t = false.

(** The four text fields of a request are present and filled in, and the
    strengths and weaknesses pass the validator. *)
Definition fields_valid (req : Api.request) : Prop :=
  Forall (fun f => exists s, f = Some s /\ s <> [])
         [Api.name req; Api.company req; Api.strengths req; Api.weaknesses req]
  /\ Api.is_valid_input (Api.val (Api.strengths req)) = true
  /\ Api.is_valid_input (Api.val (Api.weaknesses req)) = true.

(** The tone of a request: the form field, or the default. *)
Definition tone_of (req : Api.request) : str :=
  match Api.tone req with
  | Some t => t
  | None => u "Professionell"
  end.

(** The prompt the endpoint composes for a request with the texts [cv_text]
    and [job_text]. *)
Definition prompt_for (nlp : str -> list Token) (req : Api.request)
    (cv_text job_text : str) : str :=
  Api.prompt_of cv_text job_text
    (Api.val (Api.strengths req)) (Api.val (Api.weaknesses req))
    (Api.val (Api.name req)) (Api.val (Api.company req)) (tone_of req)
    (Api.rank (nlp cv_text)) (Api.rank (nlp job_text)).

(** The calls of a request that reached the generation service. *)
Definition calls_until_chat (cv_text job_text prompt : str) : list event :=
  [Extract cv_text; Extract job_text; Chat Api.SYSTEM prompt].

(** The four shapes of an answer of the endpoint: a rejection with status
    400 before any call; a failure with status 500 after the one request to
    the service, its message containing the marker word; a failure with
    status 500 that carries the exception the tagger raised on the résumé
    text or on the job text, before any request to the service; a letter
    with status 200, the stripped answer of the service, which does not
    contain the marker word, with the extractor run twice more for the
    answer. *)
Definition answers (nlp : str -> res (list Token)) (chat : str -> str -> res str)
    (r : Eff Api.response) : Prop :=
  (exists message,
      r = (Ok {| Api.status := 400; Api.body := Api.JError message |}, []))
  \/ (exists cv_text job_text prompt letter,
         contains Api.FEHLER letter = true
         /\ r = (Ok {| Api.status := 500; Api.body := Api.JError letter |},
                 calls_until_chat cv_text job_text prompt))
  \/ (exists cv_text job_text e,
         (nlp cv_text = Raise e
          /\ r = (Ok {| Api.status := 500; Api.body := Api.JError e |},
                  [Extract cv_text]))
         \/ ((exists doc, nlp cv_text = Ok doc)
             /\ nlp job_text = Raise e
             /\ r = (Ok {| Api.status := 500; Api.body := Api.JError e |},
                     [Extract cv_text; Extract job_text])))
  \/ (exists cv_text job_text prompt content cv_keywords job_keywords,
         chat Api.SYSTEM prompt = Ok content
         /\ contains Api.FEHLER (strip content) = false
         /\ r = (Ok {| Api.status := 200;
                       Api.body := Api.JLetter (strip content)
                                               cv_keywords job_keywords |},
                 calls_until_chat cv_text job_text prompt
                 ++ [Extract cv_text; Extract job_text])).

(** A form the script accepts: strengths and weaknesses pass the
    validator, name and company are filled in, the résumé is a PDF or a
    word-processing document whose text [t1] is read without error, the job
    file is read as a PDF with text [t2], and both texts are not empty and
    do not contain the marker word. *)
Definition form_ready (f : App.form) (t1 t2 : str) : Prop :=
  App.is_valid_input (App.strengths f) = true
  /\ App.is_valid_input (App.weaknesses f) = true
  /\ App.name f <> [] /\ App.company f <> []
  /\ (exists cv,
        App.cv_file f = Some cv
        /\ ((mimetype cv = MIME_PDF /\ pdf_text cv t1)
            \/ (mimetype cv = MIME_DOCX /\ docx_text cv t1)))
  /\ (exists job, App.job_file f = Some job /\ pdf_text job t2)
  /\ t1 <> [] /\ t2 <> []
  /\ contains App.FEHLER t1 = false /\ contains App.FEHLER t2 = false.

(** The text fields of a form pass the first two checks of the script. *)
Definition form_fields_ok (f : App.form) : Prop :=
  App.is_valid_input (App.strengths f) = true
  /\ App.is_valid_input (App.weaknesses f) = true
  /\ App.name f <> [] /\ App.company f <> [].

(** The text [t] of an upload is read without error, as a PDF or as a
    word-processing document according to its media type. *)
Definition upload_text (file : FileStorage) (t : str) : Prop :=
  (mimetype file = MIME_PDF /\ pdf_text file t)
  \/ (mimetype file = MIME_DOCX /\ docx_text file t).

(** The prompt the form composes, and the two lines of keywords it
    shows. *)
Definition form_prompt (nlp : str -> list Token) (f : App.form) (t1 t2 : str) : str :=
  App.prompt_of t1 t2 (App.strengths f) (App.weaknesses f) (App.name f)
    (App.company f) (App.rank (nlp t1)) (App.rank (nlp t2)).

Definition keyword_lines (nlp : str -> list Token) (t1 t2 : str) : list App.widget :=
  [ App.StWrite [u "**Schlüsselwörter (Lebenslauf):**";
                 join (u ", ") (App.rank (nlp t1))];
    App.StWrite [u "**Schlüsselwörter (Stellenprofil):**";
                 join (u ", ") (App.rank (nlp t2))] ].

(** The order a stable descending sort by count produces from items that
    were in the order [R]. *)
Definition sorted_before (R : str -> str -> Prop) (x y : str * nat) : Prop :=
  (snd y < snd x)%nat \/ (snd x = snd y /\ R (fst x) (fst y)).

End Spec.

(** ** Sample collaborators *)

Module Sample.

(** The words of a text, cut at white space. *)
Fixpoint words_from (acc : str) (s : str) : list str :=
  match s with
  | [] =>
      match acc with
      | [] => []
      | _ :: _ => [rev acc]
      end
  | c :: s' =>
      if is_space c then
        match acc with
        | [] => words_from [] s'
        | _ :: _ => rev acc :: words_from [] s'
        end
      else words_from (c :: acc) s'
  end.

(** A tagger that takes every word for a noun and none for a stop word. *)
Definition nouns (text : str) : list Token :=
  map (fun w => {| text := w; pos_ := u "NOUN"; is_stop := false |})
      (words_from [] text).

(** A tagger that cannot be run on any text. *)
Definition no_tagger (text : str) : res (list Token) :=
  Raise (u "[E109] Component 'tagger' could not be run.").

(** A generation service that answers every request with the same letter,
    and one that is out of reach. *)
Definition letter : str :=
  u "Sehr geehrte Damen und Herren,

mit freundlichen Gruessen ".

Definition service (system prompt : str) : res str := Ok letter.

Definition no_service (system prompt : str) : res str :=
  Raise (u "Connection error.").

Definition six_priority_terms : str :=
  u "Vermögensberatung Kundenberatung Finanzwesen Bankkauffrau Bankkaufmann Kundenmanagement".

(** An upload that pdfplumber reads as the given pages, and that is not a
    word-processing document. *)
Definition pdf (pages : list (option str)) : FileStorage :=
  {| filename := u "upload.pdf";
     mimetype := MIME_PDF;
     pdf_open := Ok (map Ok pages);
     docx_open := Raise (u "File is not a zip file") |}.

(** A scanned page has no text; a blank page may have white space only. *)
Definition scanned_pdf : FileStorage := pdf [None].
Definition blank_pdf : FileStorage := pdf [Some [32; 10]; Some [10]].

(** An upload that pdfplumber cannot open. *)
Definition corrupt_pdf : FileStorage :=
  {| filename := u "upload.pdf";
     mimetype := MIME_PDF;
     pdf_open := Raise (u "No /Root object! - Is this really a PDF?");
     docx_open := Raise (u "File is not a zip file") |}.

(** A generation service whose letter mentions a culture of learning from
    errors. *)
Definition service_fehlerkultur (system prompt : str) : res str :=
  Ok (u "Ich schaetze eine offene Fehlerkultur.
").

(** An upload declared as a word-processing document. *)
Definition docx (paragraphs : list str) : FileStorage :=
  {| filename := u "upload.docx";
     mimetype := MIME_DOCX;
     pdf_open := Raise (u "No /Root object! - Is this really a PDF?");
     docx_open := Ok paragraphs |}.

Definition job_pdf : FileStorage :=
  pdf [Some (u "Wir suchen eine Bankkauffrau mit Erfahrung in der Kundenberatung.")].

Definition cv_pdf : FileStorage :=
  pdf [Some (u "Ausbildung zur Bankkauffrau, Schwerpunkt Kundenberatung
und Finanzprodukte.")].

(** The texts of the two sample uploads. *)
Definition cv_words : str :=
  u "Ausbildung zur Bankkauffrau, Schwerpunkt Kundenberatung
und Finanzprodukte.".

Definition job_words : str :=
  u "Wir suchen eine Bankkauffrau mit Erfahrung in der Kundenberatung.".

(** A form with all text fields filled in. *)
Definition form_of (cv job : FileStorage) : App.form :=
  {| App.name := u "Max Mustermann";
     App.company := u "Beispiel GmbH";
     App.cv_file := Some cv;
     App.job_file := Some job;
     App.strengths := u "Teamfähigkeit, Zuverlässigkeit";
     App.weaknesses := u "Perfektionismus";
     App.tone := u "Professionell" |}.

(** A storage that takes every document. *)
Definition disk (d : document) : res unit := Ok tt.

(** A résumé that mentions error analysis. *)
Definition cv_fehleranalyse : FileStorage :=
  pdf [Some (u "Erfahrung in Fehleranalyse und Kundenberatung")].

(** A request with all form fields filled in. *)
Definition request_of (cv job : FileStorage) : Api.request :=
  {| Api.cv_file := Some cv;
     Api.job_file := Some job;
     Api.strengths := Some (u "Teamfähigkeit, Zuverlässigkeit");
     Api.weaknesses := Some (u "Perfektionismus");
     Api.name := Some (u "Max Mustermann");
     Api.company := Some (u "Beispiel GmbH");
     Api.tone := None |}.

(** The same request without a job file. *)
Definition without_job (cv : FileStorage) : Api.request :=
  {| Api.cv_file := Some cv;
     Api.job_file := None;
     Api.strengths := Some (u "Teamfähigkeit, Zuverlässigkeit");
     Api.weaknesses := Some (u "Perfektionismus");
     Api.name := Some (u "Max Mustermann");
     Api.company := Some (u "Beispiel GmbH");
     Api.tone := None |}.

End Sample.

(** ** Strings: equality and membership *)

Lemma str_eqb_eq (a b : str) : str_eqb a b = true <-> a = b.
Proof.
  revert b; induction a as [|x a IH]; intros [|y b]; simpl; split;
    try congruence; try discriminate.
  - intros H. apply andb_true_iff in H as [H1 H2].
    apply Z.eqb_eq in H1. apply IH in H2. congruence.
  - intros H. injection H as -> ->. rewrite Z.eqb_refl. simpl. now apply IH.
Qed.

Lemma str_eqb_refl (a : str) : str_eqb a a = true.
Proof. now apply str_eqb_eq. Qed.

Lemma str_eqb_neq (a b : str) : str_eqb a b = false <-> a <> b.
Proof.
  split.
  - intros H E. apply str_eqb_eq in E. congruence.
  - intros H. destruct (str_eqb a b) eqn:E; [|reflexivity].
    apply str_eqb_eq in E. contradiction.
Qed.

Lemma mem_In (w : str) (l : list str) : mem w l = true <-> In w l.
Proof.
  unfold mem. rewrite existsb_exists. split.
  - intros [x [Hx E]]. apply str_eqb_eq in E. now subst.
  - intros H. exists w. split; [assumption | apply str_eqb_refl].
Qed.

Lemma mem_not_In (w : str) (l : list str) : mem w l = false <-> ~ In w l.
Proof.
  rewrite <- mem_In. destruct (mem w l); split; congruence.
Qed.

(** ** The validator *)

Lemma in_class_letters (c : Z) :
  in_class Api.letters c = true <-> Spec.alphabetic c.
Proof.
  unfold Spec.alphabetic, in_class, Api.letters. simpl.
  rewrite !orb_true_iff, !andb_true_iff, !Z.leb_le, !Z.eqb_eq.
  intuition lia.
Qed.

Lemma run_length_split (cls : list class_item) (s : str) :
  exists run post,
    s = run ++ post /\ length run = run_length cls s
    /\ Forall (fun c => in_class cls c = true) run.
Proof.
  induction s as [|c s IH]; simpl.
  - exists [], []. repeat split; constructor.
  - destruct (in_class cls c) eqn:E.
    + destruct IH as (run & post & -> & Hl & Hf).
      exists (c :: run), post. simpl. repeat split; auto.
    + exists [], (c :: s). repeat split; constructor.
Qed.

Lemma run_length_app (cls : list class_item) (run post : str) :
  Forall (fun c => in_class cls c = true) run ->
  (length run <= run_length cls (run ++ post))%nat.
Proof.
  induction 1 as [|c run Hc _ IH]; simpl; [lia|].
  rewrite Hc. lia.
Qed.

Lemma re_search_run (cls : list class_item) (n : nat) (s : str) :
  re_search cls n s = true <->
  exists pre run post,
    s = pre ++ run ++ post /\ (n <= length run)%nat
    /\ Forall (fun c => in_class cls c = true) run.
Proof.
  split.
  - induction s as [|c s IH]; simpl; intros H.
    + rewrite orb_false_r in H. unfold match_here in H. apply Nat.leb_le in H.
      simpl in H. exists [], [], []. repeat split; [simpl; lia | constructor].
    + apply orb_true_iff in H as [H|H].
      * unfold match_here in H. apply Nat.leb_le in H.
        destruct (run_length_split cls (c :: s)) as (run & post & E & Hl & Hf).
        exists [], run, post. repeat split; auto. lia.
      * destruct (IH H) as (pre & run & post & -> & Hl & Hf).
        exists (c :: pre), run, post. repeat split; auto.
  - intros (pre & run & post & -> & Hl & Hf).
    induction pre as [|c pre IH]; simpl.
    + assert (M : match_here cls n (run ++ post) = true).
      { unfold match_here. apply Nat.leb_le.
        pose proof (run_length_app cls run post Hf). lia. }
      destruct (run ++ post); simpl; rewrite M; reflexivity.
    + rewrite IH. apply orb_true_r.
Qed.

Lemma is_valid_input_spec (s : str) :
  Api.is_valid_input s = true <-> Spec.valid s.
Proof.
  unfold Api.is_valid_input, Spec.valid, Spec.has_letter_run.
  rewrite andb_true_iff, Z.leb_le, re_search_run.
  split; intros [H (pre & run & post & E & Hl & Hf)]; split; auto;
    exists pre, run, post; repeat split; auto;
    eapply Forall_impl; try exact Hf; intros c; apply in_class_letters.
Qed.

Lemma App_is_valid_input_eq (s : str) :
  App.is_valid_input s = Api.is_valid_input s.
Proof. reflexivity. Qed.

(** C3.  For every string, [is_valid_input] answers true exactly when the
    string has at least 10 characters and contains a run of at least three
    consecutive letters (Basic Latin letters, umlaut letters, sharp s); it
    is false on the empty string and on "1234567890" and true on
    "Teamfähigkeit".  Both entry points. *)
Theorem is_valid_input_iff_length_and_letter_run :
  (forall s : str,
      (Api.is_valid_input s = true <-> Spec.valid s)
      /\ (App.is_valid_input s = true <-> Spec.valid s))
  /\ Api.is_valid_input (u "") = false
  /\ Api.is_valid_input (u "1234567890") = false
  /\ Api.is_valid_input (u "Teamfähigkeit") = true
  /\ App.is_valid_input (u "") = false
  /\ App.is_valid_input (u "1234567890") = false
  /\ App.is_valid_input (u "Teamfähigkeit") = true.
Proof.
  split.
  - intros s. split; [apply is_valid_input_spec|].
    rewrite (App_is_valid_input_eq s). apply is_valid_input_spec.
  - repeat split; vm_compute; reflexivity.
Qed.

(** ** The counter keeps first-occurrence order and exact counts *)

Lemma incr_cases (w : str) (c : counter) :
  (~ In w (keys c) /\ incr w c = c ++ [(w, 1%nat)])
  \/ (exists c1 n c2,
         c = c1 ++ (w, n) :: c2 /\ ~ In w (keys c1)
         /\ incr w c = c1 ++ (w, S n) :: c2).
Proof.
  induction c as [|[k n] c IH]; simpl.
  - left. split; [tauto | reflexivity].
  - destruct (str_eqb k w) eqn:E.
    + apply str_eqb_eq in E. subst k. right. exists [], n, c. simpl. tauto.
    + apply str_eqb_neq in E. destruct IH as [[Hn ->] | (c1 & m & c2 & -> & Hn & ->)].
      * left. split; [intros [H|H]; contradiction | reflexivity].
      * right. exists ((k, n) :: c1), m, c2. simpl. repeat split; auto.
        intros [H|H]; contradiction.
Qed.

Lemma Counter_snoc (l : list str) (w : str) :
  Counter (l ++ [w]) = incr w (Counter l).
Proof. unfold Counter. now rewrite fold_left_app. Qed.

Lemma occurrences_snoc (k w : str) (l : list str) :
  Spec.occurrences k (l ++ [w])
  = (Spec.occurrences k l + if str_eq_dec w k then 1 else 0)%nat.
Proof.
  unfold Spec.occurrences. rewrite count_occ_app. simpl.
  destruct (str_eq_dec w k); reflexivity.
Qed.

Lemma first_index_lt (w : str) (l : list str) :
  In w l -> (Spec.first_index w l < length l)%nat.
Proof.
  induction l as [|x l IH]; simpl; [tauto|].
  intros H. destruct (str_eq_dec x w); [lia|].
  destruct H as [H|H]; [contradiction|]. apply IH in H. lia.
Qed.

Lemma first_index_snoc_old (k w : str) (l : list str) :
  In k l -> Spec.first_index k (l ++ [w]) = Spec.first_index k l.
Proof.
  induction l as [|x l IH]; simpl; [tauto|].
  intros H. destruct (str_eq_dec x k); [reflexivity|].
  destruct H as [H|H]; [contradiction|]. now rewrite IH.
Qed.

Lemma first_index_snoc_new (w : str) (l : list str) :
  ~ In w l -> Spec.first_index w (l ++ [w]) = length l.
Proof.
  induction l as [|x l IH]; simpl; intros H.
  - destruct (str_eq_dec w w); congruence.
  - destruct (str_eq_dec x w); [tauto|]. rewrite IH; tauto.
Qed.

Lemma StronglySorted_weaken {A} (R R' : A -> A -> Prop) (l : list A) :
  (forall a b, In a l -> In b l -> R a b -> R' a b) ->
  StronglySorted R l -> StronglySorted R' l.
Proof.
  intros H S. induction S as [|a l S IH F]; constructor.
  - apply IH. intros x y Hx Hy. apply H; now right.
  - rewrite Forall_forall in *. intros y Hy. apply H; simpl; auto.
Qed.

Lemma StronglySorted_snoc {A} (R : A -> A -> Prop) (l : list A) (x : A) :
  StronglySorted R l -> Forall (fun a => R a x) l -> StronglySorted R (l ++ [x]).
Proof.
  induction 1 as [|a l S IH F]; simpl; intros H.
  - repeat constructor.
  - inversion H; subst. constructor; [now apply IH|].
    apply Forall_app. split; [assumption | now constructor].
Qed.

Lemma StronglySorted_map {A B} (R : A -> A -> Prop) (R' : B -> B -> Prop)
    (f : A -> B) (l : list A) :
  (forall a b, In a l -> In b l -> R a b -> R' (f a) (f b)) ->
  StronglySorted R l -> StronglySorted R' (map f l).
Proof.
  intros H S. induction S as [|a l S IH F]; simpl; constructor.
  - apply IH. intros x y Hx Hy. apply H; now right.
  - rewrite Forall_forall in *. intros y Hy.
    apply in_map_iff in Hy as [z [<- Hz]]. apply H; simpl; auto.
Qed.

Lemma counted_nil : Spec.counted [] [].
Proof. split; simpl; try constructor; tauto. Qed.

Lemma counted_incr (l : list str) (c : counter) (w : str) :
  Spec.counted l c -> Spec.counted (l ++ [w]) (incr w c).
Proof.
  intros [Hk Hn Hc Ho].
  assert (Hc' : Forall (fun kv => fst kv <> w ->
                          snd kv = Spec.occurrences (fst kv) (l ++ [w])) c).
  { rewrite Forall_forall in *. intros kv Hin Hne. rewrite occurrences_snoc.
    destruct (str_eq_dec w (fst kv)); [congruence|]. rewrite (Hc kv Hin). lia. }
  assert (Ho' : StronglySorted
                  (fun a b => (Spec.first_index a (l ++ [w])
                               < Spec.first_index b (l ++ [w]))%nat) (keys c)).
  { eapply StronglySorted_weaken; [|exact Ho]. cbv beta. intros a b Ha Hb.
    rewrite !first_index_snoc_old by (now apply Hk). auto. }
  destruct (incr_cases w c) as [[Hnew ->] | (c1 & n & c2 & -> & Hn1 & ->)].
  - assert (Hnl : ~ In w l) by (now rewrite <- Hk).
    split.
    + intros k. unfold keys in *. rewrite map_app, !in_app_iff, Hk. simpl. tauto.
    + unfold keys in *. rewrite map_app. simpl.
      apply Permutation_NoDup with (l := w :: map fst c).
      * apply Permutation_cons_append.
      * now constructor.
    + apply Forall_app. split.
      * rewrite Forall_forall in *. intros kv Hin. apply Hc'; [assumption|].
        intros E. apply Hnew. subst w. unfold keys. now apply in_map.
      * constructor; [|constructor]. simpl. rewrite occurrences_snoc.
        destruct (str_eq_dec w w); [|congruence].
        unfold Spec.occurrences.
        rewrite (proj1 (count_occ_not_In str_eq_dec l w) Hnl). reflexivity.
    + unfold keys in *. rewrite map_app. simpl.
      apply StronglySorted_snoc; [exact Ho'|].
      rewrite Forall_forall. intros k Hin.
      rewrite first_index_snoc_new by assumption.
      rewrite first_index_snoc_old by (now apply Hk).
      apply first_index_lt. now apply Hk.
  - assert (Ekeys : keys (c1 ++ (w, S n) :: c2) = keys (c1 ++ (w, n) :: c2)).
    { unfold keys. rewrite !map_app. reflexivity. }
    assert (Hw : In w l).
    { apply Hk. unfold keys. rewrite map_app, in_app_iff. right. now left. }
    split.
    + intros k. rewrite Ekeys, Hk, in_app_iff. simpl.
      split; [tauto | intros [H|[<-|[]]]; assumption].
    + now rewrite Ekeys.
    + apply Forall_app in Hc as [Hc1 Hc2]. apply Forall_app in Hc' as [Hc1' Hc2'].
      inversion Hc2 as [|? ? Hcw Hc2r]; subst.
      inversion Hc2' as [|? ? _ Hc2r']; subst.
      unfold keys in Hn. rewrite map_app in Hn. simpl in Hn.
      apply NoDup_remove_2 in Hn. rewrite in_app_iff in Hn.
      apply Forall_app. split; [|constructor].
      * rewrite Forall_forall in *. intros kv Hin. apply Hc1'; [assumption|].
        intros E. apply Hn. left. subst w. now apply in_map.
      * simpl in *. rewrite occurrences_snoc.
        destruct (str_eq_dec w w); [|congruence]. lia.
      * rewrite Forall_forall in *. intros kv Hin. apply Hc2r'; [assumption|].
        intros E. apply Hn. right. subst w. now apply in_map.
    + now rewrite Ekeys.
Qed.

Lemma Counter_counted (l : list str) : Spec.counted l (Counter l).
Proof.
  induction l as [|w l IH] using rev_ind.
  - apply counted_nil.
  - rewrite Counter_snoc. now apply counted_incr.
Qed.

(** ** The stable descending sort *)

Lemma insert_desc_perm (x : str * nat) (l : counter) :
  Permutation (x :: l) (insert_desc x l).
Proof.
  induction l as [|y l IH]; simpl; [reflexivity|].
  destruct (snd x <? snd y)%nat; [|reflexivity].
  rewrite perm_swap. now constructor.
Qed.

Lemma sorted_desc_perm (c : counter) : Permutation c (sorted_desc c).
Proof.
  induction c as [|x c IH]; simpl; [reflexivity|].
  rewrite <- insert_desc_perm. now constructor.
Qed.

Lemma sorted_desc_In (c : counter) (x : str * nat) :
  In x (sorted_desc c) <-> In x c.
Proof.
  split; apply Permutation_in;
    [symmetry | idtac]; apply sorted_desc_perm.
Qed.

Lemma sorted_desc_length (c : counter) : length (sorted_desc c) = length c.
Proof. symmetry. apply Permutation_length, sorted_desc_perm. Qed.

Section Stable.

Variable R : str -> str -> Prop.

Lemma insert_desc_sorted (x : str * nat) (s : counter) :
  StronglySorted (Spec.sorted_before R) s ->
  Forall (fun y => R (fst x) (fst y)) s ->
  StronglySorted (Spec.sorted_before R) (insert_desc x s).
Proof.
  induction 1 as [|y s S IH F]; simpl; intros H.
  - repeat constructor.
  - inversion H as [|? ? Hy Hs]; subst.
    destruct (snd x <? snd y)%nat eqn:E.
    + apply Nat.ltb_lt in E. constructor; [now apply IH|].
      eapply Permutation_Forall; [apply insert_desc_perm|].
      constructor; [left; assumption | assumption].
    + apply Nat.ltb_ge in E. constructor; [now constructor|].
      constructor.
      * unfold Spec.sorted_before. destruct (Nat.eq_dec (snd x) (snd y)); [right|left]; auto; lia.
      * rewrite Forall_forall in *. intros z Hz.
        specialize (F z Hz). specialize (Hs z Hz). unfold Spec.sorted_before in *.
        destruct (Nat.eq_dec (snd x) (snd z)); [right; auto | left; lia].
Qed.

Lemma sorted_desc_sorted (c : counter) :
  StronglySorted R (keys c) ->
  StronglySorted (Spec.sorted_before R) (sorted_desc c).
Proof.
  induction c as [|x c IH]; simpl; intros H; [constructor|].
  inversion H as [|? ? Hs Hf]; subst.
  apply insert_desc_sorted; [now apply IH|].
  rewrite Forall_forall in *. intros y Hy.
  apply Hf. unfold keys. apply in_map. now apply sorted_desc_In.
Qed.

End Stable.

(** The keys of the sorted counter are the frequency ranking. *)
Lemma sorted_Counter_ranking (cands : list str) :
  Spec.is_ranking cands (keys (sorted_desc (Counter cands))).
Proof.
  destruct (Counter_counted cands) as [Hk Hn Hc Ho].
  assert (P : Permutation (keys (Counter cands)) (keys (sorted_desc (Counter cands)))).
  { unfold keys. apply Permutation_map, sorted_desc_perm. }
  repeat split.
  - intros H. apply Hk. eapply Permutation_in; [symmetry; exact P | exact H].
  - intros H. eapply Permutation_in; [exact P | now apply Hk].
  - eapply Permutation_NoDup; eassumption.
  - unfold keys. eapply StronglySorted_map; [|apply sorted_desc_sorted; exact Ho].
    intros a b Ha Hb.
    apply (proj1 (sorted_desc_In _ _)) in Ha.
    apply (proj1 (sorted_desc_In _ _)) in Hb.
    rewrite Forall_forall in Hc.
    unfold Spec.sorted_before, Spec.ranks_before.
    rewrite (Hc a Ha), (Hc b Hb). tauto.
Qed.

(** ** [most_common] against the sorted counter *)

Lemma pick_assoc (x y z : str * nat) : pick (pick x y) z = pick x (pick y z).
Proof.
  unfold pick.
  destruct (snd x <? snd y)%nat eqn:E1; destruct (snd y <? snd z)%nat eqn:E2;
    try rewrite E1; try rewrite E2; try reflexivity.
  - apply Nat.ltb_lt in E1, E2.
    assert (E3 : (snd x <? snd z)%nat = true) by (apply Nat.ltb_lt; lia).
    now rewrite E3.
  - apply Nat.ltb_ge in E1, E2.
    assert (E3 : (snd x <? snd z)%nat = false) by (apply Nat.ltb_ge; lia).
    now rewrite E3.
Qed.

Lemma pick_fold_left (c : counter) (x y : str * nat) :
  pick x (fold_left pick c y) = fold_left pick c (pick x y).
Proof.
  revert y. induction c as [|a c IH]; intros y; simpl; [reflexivity|].
  now rewrite IH, pick_assoc.
Qed.

Lemma hd_insert_desc (x : str * nat) (l : counter) :
  hd_error (insert_desc x l)
  = Some match hd_error l with
         | Some z => pick x z
         | None => x
         end.
Proof.
  destruct l as [|z l]; simpl; [reflexivity|].
  unfold pick. destruct (snd x <? snd z)%nat; reflexivity.
Qed.

Lemma max_first_hd (c : counter) : max_first c = hd_error (sorted_desc c).
Proof.
  destruct c as [|x c]; [reflexivity|]. unfold max_first.
  revert x. induction c as [|y c IH]; intros x; [reflexivity|].
  change (sorted_desc (x :: y :: c)) with (insert_desc x (sorted_desc (y :: c))).
  rewrite hd_insert_desc, <- IH. simpl. now rewrite pick_fold_left.
Qed.

Lemma firstn_1_hd {A} (l : list A) :
  firstn 1 l = match hd_error l with
               | Some x => [x]
               | None => []
               end.
Proof. destruct l; reflexivity. Qed.

Lemma slice_to_nonneg {A} (l : list A) (k : Z) :
  0 <= k -> slice_to l k = firstn (Z.to_nat k) l.
Proof.
  intros H. unfold slice_to.
  destruct (k <? 0) eqn:E; [apply Z.ltb_lt in E; lia | reflexivity].
Qed.

Lemma firstn_firstn_same {A} (n : nat) (l : list A) :
  firstn n (firstn n l) = firstn n l.
Proof. rewrite firstn_firstn. now rewrite Nat.min_id. Qed.

(** The fill of [extract_keywords]: the first [k] keys of the sorted counter,
    none for [k <= 0]. *)
Lemma most_common_fill (c : counter) (k : Z) :
  slice_to (map fst (most_common c k)) k = firstn (Z.to_nat k) (keys (sorted_desc c)).
Proof.
  unfold most_common, nlargest, keys.
  destruct (k =? 1) eqn:E1.
  - apply Z.eqb_eq in E1. subst k. rewrite slice_to_nonneg by lia.
    rewrite max_first_hd. change (Z.to_nat 1) with 1%nat.
    rewrite !firstn_1_hd. destruct (sorted_desc c); reflexivity.
  - destruct (Z.of_nat (length c) <=? k) eqn:E2.
    + apply Z.leb_le in E2. rewrite !slice_to_nonneg by lia.
      rewrite <- !firstn_map. apply firstn_firstn_same.
    + destruct (k <=? 0) eqn:E3.
      * apply Z.leb_le in E3. unfold slice_to. simpl.
        replace (Z.to_nat k) with O by lia.
        destruct (k <? 0); reflexivity.
      * apply Z.leb_gt in E3. rewrite slice_to_nonneg by lia.
        rewrite <- !firstn_map. apply firstn_firstn_same.
Qed.

(** ** The keyword extractor *)

Lemma priority_hits_prioritized (cands : list str) :
  Api.prioritized_of cands = Spec.priority_hits Api.priority_terms cands.
Proof.
  unfold Api.prioritized_of, Spec.priority_hits. apply filter_ext. intros w.
  destruct (in_dec str_eq_dec w cands) as [H|H].
  - now apply mem_In.
  - now apply mem_not_In.
Qed.

Lemma rank_keyword_list (doc : list Token) :
  Api.rank doc
  = Spec.keyword_list Api.priority_terms (Api.keywords_of doc)
      (keys (sorted_desc (Counter (Api.keywords_of doc)))).
Proof.
  unfold Api.rank, Spec.keyword_list. cbv zeta.
  rewrite most_common_fill, priority_hits_prioritized. do 2 f_equal. lia.
Qed.

Lemma App_rank_eq (doc : list Token) : App.rank doc = Api.rank doc.
Proof. reflexivity. Qed.

Lemma extract_keywords_outcome (nlp : str -> list Token) (text : str) :
  outcome (Api.extract_keywords (answering nlp) text) = Ok (Api.rank (nlp text)).
Proof. reflexivity. Qed.

Lemma App_extract_keywords_outcome (nlp : str -> list Token) (text : str) :
  outcome (App.extract_keywords (answering nlp) text) = Ok (Api.rank (nlp text)).
Proof. reflexivity. Qed.

Lemma ranks_before_asym (cands : list str) (a b : str) :
  Spec.ranks_before cands a b -> Spec.ranks_before cands b a -> False.
Proof. unfold Spec.ranks_before. lia. Qed.

(** Two duplicate-free lists of the same elements, both sorted by an
    asymmetric relation, are the same list. *)
Lemma sorted_unique {A} (R : A -> A -> Prop) :
  (forall a b, R a b -> R b a -> False) ->
  forall l1 l2 : list A,
    NoDup l1 -> NoDup l2 -> (forall x, In x l1 <-> In x l2) ->
    StronglySorted R l1 -> StronglySorted R l2 -> l1 = l2.
Proof.
  intros asym. induction l1 as [|a l1 IH]; intros [|b l2] N1 N2 E S1 S2.
  - reflexivity.
  - exfalso. apply (proj2 (E b)). now left.
  - exfalso. apply (proj1 (E a)). now left.
  - inversion N1 as [|? ? Na N1']; inversion N2 as [|? ? Nb N2']; subst.
    inversion S1 as [|? ? S1' F1]; inversion S2 as [|? ? S2' F2]; subst.
    rewrite Forall_forall in F1, F2.
    assert (a = b) as ->.
    { destruct (proj1 (E a) (or_introl eq_refl)) as [Hab|Ha]; [congruence|].
      destruct (proj2 (E b) (or_introl eq_refl)) as [Hba|Hb]; [congruence|].
      exfalso. exact (asym a b (F1 b Hb) (F2 a Ha)). }
    f_equal. apply IH; auto.
    intros x. split; intros Hx.
    + destruct (proj1 (E x) (or_intror Hx)) as [->|H]; [contradiction | assumption].
    + destruct (proj2 (E x) (or_intror Hx)) as [->|H]; [contradiction | assumption].
Qed.

Lemma ranking_unique (cands r1 r2 : list str) :
  Spec.is_ranking cands r1 -> Spec.is_ranking cands r2 -> r1 = r2.
Proof.
  intros (E1 & N1 & S1) (E2 & N2 & S2).
  apply (sorted_unique (Spec.ranks_before cands)); auto.
  - apply ranks_before_asym.
  - intros x. now rewrite E1, E2.
Qed.

(** C2.  The result of [extract_keywords] is exactly the priority terms that
    occur among the candidates, in the order of the priority list, followed
    by the first [5 - p] terms of the frequency ranking of the candidates
    (descending frequency, ties by first occurrence; [p] is the number of
    priority terms found, and nothing is filled in when [p] exceeds 5).  The
    ranking ranges over all candidate terms, priority terms included, and is
    the only list with these properties.  Both entry points. *)
Theorem extract_keywords_priority_then_frequency :
  forall (nlp : str -> list Token) (text : str),
  exists ranking,
    Spec.is_ranking (Api.keywords_of (nlp text)) ranking
    /\ (forall r, Spec.is_ranking (Api.keywords_of (nlp text)) r -> r = ranking)
    /\ outcome (Api.extract_keywords (answering nlp) text)
       = Ok (Spec.keyword_list Api.priority_terms (Api.keywords_of (nlp text)) ranking)
    /\ outcome (App.extract_keywords (answering nlp) text)
       = Ok (Spec.keyword_list App.priority_terms (App.keywords_of (nlp text)) ranking).
Proof.
  intros nlp text.
  exists (keys (sorted_desc (Counter (Api.keywords_of (nlp text))))).
  pose proof (sorted_Counter_ranking (Api.keywords_of (nlp text))) as H.
  repeat split; try apply H.
  - intros r Hr. now apply (ranking_unique (Api.keywords_of (nlp text))).
  - rewrite extract_keywords_outcome. f_equal. apply rank_keyword_list.
  - rewrite App_extract_keywords_outcome. f_equal. apply rank_keyword_list.
Qed.

(** ** Lower-casing *)

Lemma in_run_points (lo hi step c : Z) :
  0 < step -> lo <= c <= hi -> (c - lo) mod step = 0 ->
  In c (run_points lo hi step).
Proof.
  intros Hs Hc Hm. unfold run_points. apply in_map_iff.
  assert (D : c - lo = step * ((c - lo) / step)).
  { pose proof (Z.div_mod (c - lo) step). lia. }
  assert (P : 0 <= (c - lo) / step) by (apply Z.div_pos; lia).
  exists (Z.to_nat ((c - lo) / step)). split.
  - rewrite Z2Nat.id by exact P. lia.
  - apply in_seq. split; [lia|].
    assert ((c - lo) / step <= (hi - lo) / step) by (apply Z.div_le_mono; lia).
    lia.
Qed.

Lemma capital_changed (c : Z) : Spec.capital c -> changed c = true.
Proof.
  intros (lo & hi & step & Hin & Hc & Hm).
  assert (S : forallb (fun r => 0 <? snd r) Spec.capitals = true)
    by (vm_compute; reflexivity).
  assert (A : forallb (fun r => forallb changed
                                  (run_points (fst (fst r)) (snd (fst r)) (snd r)))
                      Spec.capitals = true)
    by (vm_compute; reflexivity).
  rewrite forallb_forall in S, A.
  specialize (S _ Hin). specialize (A _ Hin). cbn [fst snd] in S, A.
  apply Z.ltb_lt in S. rewrite forallb_forall in A. apply A.
  now apply in_run_points.
Qed.

Lemma lookup_lower_Some (table : list (Z * Z * Z * Z)) (c d : Z) :
  lookup_lower table c = Some d ->
  exists lo hi step delta,
    In (lo, hi, step, delta) table /\ in_run lo hi step c = true /\ d = c + delta.
Proof.
  induction table as [|[[[lo hi] step] delta] table IH]; [discriminate|].
  cbn [lookup_lower]. destruct (in_run lo hi step c) eqn:E.
  - intros H. injection H as <-. exists lo, hi, step, delta.
    split; [now left | split; [exact E | reflexivity]].
  - intros H. destruct (IH H) as (lo' & hi' & step' & delta' & Hin & Hr & Hd).
    exists lo', hi', step', delta'. split; [now right | split; assumption].
Qed.

(** The lower-case form of a character has no lower-case form of its
    own. *)
Lemma lookup_lower_settled (c d : Z) :
  lookup_lower lower_table c = Some d -> changed d = false.
Proof.
  intros H. apply lookup_lower_Some in H as (lo & hi & step & delta & Hin & Hr & ->).
  assert (S : forallb (fun r => 0 <? snd (fst r)) lower_table = true)
    by (vm_compute; reflexivity).
  assert (A : forallb (fun r => forallb (fun c => negb (changed (c + snd r)))
                                  (run_points (fst (fst (fst r))) (snd (fst (fst r)))
                                              (snd (fst r))))
                      lower_table = true)
    by (vm_compute; reflexivity).
  rewrite forallb_forall in S, A.
  specialize (S _ Hin). specialize (A _ Hin). cbn [fst snd] in S, A.
  apply Z.ltb_lt in S. rewrite forallb_forall in A.
  unfold in_run in Hr. rewrite !andb_true_iff, !Z.leb_le, Z.eqb_eq in Hr.
  destruct Hr as [[Hlo Hhi] Hm].
  apply negb_true_iff. apply A. apply in_run_points; [exact S | lia | exact Hm].
Qed.

Lemma not_capital (c : Z) : changed c = false -> ~ Spec.capital c.
Proof. intros H C. apply capital_changed in C. congruence. Qed.

Lemma lower_full_lowercase (c : Z) : Spec.lowercase (lower_full c).
Proof.
  unfold lower_full. destruct (c =? 304) eqn:E.
  - repeat constructor; apply not_capital; vm_compute; reflexivity.
  - destruct (lookup_lower lower_table c) as [d|] eqn:L.
    + constructor; [|constructor]. apply not_capital.
      now apply (lookup_lower_settled c).
    + constructor; [|constructor]. apply not_capital.
      unfold changed, lower_full. rewrite E, L.
      now rewrite str_eqb_refl.
Qed.

Lemma lower_from_lowercase (s before : str) : Spec.lowercase (lower_from before s).
Proof.
  revert before. induction s as [|c s IH]; intros before; [constructor|].
  cbn [lower_from]. apply Forall_app. split; [|apply IH].
  destruct (c =? 931); [|apply lower_full_lowercase].
  constructor; [|constructor].
  destruct (final_sigma before s); apply not_capital; vm_compute; reflexivity.
Qed.

Lemma lower_lowercase (s : str) : Spec.lowercase (lower s).
Proof. apply lower_from_lowercase. Qed.

(** Lower-casing never shortens a string. *)
Lemma lower_from_length (s before : str) :
  (length s <= length (lower_from before s))%nat.
Proof.
  revert before. induction s as [|c s IH]; intros before; [apply Nat.le_refl|].
  cbn [lower_from]. rewrite length_app. specialize (IH (c :: before)).
  set (piece := if c =? 931 then [if final_sigma before s then 962 else 963]
                else lower_full c).
  assert (L : (1 <= length piece)%nat).
  { subst piece. destruct (c =? 931); [apply Nat.le_refl|].
    unfold lower_full. destruct (c =? 304); [simpl; lia|].
    destruct (lookup_lower lower_table c); apply Nat.le_refl. }
  simpl length at 1. lia.
Qed.

Lemma lower_length (s : str) : len s <= len (lower s).
Proof. unfold len, lower. pose proof (lower_from_length s []). lia. Qed.

(** Lower-casing beyond Basic Latin: umlauts, capital sharp s, a final
    sigma, capital I with dot above, and a capital without a lower-case
    form. *)
Example lower_examples :
  lower (u "Vermögensberatung ÄÖÜ") = u "vermögensberatung äöü"
  /\ lower (u "STRAẞE") = u "straße"
  /\ lower (u "ΟΔΟΣ ΣΟΦΙΑ") = u "οδος σοφια"
  /\ lower [304] = [105; 775]
  /\ lower (u "ℂ") = u "ℂ".
Proof. repeat apply conj; vm_compute; reflexivity. Qed.

Lemma keywords_of_In (doc : list Token) (w : str) :
  In w (Api.keywords_of doc) ->
  Spec.lowercase w /\ ~ In w Api.blacklisted_terms.
Proof.
  unfold Api.keywords_of. intros H.
  apply in_map_iff in H as [t [<- Ht]]. apply filter_In in Ht as [_ Hk].
  split; [apply lower_lowercase|].
  unfold Api.keeps in Hk. rewrite !andb_true_iff, !negb_true_iff in Hk.
  destruct Hk as [_ Hb]. now apply mem_not_In.
Qed.

Lemma priority_hits_In (terms cands : list str) (w : str) :
  In w (Spec.priority_hits terms cands) <-> In w terms /\ In w cands.
Proof.
  unfold Spec.priority_hits. rewrite filter_In.
  destruct (in_dec str_eq_dec w cands); intuition discriminate.
Qed.

Lemma priority_terms_NoDup : NoDup Api.priority_terms.
Proof.
  vm_compute.
  repeat (constructor;
          [simpl; intros H; repeat destruct H as [H|H]; discriminate || contradiction|]).
  constructor.
Qed.

Lemma NoDup_firstn_of {A} (n : nat) (l : list A) : NoDup l -> NoDup (firstn n l).
Proof.
  intros H. rewrite <- (firstn_skipn n l) in H. now apply NoDup_app_remove_r in H.
Qed.

Lemma firstn_In_of {A} (n : nat) (l : list A) (x : A) : In x (firstn n l) -> In x l.
Proof.
  intros H. rewrite <- (firstn_skipn n l). apply in_or_app. now left.
Qed.

Lemma firstn_app_exact {A} (l1 l2 : list A) : firstn (length l1) (l1 ++ l2) = l1.
Proof.
  rewrite firstn_app, Nat.sub_diag, firstn_all. simpl. apply app_nil_r.
Qed.

Lemma skipn_app_exact {A} (l1 l2 : list A) : skipn (length l1) (l1 ++ l2) = l2.
Proof.
  rewrite skipn_app, Nat.sub_diag, skipn_all. reflexivity.
Qed.

Lemma count_occ_once (l : list str) (w : str) :
  NoDup l -> In w l -> count_occ str_eq_dec l w = 1%nat.
Proof.
  intros N H.
  pose proof (proj1 (NoDup_count_occ str_eq_dec l) N w) as C1.
  pose proof (proj1 (count_occ_In str_eq_dec l w) H) as C2. lia.
Qed.

(** C1, as amended.  For every token sequence the tagger produces,
    [extract_keywords] succeeds, in both entry points with the same list;
    no entry holds a letter that has a lower-case form of its own, and no
    entry is in the blacklist; the first [p] entries (the priority terms
    found among the candidates) are pairwise different and so are the
    entries after them (the frequency fill); and the list has at most 5
    entries when at most 5 priority terms are found.  A priority term found
    that is also among the first [5 - p] terms of the frequency ranking of
    the candidates occurs in both parts, so twice in the list. *)
Theorem extract_keywords_entries :
  forall (nlp : str -> list Token) (text : str),
  exists out,
    outcome (Api.extract_keywords (answering nlp) text) = Ok out
    /\ outcome (App.extract_keywords (answering nlp) text) = Ok out
    /\ (forall w, In w out -> Spec.lowercase w /\ ~ In w Api.blacklisted_terms)
    /\ NoDup (firstn (length (Spec.priority_hits Api.priority_terms
                                (Api.keywords_of (nlp text)))) out)
    /\ NoDup (skipn (length (Spec.priority_hits Api.priority_terms
                               (Api.keywords_of (nlp text)))) out)
    /\ ((length (Spec.priority_hits Api.priority_terms
                   (Api.keywords_of (nlp text))) <= 5)%nat ->
        (length out <= 5)%nat)
    /\ (forall ranking w,
          Spec.is_ranking (Api.keywords_of (nlp text)) ranking ->
          In w (Spec.priority_hits Api.priority_terms (Api.keywords_of (nlp text))) ->
          In w (firstn (5 - length (Spec.priority_hits Api.priority_terms
                                      (Api.keywords_of (nlp text)))) ranking) ->
          In w (firstn (length (Spec.priority_hits Api.priority_terms
                                  (Api.keywords_of (nlp text)))) out)
          /\ In w (skipn (length (Spec.priority_hits Api.priority_terms
                                    (Api.keywords_of (nlp text)))) out)
          /\ count_occ str_eq_dec out w = 2%nat).
Proof.
  intros nlp text. exists (Api.rank (nlp text)).
  split; [reflexivity|]. split; [reflexivity|].
  rewrite rank_keyword_list. unfold Spec.keyword_list. cbv zeta.
  set (cands := Api.keywords_of (nlp text)).
  set (prio := Spec.priority_hits Api.priority_terms cands).
  pose proof (sorted_Counter_ranking cands) as R.
  destruct R as (Hin & Hnd & Hs).
  assert (N1 : NoDup prio) by apply NoDup_filter, priority_terms_NoDup.
  assert (N2 : NoDup (firstn (5 - length prio) (keys (sorted_desc (Counter cands)))))
    by now apply NoDup_firstn_of.
  rewrite firstn_app_exact, skipn_app_exact.
  split; [|split; [exact N1 | split; [exact N2 | split]]].
  - intros w H. apply in_app_or in H as [H|H].
    + apply priority_hits_In in H as [_ H]. now apply (keywords_of_In (nlp text)).
    + apply firstn_In_of, Hin in H. now apply (keywords_of_In (nlp text)).
  - intros Hp. rewrite length_app.
    pose proof (firstn_le_length (5 - length prio)
                  (keys (sorted_desc (Counter cands)))).
    pose proof (length_firstn (5 - length prio)
                  (keys (sorted_desc (Counter cands)))). lia.
  - intros ranking w Hr Hp Hf.
    assert (E : ranking = keys (sorted_desc (Counter cands))).
    { apply (ranking_unique cands); [exact Hr|]. split; [exact Hin | split; assumption]. }
    rewrite E in Hf. split; [exact Hp | split; [exact Hf|]].
    rewrite count_occ_app.
    now rewrite (count_occ_once _ _ N1 Hp), (count_occ_once _ _ N2 Hf).
Qed.

(** The amended C1 at a text with one priority term and three other
    words: four entries, the priority term twice. *)
Lemma extract_keywords_entries_witness :
  exists out,
    outcome (Api.extract_keywords (answering Sample.nouns)
               (u "Kundenberatung Konto Konto Kredit")) = Ok out
    /\ (length (Spec.priority_hits Api.priority_terms
                  (Api.keywords_of (Sample.nouns (u "Kundenberatung Konto Konto Kredit")))) <= 5)%nat
    /\ (length out <= 5)%nat
    /\ count_occ str_eq_dec out (u "kundenberatung") = 2%nat.
Proof.
  destruct (extract_keywords_entries Sample.nouns (u "Kundenberatung Konto Konto Kredit"))
    as (out & H1 & _ & _ & _ & _ & H6 & H7).
  exists out. split; [exact H1|].
  assert (Hp : (length (Spec.priority_hits Api.priority_terms
                  (Api.keywords_of (Sample.nouns (u "Kundenberatung Konto Konto Kredit")))) <= 5)%nat).
  { vm_compute. lia. }
  split; [exact Hp|]. split; [exact (H6 Hp)|].
  apply (H7 (keys (sorted_desc (Counter (Api.keywords_of
               (Sample.nouns (u "Kundenberatung Konto Konto Kredit"))))))
            (u "kundenberatung")).
  - apply sorted_Counter_ranking.
  - vm_compute. left. reflexivity.
  - vm_compute. right. left. reflexivity.
Defined.

(** C1 as stated fails: a text whose only candidate is a priority term
    yields that term twice, and a text with six priority terms yields six
    entries. *)
Lemma extract_keywords_counterexample :
  outcome (Api.extract_keywords (answering Sample.nouns) (u "Finanzwesen"))
  = Ok [u "finanzwesen"; u "finanzwesen"]
  /\ ~ NoDup [u "finanzwesen"; u "finanzwesen"]
  /\ outcome (Api.extract_keywords (answering Sample.nouns) Sample.six_priority_terms)
     = Ok [ u "vermögensberatung"; u "kundenberatung"; u "finanzwesen";
            u "bankkauffrau"; u "bankkaufmann"; u "kundenmanagement" ]
  /\ outcome (App.extract_keywords (answering Sample.nouns) (u "Finanzwesen"))
     = Ok [u "finanzwesen"; u "finanzwesen"].
Proof.
  repeat split; try (vm_compute; reflexivity).
  intros H. inversion H as [|? ? Hn _]; subst. apply Hn. now left.
Qed.

(** ** The text extractor *)

Lemma strip_blank (t : str) : strip t = [] <-> Spec.blank t.
Proof.
  unfold strip, rstrip, Spec.blank. split.
  - intros H. induction t as [|c t IH]; [constructor|].
    simpl in H. destruct (is_space c) eqn:E.
    + constructor; auto.
    + exfalso. apply (f_equal (@rev Z)) in H. rewrite rev_involutive in H.
      simpl in H. destruct (rev t ++ [c]) as [|d r] eqn:Er.
      * destruct (rev t); discriminate.
      * assert (Hl : In c (d :: r)) by (rewrite <- Er; apply in_or_app; right; now left).
        clear Er. induction (d :: r) as [|x l IHl]; [destruct Hl|].
        simpl in H. destruct (is_space x) eqn:Ex; [|discriminate].
        destruct Hl as [->|Hl]; [congruence | auto].
  - intros H. assert (E : lstrip t = []).
    { induction H as [|c t Hc _ IH]; simpl; [reflexivity | now rewrite Hc]. }
    now rewrite E.
Qed.

Lemma mapM_page_text (pages : list (res (option str))) :
  (exists texts,
      mapM Api.page_text pages = (Ok texts, [])
      /\ Forall2 (fun page s => page = Ok (Some s) \/ (page = Ok None /\ s = []))
                 pages texts)
  \/ (exists e before after,
         mapM Api.page_text pages = (Raise e, [])
         /\ pages = before ++ Raise e :: after
         /\ Forall (fun page => exists t, page = Ok t) before).
Proof.
  induction pages as [|page pages IH]; simpl.
  - left. exists []. split; [reflexivity | constructor].
  - destruct page as [[s|]|e].
    + destruct IH as [(texts & -> & F) | (e & b & a & -> & -> & F)].
      * left. exists (s :: texts). split; [reflexivity|]. constructor; auto.
      * right. exists e, (Ok (Some s) :: b), a. repeat split; auto.
        constructor; eauto.
    + destruct IH as [(texts & -> & F) | (e & b & a & -> & -> & F)].
      * left. exists ([] :: texts). split; [reflexivity|]. constructor; auto.
      * right. exists e, (Ok None :: b), a. repeat split; auto.
        constructor; eauto.
    + right. exists e, [], pages. repeat split; auto.
Qed.

Lemma Forall2_page_unique (pages : list (res (option str))) (t1 t2 : list str) :
  Forall2 (fun page s => page = Ok (Some s) \/ (page = Ok None /\ s = [])) pages t1 ->
  Forall2 (fun page s => page = Ok (Some s) \/ (page = Ok None /\ s = [])) pages t2 ->
  t1 = t2.
Proof.
  intros H. revert t2. induction H as [|p s ps ts Hp _ IH]; intros t2 H2;
    inversion H2 as [|? s' ? ts' Hp' H2']; subst; [reflexivity|].
  f_equal; [|now apply IH].
  destruct Hp as [->|[-> ->]]; destruct Hp' as [E|[E ->]]; congruence.
Qed.

Lemma Api_extract_text_from_pdf_eq (file : FileStorage) :
  Api.extract_text_from_pdf file
  = match pdf_open file with
    | Ok pages =>
        match outcome (mapM Api.page_text pages) with
        | Ok texts =>
            match strip (concat texts) with
            | [] => (Ok Api.NO_TEXT_PDF, [])
            | _ :: _ => (Ok (concat texts), [])
            end
        | Raise e => (Ok (u "Fehler beim Lesen der PDF: " ++ e), [])
        end
    | Raise e => (Ok (u "Fehler beim Lesen der PDF: " ++ e), [])
    end.
Proof.
  unfold Api.extract_text_from_pdf.
  destruct (pdf_open file) as [pages|e]; [|reflexivity].
  cbn [lift bind].
  destruct (mapM_page_text pages) as [(texts & -> & _) | (e & _ & _ & -> & _)].
  - cbn [outcome fst bind]. destruct (strip (concat texts)); reflexivity.
  - reflexivity.
Qed.

Lemma mapM_page_text_texts (pages : list (res (option str))) (texts : list str) :
  Forall2 (fun page s => page = Ok (Some s) \/ (page = Ok None /\ s = []))
          pages texts ->
  mapM Api.page_text pages = (Ok texts, []).
Proof.
  induction 1 as [|page s pages texts Hp _ IH]; [reflexivity|].
  cbn [mapM]. rewrite IH. destruct Hp as [->|[-> ->]]; reflexivity.
Qed.

Lemma mapM_page_text_raise (before after : list (res (option str))) (e : str) :
  Forall (fun page => exists t, page = Ok t) before ->
  mapM Api.page_text (before ++ Raise e :: after) = (Raise e, []).
Proof.
  induction 1 as [|page before [t ->] _ IH]; [reflexivity|].
  cbn [mapM app]. rewrite IH. reflexivity.
Qed.

Lemma Api_extract_text_from_pdf_total (file : FileStorage) :
  exists s, Api.extract_text_from_pdf file = (Ok s, []).
Proof.
  rewrite Api_extract_text_from_pdf_eq.
  destruct (pdf_open file) as [pages|e]; [|eauto].
  destruct (outcome (mapM Api.page_text pages)) as [texts|e]; [|eauto].
  destruct (strip (concat texts)); eauto.
Qed.

(** The extractor of [api.py] keeps the contract of the specification: it
    always returns; a read error becomes a failure text that carries its
    cause; blank text becomes the no-extractable-text failure; other text
    is returned as it is. *)
Lemma Api_extract_text_from_pdf_contract (file : FileStorage) :
  (exists s, Api.extract_text_from_pdf file = (Ok s, []))
  /\ (forall e, Spec.pdf_unreadable file e ->
        Api.extract_text_from_pdf file
        = (Ok (u "Fehler beim Lesen der PDF: " ++ e), []))
  /\ (forall t, Spec.pdf_text file t -> Spec.blank t ->
        Api.extract_text_from_pdf file = (Ok Api.NO_TEXT_PDF, []))
  /\ (forall t, Spec.pdf_text file t -> ~ Spec.blank t ->
        Api.extract_text_from_pdf file = (Ok t, [])).
Proof.
  split; [apply Api_extract_text_from_pdf_total|].
  rewrite Api_extract_text_from_pdf_eq. repeat split.
  - intros e [->|(pages & b & a & -> & -> & F)]; [reflexivity|].
    now rewrite mapM_page_text_raise.
  - intros t (pages & texts & -> & F & ->) Hb.
    rewrite (mapM_page_text_texts _ _ F). cbn [outcome fst].
    apply strip_blank in Hb. now rewrite Hb.
  - intros t (pages & texts & -> & F & ->) Hb.
    rewrite (mapM_page_text_texts _ _ F). cbn [outcome fst].
    destruct (strip (concat texts)) eqn:Es; [|reflexivity].
    apply strip_blank in Es. contradiction.
Qed.

Lemma Api_extract_text_from_docx_contract (file : FileStorage) :
  (exists s, Api.extract_text_from_docx file = (Ok s, []))
  /\ (forall e, docx_open file = Raise e ->
        Api.extract_text_from_docx file
        = (Ok (u "Fehler beim Lesen der DOCX: " ++ e), []))
  /\ (forall t, Spec.docx_text file t -> Spec.blank t ->
        Api.extract_text_from_docx file = (Ok Api.NO_TEXT_DOCX, []))
  /\ (forall t, Spec.docx_text file t -> ~ Spec.blank t ->
        Api.extract_text_from_docx file = (Ok t, [])).
Proof.
  unfold Api.extract_text_from_docx, Spec.docx_text. repeat split.
  - destruct (docx_open file) as [ps|e]; [|eexists; reflexivity].
    cbn [lift bind]. destruct (strip (concat ps)); eexists; reflexivity.
  - intros e ->. reflexivity.
  - intros t (ps & -> & ->) Hb. cbn [lift bind].
    apply strip_blank in Hb. now rewrite Hb.
  - intros t (ps & -> & ->) Hb. cbn [lift bind].
    destruct (strip (concat ps)) eqn:Es; [|reflexivity].
    apply strip_blank in Es. contradiction.
Qed.

(** C4.  The extractor of the form ([app.py]) does not keep the contract:
    for a PDF whose pages have no text, or white space only, it returns
    the blank text as a success, where the extractor of [api.py] returns
    the no-extractable-text failure.  Both catch a read error. *)
Theorem extract_text_blank_pdf :
  Spec.pdf_text Sample.scanned_pdf [] /\ Spec.blank []
  /\ Api.extract_text_from_pdf Sample.scanned_pdf = (Ok Api.NO_TEXT_PDF, [])
  /\ App.extract_text_from_pdf Sample.scanned_pdf = (Ok [], [])
  /\ Spec.pdf_text Sample.blank_pdf [32; 10; 10] /\ Spec.blank [32; 10; 10]
  /\ Api.extract_text_from_pdf Sample.blank_pdf = (Ok Api.NO_TEXT_PDF, [])
  /\ App.extract_text_from_pdf Sample.blank_pdf = (Ok [32; 10; 10], [])
  /\ contains Api.FEHLER [32; 10; 10] = false
  /\ App.extract_text_from_pdf Sample.corrupt_pdf
     = (Ok (u "Fehler beim Lesen der PDF: No /Root object! - Is this really a PDF?"), []).
Proof.
  repeat apply conj; try (vm_compute; reflexivity).
  - exists [Ok None], [[]]. repeat apply conj; try reflexivity.
    constructor; [right; auto | constructor].
  - constructor.
  - exists [Ok (Some [32; 10]); Ok (Some [10])], [[32; 10]; [10]].
    repeat apply conj; try reflexivity.
    constructor; [left; reflexivity|]. constructor; [left; reflexivity | constructor].
  - repeat constructor.
Qed.

(** ** The letter composer *)

Lemma all_filled_true (l : list str) :
  Api.all_filled l = true <-> Forall (fun s => s <> []) l.
Proof.
  unfold Api.all_filled. rewrite forallb_forall, Forall_forall.
  split; intros H s Hs; specialize (H s Hs); destruct s; congruence.
Qed.

Lemma all_filled_false (l : list str) :
  Api.all_filled l = false <-> Exists (fun s => s = []) l.
Proof.
  rewrite Exists_exists. split.
  - intros H. induction l as [|s l IH]; simpl in H; [discriminate|].
    destruct s as [|c s].
    + exists []. split; [now left | reflexivity].
    + destruct (IH H) as (x & Hx & E). exists x. split; [now right | assumption].
  - intros (x & Hx & ->).
    destruct (Api.all_filled l) eqn:E; [|reflexivity].
    apply all_filled_true in E. rewrite Forall_forall in E.
    now specialize (E [] Hx).
Qed.

(** C5.  When one of the six texts is empty, [generate_cover_letter]
    returns the failure that says so; when all are filled and the strengths
    or the weaknesses fail the validator, it returns the failure that says
    so.  In both cases it makes no call at all: no keyword extraction, no
    request to the generation service. *)
Theorem generate_cover_letter_rejects :
  forall (nlp : str -> res (list Token)) (chat : str -> str -> res str)
         (cv_text job_text strengths weaknesses name company tone : str),
    (Exists (fun s => s = [])
            [cv_text; job_text; strengths; weaknesses; name; company] ->
     Api.generate_cover_letter nlp chat cv_text job_text strengths weaknesses
                               name company tone
     = (Ok (u "Fehler: Alle Felder müssen ausgefüllt sein."), []))
    /\ (Forall (fun s => s <> [])
               [cv_text; job_text; strengths; weaknesses; name; company] ->
        Api.is_valid_input strengths = false
        \/ Api.is_valid_input weaknesses = false ->
        Api.generate_cover_letter nlp chat cv_text job_text strengths weaknesses
                                  name company tone
        = (Ok (u "Fehler: Stärken und Schwächen müssen sinnvolle Eingaben sein."), [])).
Proof.
  intros nlp chat cv job s w n c tone. unfold Api.generate_cover_letter. split.
  - intros H. apply all_filled_false in H. rewrite H. reflexivity.
  - intros H V. apply all_filled_true in H. rewrite H. cbn [negb].
    assert (E : negb (Api.is_valid_input s) || negb (Api.is_valid_input w) = true).
    { destruct V as [-> | ->]; [reflexivity | apply orb_true_r]. }
    rewrite E. reflexivity.
Qed.

(** C5 at a request without a name, and at one whose strengths are digits
    only. *)
Lemma generate_cover_letter_rejects_witness :
  Api.generate_cover_letter (answering Sample.nouns) Sample.service
    (u "Lebenslauf") (u "Stelle") (u "Teamfähigkeit") (u "Perfektionismus")
    (u "") (u "Beispiel GmbH") (u "Professionell")
  = (Ok (u "Fehler: Alle Felder müssen ausgefüllt sein."), [])
  /\ Api.generate_cover_letter (answering Sample.nouns) Sample.service
       (u "Lebenslauf") (u "Stelle") (u "1234567890") (u "Perfektionismus")
       (u "Max Mustermann") (u "Beispiel GmbH") (u "Professionell")
     = (Ok (u "Fehler: Stärken und Schwächen müssen sinnvolle Eingaben sein."), []).
Proof.
  split.
  - apply (proj1 (generate_cover_letter_rejects (answering Sample.nouns) Sample.service
      (u "Lebenslauf") (u "Stelle") (u "Teamfähigkeit") (u "Perfektionismus")
      (u "") (u "Beispiel GmbH") (u "Professionell"))).
    do 4 apply Exists_cons_tl. apply Exists_cons_hd. reflexivity.
  - apply (proj2 (generate_cover_letter_rejects (answering Sample.nouns) Sample.service
      (u "Lebenslauf") (u "Stelle") (u "1234567890") (u "Perfektionismus")
      (u "Max Mustermann") (u "Beispiel GmbH") (u "Professionell"))).
    + repeat (apply Forall_cons; [vm_compute; discriminate|]). apply Forall_nil.
    + left. vm_compute. reflexivity.
Defined.

(** ** The endpoint *)

Lemma given_Some (f : option FileStorage) (file : FileStorage) :
  Api.given f = Some file <-> f = Some file /\ filename file <> [].
Proof.
  unfold Api.given, Api.file_given. split.
  - destruct f as [g|]; [|discriminate].
    destruct (filename g) eqn:E; [discriminate|].
    intros H. injection H as <-. split; [reflexivity | congruence].
  - intros [-> H]. destruct (filename file); [contradiction | reflexivity].
Qed.

Lemma respond_cv_marker (nlp : str -> res (list Token)) (chat : str -> str -> res str)
    (req : Api.request) (tone cv_text job_text : str) :
  contains Api.FEHLER cv_text = true ->
  Api.respond nlp chat req tone cv_text job_text
  = (Ok {| Api.status := 400;
           Api.body := Api.JError (u "Fehler beim Verarbeiten des Lebenslaufs: " ++ cv_text) |},
     []).
Proof. intros H. unfold Api.respond. rewrite H. reflexivity. Qed.

(** Whatever the job file is, a résumé text that contains the marker word
    ends the request with status 400 before any call is made. *)
Lemma endpoint_cv_marker (nlp : str -> res (list Token)) (chat : str -> str -> res str)
    (req : Api.request) (cv : FileStorage) (t : str) :
  Api.cv_file req = Some cv -> filename cv <> [] ->
  Api.read_cv cv = (Ok (Some t), []) ->
  contains Api.FEHLER t = true ->
  exists resp,
    Api.api_generate_cover_letter nlp chat req = (Ok resp, [])
    /\ Api.status resp = 400
    /\ (forall job,
          Api.job_file req = Some job -> filename job <> [] ->
          mimetype job = MIME_PDF ->
          Api.body resp
          = Api.JError (u "Fehler beim Verarbeiten des Lebenslaufs: " ++ t))
    /\ (forall job,
          Api.job_file req = Some job -> filename job <> [] ->
          mimetype job <> MIME_PDF ->
          Api.body resp
          = Api.JError (u "Ungültiges Stellenprofil-Format: " ++ mimetype job
                        ++ u ". Nur PDF erlaubt."))
    /\ (Api.job_file req = None
        \/ (exists job, Api.job_file req = Some job /\ filename job = []) ->
        Api.body resp = Api.JError (u "Bitte laden Sie ein Stellenprofil hoch.")).
Proof.
  intros Hcv Hname Hread Hmark. unfold Api.api_generate_cover_letter.
  rewrite (proj2 (given_Some _ _) (conj Hcv Hname)).
  destruct (Api.given (Api.job_file req)) as [job|] eqn:Ej.
  - apply given_Some in Ej as [Ej Hj]. rewrite Hread. cbn [bind].
    destruct (str_eqb (mimetype job) MIME_PDF) eqn:Em.
    + destruct (Api_extract_text_from_pdf_total job) as [s Hs].
      rewrite Hs. cbn [bind]. rewrite respond_cv_marker by assumption.
      eexists. split; [reflexivity|]. split; [reflexivity|].
      split; [intros; reflexivity|]. split.
      * intros job' E _ Hm. rewrite Ej in E. injection E as <-.
        apply str_eqb_eq in Em. contradiction.
      * intros [E | (job' & E & Hn)]; rewrite Ej in E; [discriminate|].
        injection E as <-. contradiction.
    + eexists. split; [reflexivity|]. split; [reflexivity|]. split; [|split].
      * intros job' E _ Hm. rewrite Ej in E. injection E as <-.
        rewrite Hm, str_eqb_refl in Em. discriminate.
      * intros job' E _ _. rewrite Ej in E. injection E as <-. reflexivity.
      * intros [E | (job' & E & Hn)]; rewrite Ej in E; [discriminate|].
        injection E as <-. contradiction.
  - eexists. split; [reflexivity|]. split; [reflexivity|]. split; [|split].
    + intros job' E Hj _. exfalso.
      rewrite (proj2 (given_Some _ _) (conj E Hj)) in Ej. discriminate.
    + intros job' E Hj _. exfalso.
      rewrite (proj2 (given_Some _ _) (conj E Hj)) in Ej. discriminate.
    + intros _. reflexivity.
Qed.

Lemma read_cv_pdf (cv : FileStorage) (t : str) :
  mimetype cv = MIME_PDF ->
  Api.extract_text_from_pdf cv = (Ok t, []) ->
  Api.read_cv cv = (Ok (Some t), []).
Proof.
  intros Hm He. unfold Api.read_cv. rewrite Hm, str_eqb_refl, He. reflexivity.
Qed.

(** C6, as amended.  When the résumé is a PDF for which the extractor
    yields the no-extractable-text failure, the endpoint answers with
    status 400 and has made no call at all, so none to the generation
    service.  When the job file is given and declared as PDF, the error
    message is the résumé-processing message followed by the extractor's
    failure text; otherwise it is the message about the job file: the
    format message when the job file is given and not declared as PDF, the
    request to upload a job posting when it is missing or has no file
    name. *)
Theorem no_text_resume_rejected :
  forall (nlp : str -> res (list Token)) (chat : str -> str -> res str)
         (req : Api.request) (cv : FileStorage),
    Api.cv_file req = Some cv -> filename cv <> [] ->
    mimetype cv = MIME_PDF ->
    Api.extract_text_from_pdf cv = (Ok Api.NO_TEXT_PDF, []) ->
    exists resp,
      outcome (Api.api_generate_cover_letter nlp chat req) = Ok resp
      /\ Api.status resp = 400
      /\ no_chat (trace (Api.api_generate_cover_letter nlp chat req))
      /\ (forall job,
            Api.job_file req = Some job -> filename job <> [] ->
            mimetype job = MIME_PDF ->
            Api.body resp
            = Api.JError (u "Fehler beim Verarbeiten des Lebenslaufs: "
                          ++ Api.NO_TEXT_PDF))
      /\ (forall job,
            Api.job_file req = Some job -> filename job <> [] ->
            mimetype job <> MIME_PDF ->
            Api.body resp
            = Api.JError (u "Ungültiges Stellenprofil-Format: " ++ mimetype job
                          ++ u ". Nur PDF erlaubt."))
      /\ (Api.job_file req = None
          \/ (exists job, Api.job_file req = Some job /\ filename job = []) ->
          Api.body resp = Api.JError (u "Bitte laden Sie ein Stellenprofil hoch.")).
Proof.
  intros nlp chat req cv Hcv Hname Hm He.
  destruct (endpoint_cv_marker nlp chat req cv Api.NO_TEXT_PDF Hcv Hname)
    as (resp & H1 & H2 & H3 & H4 & H5).
  - now apply read_cv_pdf.
  - vm_compute. reflexivity.
  - exists resp. rewrite H1. repeat apply conj; auto; reflexivity.
Qed.

(** The amended C6 at a scanned résumé: sent with a job posting in PDF,
    with a job file declared as a word-processing document, and without a
    job file. *)
Lemma no_text_resume_rejected_witness :
  (exists resp,
      outcome (Api.api_generate_cover_letter (answering Sample.nouns) Sample.service
                 (Sample.request_of Sample.scanned_pdf Sample.job_pdf)) = Ok resp
      /\ Api.status resp = 400
      /\ Api.body resp
         = Api.JError (u "Fehler beim Verarbeiten des Lebenslaufs: Fehler: Kein extrahierbarer Text in der PDF-Datei."))
  /\ (exists resp,
        outcome (Api.api_generate_cover_letter (answering Sample.nouns) Sample.service
                   (Sample.request_of Sample.scanned_pdf
                      (Sample.docx [u "Stellenprofil"]))) = Ok resp
        /\ Api.status resp = 400
        /\ Api.body resp
           = Api.JError (u "Ungültiges Stellenprofil-Format: "
                         ++ mimetype (Sample.docx [u "Stellenprofil"])
                         ++ u ". Nur PDF erlaubt."))
  /\ (exists resp,
        outcome (Api.api_generate_cover_letter (answering Sample.nouns) Sample.service
                   (Sample.without_job Sample.scanned_pdf)) = Ok resp
        /\ Api.status resp = 400
        /\ Api.body resp = Api.JError (u "Bitte laden Sie ein Stellenprofil hoch.")).
Proof.
  assert (N : filename Sample.scanned_pdf <> []) by (vm_compute; discriminate).
  assert (E : Api.extract_text_from_pdf Sample.scanned_pdf = (Ok Api.NO_TEXT_PDF, []))
    by (vm_compute; reflexivity).
  split; [|split].
  - destruct (no_text_resume_rejected (answering Sample.nouns) Sample.service
                (Sample.request_of Sample.scanned_pdf Sample.job_pdf)
                Sample.scanned_pdf eq_refl N eq_refl E)
      as (resp & H1 & H2 & _ & H3 & _).
    exists resp. split; [exact H1|]. split; [exact H2|].
    rewrite (H3 Sample.job_pdf).
    + vm_compute. reflexivity.
    + reflexivity.
    + vm_compute. discriminate.
    + reflexivity.
  - destruct (no_text_resume_rejected (answering Sample.nouns) Sample.service
                (Sample.request_of Sample.scanned_pdf (Sample.docx [u "Stellenprofil"]))
                Sample.scanned_pdf eq_refl N eq_refl E)
      as (resp & H1 & H2 & _ & _ & H4 & _).
    exists resp. split; [exact H1|]. split; [exact H2|].
    refine (H4 (Sample.docx [u "Stellenprofil"]) eq_refl _ _).
    + vm_compute. discriminate.
    + vm_compute. discriminate.
  - destruct (no_text_resume_rejected (answering Sample.nouns) Sample.service
                (Sample.without_job Sample.scanned_pdf)
                Sample.scanned_pdf eq_refl N eq_refl E)
      as (resp & H1 & H2 & _ & _ & _ & H5).
    exists resp. split; [exact H1|]. split; [exact H2|].
    apply H5. left. reflexivity.
Defined.

(** C6 as stated fails: a scanned résumé sent with a job file declared as a
    word-processing document is answered with the message about the job
    file's format, not with one about the extraction. *)
Lemma no_text_resume_counterexample :
  Api.extract_text_from_pdf Sample.scanned_pdf = (Ok Api.NO_TEXT_PDF, [])
  /\ Api.api_generate_cover_letter (answering Sample.nouns) Sample.service
       (Sample.request_of Sample.scanned_pdf (Sample.docx [u "Stellenprofil"]))
     = (Ok {| Api.status := 400;
              Api.body := Api.JError (u "Ungültiges Stellenprofil-Format: application/vnd.openxmlformats-officedocument.wordprocessingml.document. Nur PDF erlaubt.") |},
        [])
  /\ contains (u "Text") (u "Ungültiges Stellenprofil-Format: application/vnd.openxmlformats-officedocument.wordprocessingml.document. Nur PDF erlaubt.") = false.
Proof.
  repeat apply conj; vm_compute; reflexivity.
Qed.

(** C9.  The endpoint classifies by the marker word: when the text of the
    résumé PDF is read without error, is not blank and contains "Fehler",
    the extractor returns that text, and the endpoint answers with status
    400 without any call, so without one to the generation service; with
    the job file given and declared as PDF, the message is the one of a
    failed extraction, followed by the text. *)
Theorem marker_in_resume_rejected :
  forall (nlp : str -> res (list Token)) (chat : str -> str -> res str)
         (req : Api.request) (cv : FileStorage) (t : str),
    Api.cv_file req = Some cv -> filename cv <> [] ->
    mimetype cv = MIME_PDF ->
    Spec.pdf_text cv t -> ~ Spec.blank t ->
    contains Api.FEHLER t = true ->
    Api.extract_text_from_pdf cv = (Ok t, [])
    /\ exists resp,
        outcome (Api.api_generate_cover_letter nlp chat req) = Ok resp
        /\ Api.status resp = 400
        /\ no_chat (trace (Api.api_generate_cover_letter nlp chat req))
        /\ (forall job,
              Api.job_file req = Some job -> filename job <> [] ->
              mimetype job = MIME_PDF ->
              Api.body resp
              = Api.JError (u "Fehler beim Verarbeiten des Lebenslaufs: " ++ t)).
Proof.
  intros nlp chat req cv t Hcv Hname Hm Ht Hb Hmark.
  assert (He : Api.extract_text_from_pdf cv = (Ok t, [])).
  { now apply (Api_extract_text_from_pdf_contract cv). }
  split; [exact He|].
  destruct (endpoint_cv_marker nlp chat req cv t Hcv Hname)
    as (resp & H1 & H2 & H3 & _).
  - now apply read_cv_pdf.
  - exact Hmark.
  - exists resp. rewrite H1. repeat apply conj; auto; reflexivity.
Qed.

(** C9 at a résumé that mentions "Fehleranalyse". *)
Lemma marker_in_resume_rejected_witness :
  Api.extract_text_from_pdf Sample.cv_fehleranalyse
  = (Ok (u "Erfahrung in Fehleranalyse und Kundenberatung"), [])
  /\ exists resp,
      outcome (Api.api_generate_cover_letter (answering Sample.nouns) Sample.service
                 (Sample.request_of Sample.cv_fehleranalyse Sample.job_pdf)) = Ok resp
      /\ Api.status resp = 400
      /\ Api.body resp
         = Api.JError (u "Fehler beim Verarbeiten des Lebenslaufs: Erfahrung in Fehleranalyse und Kundenberatung").
Proof.
  destruct (marker_in_resume_rejected (answering Sample.nouns) Sample.service
              (Sample.request_of Sample.cv_fehleranalyse Sample.job_pdf)
              Sample.cv_fehleranalyse
              (u "Erfahrung in Fehleranalyse und Kundenberatung"))
    as (He & resp & H1 & H2 & _ & H3).
  - reflexivity.
  - vm_compute. discriminate.
  - reflexivity.
  - exists [Ok (Some (u "Erfahrung in Fehleranalyse und Kundenberatung"))],
      [u "Erfahrung in Fehleranalyse und Kundenberatung"].
    split; [reflexivity|]. split; [|vm_compute; reflexivity].
    constructor; [left; reflexivity | constructor].
  - vm_compute. intros H. inversion H as [|? ? Hc _]. discriminate Hc.
  - vm_compute. reflexivity.
  - split; [exact He|]. exists resp. split; [exact H1|]. split; [exact H2|].
    rewrite (H3 Sample.job_pdf).
    + vm_compute. reflexivity.
    + reflexivity.
    + vm_compute. discriminate.
    + reflexivity.
Defined.

(** ** The prompt *)

Lemma app_piece (a b x y : str) : a = b -> x = y -> a ++ x = b ++ y.
Proof. now intros -> ->. Qed.

Lemma app_pieces (a a1 a2 x y : str) :
  a = a1 ++ a2 -> x = y -> a ++ x = a1 ++ a2 ++ y.
Proof. intros -> ->. now rewrite app_assoc. Qed.

Ltac same := apply app_piece; [exact eq_refl|].
Ltac label := apply app_piece; [vm_compute; reflexivity|]; same.

Lemma slice_to_excerpt (t : str) : Spec.excerpt t (slice_to t 1000).
Proof.
  rewrite slice_to_nonneg by lia. change (Z.to_nat 1000) with 1000%nat. split.
  - exists (skipn 1000 t). symmetry. apply firstn_skipn.
  - apply length_firstn.
Qed.

Lemma join_comma_separated (l : list str) :
  Spec.comma_separated l (join (u ", ") l).
Proof.
  induction l as [|w l IH]; [constructor|].
  destruct l as [|x l]; [constructor|].
  change (join (u ", ") (w :: x :: l)) with (w ++ [44; 32] ++ join (u ", ") (x :: l)).
  constructor; [discriminate | exact IH].
Qed.

Lemma Api_prompt_embeds (cv job s w n c tone : str) (cvk jobk : list str) :
  Spec.embeds (Api.prompt_of cv job s w n c tone cvk jobk) cv job s w cvk jobk.
Proof.
  unfold Spec.embeds, Api.prompt_of.
  exists (u "
    Erstelle ein " ++ lower tone
  ++ u "es Motivationsschreiben auf Deutsch für " ++ n
  ++ u ", der/die sich bei " ++ c
  ++ u " auf eine Position als Bankkauffrau/-mann bewirbt. Verwende die folgenden Informationen:
").
  exists (slice_to cv 1000), (slice_to job 1000).
  exists (join (u ", ") cvk), (join (u ", ") jobk).
  eexists.
  split; [apply slice_to_excerpt|]. split; [apply slice_to_excerpt|].
  split; [apply join_comma_separated|]. split; [apply join_comma_separated|].
  rewrite <- !app_assoc. do 6 same.
  apply app_pieces; [vm_compute; reflexivity|]. same.
  label. label. label. label. label. exact eq_refl.
Qed.






(** ** The document exporter *)

Lemma split_blank_from_cons2 (acc : str) (c d : Z) (s : str) :
  split_blank_from acc (c :: d :: s)
  = if (c =? LF) && (d =? LF) then rev acc :: split_blank_from [] s
    else split_blank_from (c :: acc) (d :: s).
Proof. reflexivity. Qed.

Lemma contains_cons2 (c d : Z) (s : str) :
  contains [LF; LF] (c :: d :: s)
  = ((c =? LF) && (d =? LF)) || contains [LF; LF] (d :: s).
Proof.
  cbn [contains starts_with]. rewrite andb_true_r.
  now rewrite (Z.eqb_sym LF c), (Z.eqb_sym LF d).
Qed.

Lemma split_blank_from_none (s acc : str) :
  contains [LF; LF] s = false -> split_blank_from acc s = [rev acc ++ s].
Proof.
  revert acc. induction s as [|c s IH]; intros acc H.
  - simpl. now rewrite app_nil_r.
  - destruct s as [|d s]; [reflexivity|].
    rewrite contains_cons2 in H. apply orb_false_iff in H as [H1 H2].
    rewrite split_blank_from_cons2, H1, IH by assumption.
    simpl. now rewrite <- app_assoc.
Qed.

Lemma split_blank_from_boundary (a acc rest : str) :
  contains [LF; LF] a = false ->
  (forall a0, a <> a0 ++ [LF]) ->
  split_blank_from acc (a ++ LF :: LF :: rest)
  = (rev acc ++ a) :: split_blank_from [] rest.
Proof.
  revert acc. induction a as [|c a IH]; intros acc H E.
  - simpl. now rewrite app_nil_r.
  - destruct a as [|d a].
    + assert (Hc : (c =? LF) = false).
      { apply Z.eqb_neq. intros ->. now apply (E []). }
      simpl app. rewrite split_blank_from_cons2, Hc. simpl andb.
      rewrite split_blank_from_cons2. reflexivity.
    + rewrite contains_cons2 in H. apply orb_false_iff in H as [H1 H2].
      change ((c :: d :: a) ++ LF :: LF :: rest)
        with (c :: d :: (a ++ LF :: LF :: rest)).
      rewrite split_blank_from_cons2, H1.
      change (d :: a ++ LF :: LF :: rest) with ((d :: a) ++ LF :: LF :: rest).
      rewrite IH.
      * simpl. now rewrite <- app_assoc.
      * assumption.
      * intros a0 Ha. apply (E (c :: a0)). simpl. now rewrite Ha.
Qed.

Lemma contains_snoc2 (a : str) : contains [LF; LF] (a ++ [LF; LF]) = true.
Proof.
  induction a as [|c a IH]; [reflexivity|].
  simpl app. cbn [contains]. rewrite IH. apply orb_true_r.
Qed.

Lemma starts_with_app (p a b : str) :
  starts_with p a = true -> starts_with p (a ++ b) = true.
Proof.
  revert a. induction p as [|x p IH]; intros [|y a]; simpl; try congruence.
  intros H. apply andb_true_iff in H as [H1 H2]. rewrite H1. simpl. auto.
Qed.

Lemma contains_app_l (p a b : str) :
  contains p (a ++ b) = false -> contains p a = false.
Proof.
  intros H. destruct (contains p a) eqn:E; [|reflexivity].
  rewrite <- H. symmetry. clear H.
  induction a as [|c a IH].
  - simpl in E. rewrite orb_false_r in E. destruct p; [|discriminate].
    destruct b; reflexivity.
  - cbn [contains] in E. apply orb_true_iff in E as [E|E].
    + pose proof (starts_with_app p (c :: a) b E) as S.
      simpl app in *. cbn [contains]. rewrite S. reflexivity.
    + simpl app. cbn [contains]. rewrite (IH E). apply orb_true_r.
Qed.

Lemma lstrip_snoc_space (a : str) (c : Z) :
  is_space c = true ->
  lstrip (a ++ [c]) = match lstrip a with
                      | [] => []
                      | _ :: _ => lstrip a ++ [c]
                      end.
Proof.
  intros Hc. induction a as [|x a IH]; simpl.
  - now rewrite Hc.
  - destruct (is_space x); [assumption | reflexivity].
Qed.

Lemma strip_snoc_space (a : str) (c : Z) :
  is_space c = true -> strip (a ++ [c]) = strip a.
Proof.
  intros Hc. unfold strip, rstrip. rewrite lstrip_snoc_space by assumption.
  destruct (lstrip a) as [|x l]; [reflexivity|].
  rewrite rev_unit. simpl lstrip at 1. now rewrite Hc.
Qed.

Lemma strip_cons_space (c : Z) (b : str) :
  is_space c = true -> strip (c :: b) = strip b.
Proof. intros Hc. unfold strip. simpl. now rewrite Hc. Qed.

Lemma ends_with_dec (a : str) :
  {a0 | a = a0 ++ [LF]} + {forall a0, a <> a0 ++ [LF]}.
Proof.
  destruct (rev a) as [|c r] eqn:E.
  - right. intros a0 H. subst a. rewrite rev_unit in E. discriminate.
  - apply (f_equal (@rev Z)) in E. rewrite rev_involutive in E. simpl in E.
    destruct (Z.eq_dec c LF) as [->|Hc].
    + left. exists (rev r). exact E.
    + right. intros a0 H. rewrite H in E.
      apply app_inj_tail in E as [_ E']. congruence.
Qed.

(** The pieces of a letter of two blocks. *)
Lemma split_blank_two (a b : str) :
  contains [LF; LF] a = false -> contains [LF; LF] b = false ->
  ~ ((exists a0, a = a0 ++ [LF]) /\ (exists b0, b = LF :: b0)) ->
  map strip (split_blank (a ++ [LF; LF] ++ b)) = [strip a; strip b].
Proof.
  intros Ha Hb Hab. unfold split_blank. simpl app.
  destruct (ends_with_dec a) as [[a0 ->]|Ea].
  - assert (Hb0 : forall b0, b <> LF :: b0) by (intros b0 E; apply Hab; eauto).
    rewrite <- app_assoc. simpl app.
    rewrite split_blank_from_boundary.
    + rewrite split_blank_from_none.
      * simpl. rewrite strip_snoc_space, strip_cons_space; reflexivity.
      * destruct b as [|d b]; [reflexivity|].
        rewrite contains_cons2, Hb, orb_false_r. rewrite Z.eqb_refl. simpl.
        apply Z.eqb_neq. intros ->. now apply (Hb0 b).
    + now apply contains_app_l in Ha.
    + intros a1 ->. rewrite <- app_assoc in Ha. simpl in Ha.
      now rewrite contains_snoc2 in Ha.
  - rewrite split_blank_from_boundary by assumption.
    rewrite split_blank_from_none by assumption. reflexivity.
Qed.

Lemma fold_paragraphs (ps : list str) (d : document) :
  fold_left (fun d p => add_paragraph d (strip p)) ps d
  = d ++ map (fun p => Paragraph (strip p)) ps.
Proof.
  revert d. induction ps as [|p ps IH]; intros d; simpl.
  - now rewrite app_nil_r.
  - rewrite IH. unfold add_paragraph. now rewrite <- app_assoc.
Qed.

Lemma save_cover_letter_blocks (text : str) :
  App.save_cover_letter text
  = Heading 1 App.TITLE :: map (fun p => Paragraph (strip p)) (split_blank text).
Proof.
  unfold App.save_cover_letter. cbv zeta. rewrite fold_paragraphs. reflexivity.
Qed.

Lemma generate_docx_blocks (letter : str) (save : document -> res unit) :
  letter <> [] ->
  save (Heading 1 Api.TITLE
          :: map (fun p => Paragraph (strip p)) (split_blank letter)) = Ok tt ->
  Api.generate_docx (Some letter) save
  = (Ok (Api.SendFile
           (Heading 1 Api.TITLE
              :: map (fun p => Paragraph (strip p)) (split_blank letter))), []).
Proof.
  intros Hl Hs. unfold Api.generate_docx.
  destruct letter as [|c letter]; [contradiction|].
  cbv zeta. rewrite fold_paragraphs.
  change (add_heading new_document Api.TITLE 1 ++ ?x)
    with (Heading 1 Api.TITLE :: x).
  rewrite Hs. reflexivity.
Qed.

Lemma map_paragraphs (ps : list str) :
  map (fun p => Paragraph (strip p)) ps = map Paragraph (map strip ps).
Proof. now rewrite map_map. Qed.

(** C8, as amended.  For a letter [A ++ "\n\n" ++ B] where neither [A] nor
    [B] contains a blank-line boundary, and where it is not the case that
    [A] ends with a line feed while [B] starts with one, the exported
    document is one level-1 heading with the fixed title followed by exactly
    two paragraphs, [strip A] and [strip B], in that order.  This holds for
    the form's [save_cover_letter] and, when the file can be written, for
    the attachment of the endpoint [/generate_docx]. *)
Theorem export_two_paragraphs :
  forall A B : str,
    contains [LF; LF] A = false -> contains [LF; LF] B = false ->
    ~ ((exists A0, A = A0 ++ [LF]) /\ (exists B0, B = LF :: B0)) ->
    App.save_cover_letter (A ++ [LF; LF] ++ B)
    = [Heading 1 (u "Motivationsschreiben"); Paragraph (strip A); Paragraph (strip B)]
    /\ (forall save : document -> res unit,
          save [Heading 1 (u "Motivationsschreiben");
                Paragraph (strip A); Paragraph (strip B)] = Ok tt ->
          Api.generate_docx (Some (A ++ [LF; LF] ++ B)) save
          = (Ok (Api.SendFile [Heading 1 (u "Motivationsschreiben");
                               Paragraph (strip A); Paragraph (strip B)]), [])).
Proof.
  intros A B HA HB HAB.
  pose proof (split_blank_two A B HA HB HAB) as E. split.
  - rewrite save_cover_letter_blocks, map_paragraphs, E. reflexivity.
  - intros save Hs. rewrite generate_docx_blocks.
    + rewrite map_paragraphs, E. reflexivity.
    + destruct A; discriminate.
    + rewrite map_paragraphs, E. exact Hs.
Qed.

(** The amended C8 at a letter of a salutation and a closing. *)
Lemma export_two_paragraphs_witness :
  App.save_cover_letter (u " Sehr geehrte Damen und Herren," ++ [LF; LF]
                         ++ u "mit freundlichen Gruessen ")
  = [ Heading 1 (u "Motivationsschreiben");
      Paragraph (u "Sehr geehrte Damen und Herren,");
      Paragraph (u "mit freundlichen Gruessen") ].
Proof.
  refine (eq_trans
            (proj1 (export_two_paragraphs (u " Sehr geehrte Damen und Herren,")
                      (u "mit freundlichen Gruessen ") _ _ _)) _).
  - vm_compute. reflexivity.
  - vm_compute. reflexivity.
  - intros [_ [B0 E]]. vm_compute in E. discriminate E.
  - vm_compute. reflexivity.
Defined.

(** C8 as stated fails: with [A] ending in a line feed and [B] starting with
    one, neither contains a blank-line boundary, yet the letter is cut into
    three paragraphs, the middle one empty. *)
Lemma export_two_paragraphs_counterexample :
  contains [LF; LF] (u "Anrede" ++ [LF]) = false
  /\ contains [LF; LF] (LF :: u "Gruss") = false
  /\ App.save_cover_letter ((u "Anrede" ++ [LF]) ++ [LF; LF] ++ (LF :: u "Gruss"))
     = [ Heading 1 (u "Motivationsschreiben");
         Paragraph (u "Anrede"); Paragraph []; Paragraph (u "Gruss") ]
  /\ outcome (Api.generate_docx
                (Some ((u "Anrede" ++ [LF]) ++ [LF; LF] ++ (LF :: u "Gruss")))
                (fun _ => Ok tt))
     = Ok (Api.SendFile [ Heading 1 (u "Motivationsschreiben");
                          Paragraph (u "Anrede"); Paragraph [];
                          Paragraph (u "Gruss") ]).
Proof.
  repeat apply conj; vm_compute; reflexivity.
Qed.

(** ** The two entry points *)

(** C10.  Given the same tagger, the [extract_keywords] of the form and the
    one of the endpoint return the same list for every text (and raise the
    same exception when the tagger raises), and the two [is_valid_input]
    agree on every string. *)
Theorem entry_points_agree :
  forall (nlp : str -> res (list Token)) (s : str),
    App.extract_keywords nlp s = Api.extract_keywords nlp s
    /\ App.is_valid_input s = Api.is_valid_input s.
Proof.
  intros nlp s. split.
  - unfold App.extract_keywords, Api.extract_keywords.
    destruct (nlp s) as [doc|e]; [|reflexivity].
    cbn [bind tell lift ret]. now rewrite (App_rank_eq doc).
  - apply App_is_valid_input_eq.
Qed.

(** ** Two complete requests *)

(** With readable files and valid fields the endpoint answers 200 with the
    stripped letter of the service and two keyword lists; the extractor
    ran four times and the service was asked once. *)
Example endpoint_answers_letter :
  exists letter cv_keywords job_keywords prompt,
    Api.api_generate_cover_letter (answering Sample.nouns) Sample.service
      (Sample.request_of Sample.cv_pdf Sample.job_pdf)
    = (Ok {| Api.status := 200;
             Api.body := Api.JLetter letter cv_keywords job_keywords |},
       [ Extract (u "Ausbildung zur Bankkauffrau, Schwerpunkt Kundenberatung
und Finanzprodukte.");
         Extract (u "Wir suchen eine Bankkauffrau mit Erfahrung in der Kundenberatung.");
         Chat Api.SYSTEM prompt;
         Extract (u "Ausbildung zur Bankkauffrau, Schwerpunkt Kundenberatung
und Finanzprodukte.");
         Extract (u "Wir suchen eine Bankkauffrau mit Erfahrung in der Kundenberatung.") ])
    /\ letter = strip Sample.letter
    /\ cv_keywords <> [] /\ job_keywords <> [].
Proof.
  do 4 eexists. split; [vm_compute; reflexivity|].
  split; [vm_compute; reflexivity|]. split; discriminate.
Qed.

(** When the service cannot be reached the endpoint answers 500 with the
    composer's failure text. *)
Example endpoint_service_failure :
  outcome (Api.api_generate_cover_letter (answering Sample.nouns) Sample.no_service
             (Sample.request_of Sample.cv_pdf Sample.job_pdf))
  = Ok {| Api.status := 500;
          Api.body := Api.JError (u "Fehler bei der API-Anfrage: Connection error.") |}.
Proof. vm_compute. reflexivity. Qed.

(** ** More on the keyword extractor *)

Lemma rank_parts (doc : list Token) :
  exists ranking,
    Spec.is_ranking (Api.keywords_of doc) ranking
    /\ length ranking = length (nodup str_eq_dec (Api.keywords_of doc))
    /\ Api.rank doc
       = Spec.priority_hits Api.priority_terms (Api.keywords_of doc)
         ++ firstn (5 - length (Spec.priority_hits Api.priority_terms
                                  (Api.keywords_of doc))) ranking.
Proof.
  exists (keys (sorted_desc (Counter (Api.keywords_of doc)))).
  pose proof (sorted_Counter_ranking (Api.keywords_of doc)) as H.
  split; [exact H|]. split; [|apply rank_keyword_list].
  destruct H as (Hin & Hnd & _).
  apply Permutation_length, NoDup_Permutation; auto.
  - apply NoDup_nodup.
  - intros w. now rewrite Hin, nodup_In.
Qed.

(** X1.  Every keyword is the lower-cased surface form of a token of the
    tagger's output that is a noun, adjective or verb, is longer than three
    characters and is not a stop word; so every keyword is itself longer
    than three characters. *)
Theorem keywords_come_from_kept_tokens :
  forall (nlp : str -> list Token) (s : str),
  exists out,
    outcome (Api.extract_keywords (answering nlp) s) = Ok out
    /\ Forall (fun w =>
                 3 < len w
                 /\ exists token,
                      In token (nlp s)
                      /\ w = lower (text token)
                      /\ In (pos_ token) [u "NOUN"; u "ADJ"; u "VERB"]
                      /\ 3 < len (text token)
                      /\ is_stop token = false) out.
Proof.
  intros nlp s. exists (Api.rank (nlp s)). split; [reflexivity|].
  destruct (rank_parts (nlp s)) as (r & (Hin & _ & _) & _ & ->).
  assert (K : forall w, In w (Api.keywords_of (nlp s)) ->
                3 < len w
                /\ exists token,
                     In token (nlp s) /\ w = lower (text token)
                     /\ In (pos_ token) [u "NOUN"; u "ADJ"; u "VERB"]
                     /\ 3 < len (text token) /\ is_stop token = false).
  { intros w H. unfold Api.keywords_of in H.
    apply in_map_iff in H as [t [<- Ht]]. apply filter_In in Ht as [Ht Hk].
    unfold Api.keeps in Hk. rewrite !andb_true_iff, !negb_true_iff in Hk.
    destruct Hk as [[[Hp Hl] Hs] _]. apply Z.ltb_lt in Hl.
    split.
    - pose proof (lower_length (text t)). lia.
    - exists t. repeat apply conj; auto. now apply mem_In. }
  apply Forall_forall. intros w H. apply K.
  apply in_app_or in H as [H|H].
  - now apply priority_hits_In in H.
  - apply Hin. now apply firstn_In_of in H.
Qed.

(** X2.  The keyword list is empty exactly when no token survives the
    filter; in particular a text without tokens has no keywords. *)
Theorem keywords_empty_iff_no_candidate :
  forall (nlp : str -> list Token) (s : str),
    outcome (Api.extract_keywords (answering nlp) s) = Ok []
    <-> Forall (fun token => Api.keeps token = false) (nlp s).
Proof.
  intros nlp s. rewrite extract_keywords_outcome.
  destruct (rank_parts (nlp s)) as (r & (Hin & _ & _) & _ & ->).
  assert (K : Api.keywords_of (nlp s) = []
              <-> Forall (fun token => Api.keeps token = false) (nlp s)).
  { unfold Api.keywords_of. rewrite Forall_forall. split.
    - intros H t Ht. destruct (Api.keeps t) eqn:E; [exfalso|reflexivity].
      apply map_eq_nil in H.
      assert (Hf : In t (filter Api.keeps (nlp s))) by (apply filter_In; now split).
      rewrite H in Hf. destruct Hf.
    - intros H. destruct (filter Api.keeps (nlp s)) as [|t l] eqn:E; [reflexivity|].
      assert (Ht : In t (filter Api.keeps (nlp s))) by (rewrite E; now left).
      apply filter_In in Ht as [Ht Hk]. rewrite (H t Ht) in Hk. discriminate. }
  rewrite <- K. clear K. generalize dependent (Api.keywords_of (nlp s)).
  intros cands Hin. split.
  - intros H. injection H as H. apply app_eq_nil in H as [Hp Hf].
    rewrite Hp in Hf. cbn [length Nat.sub] in Hf.
    destruct cands as [|w cands]; [reflexivity|]. exfalso.
    assert (Hw : In w r) by (apply Hin; now left).
    destruct r; [destruct Hw | discriminate].
  - intros ->.
    assert (Er : r = []).
    { destruct r as [|w r]; [reflexivity|]. exfalso. apply (Hin w). now left. }
    subst r. rewrite firstn_nil, app_nil_r. reflexivity.
Qed.

(** X3.  The exact size of the keyword list: the number [p] of priority
    terms found, plus the smaller of [5 - p] and the number of different
    candidate terms. *)
Theorem keywords_length :
  forall (nlp : str -> list Token) (s : str),
  exists out,
    outcome (Api.extract_keywords (answering nlp) s) = Ok out
    /\ length out
       = (length (Spec.priority_hits Api.priority_terms (Api.keywords_of (nlp s)))
          + Nat.min (5 - length (Spec.priority_hits Api.priority_terms
                                   (Api.keywords_of (nlp s))))
                    (length (nodup str_eq_dec (Api.keywords_of (nlp s)))))%nat.
Proof.
  intros nlp s. exists (Api.rank (nlp s)). split; [reflexivity|].
  destruct (rank_parts (nlp s)) as (r & _ & Hl & ->).
  now rewrite length_app, length_firstn, Hl.
Qed.

(** X4.  No term occurs more than twice in the keyword list, and only a
    priority term can occur twice. *)
Theorem keywords_at_most_twice :
  forall (nlp : str -> list Token) (s : str) (w : str),
  exists out,
    outcome (Api.extract_keywords (answering nlp) s) = Ok out
    /\ (count_occ str_eq_dec out w <= 2)%nat
    /\ (count_occ str_eq_dec out w = 2%nat -> In w Api.priority_terms).
Proof.
  intros nlp s w. exists (Api.rank (nlp s)). split; [reflexivity|].
  destruct (rank_parts (nlp s)) as (r & (_ & Hnd & _) & _ & ->).
  rewrite count_occ_app.
  assert (N1 : NoDup (Spec.priority_hits Api.priority_terms (Api.keywords_of (nlp s)))).
  { apply NoDup_filter, priority_terms_NoDup. }
  assert (N2 : NoDup (firstn (5 - length (Spec.priority_hits Api.priority_terms
                                            (Api.keywords_of (nlp s)))) r)).
  { now apply NoDup_firstn_of. }
  pose proof (proj1 (NoDup_count_occ str_eq_dec _) N1 w) as C1.
  pose proof (proj1 (NoDup_count_occ str_eq_dec _) N2 w) as C2.
  split; [lia|]. intros H.
  assert (C : (count_occ str_eq_dec
                 (Spec.priority_hits Api.priority_terms (Api.keywords_of (nlp s))) w > 0)%nat)
    by lia.
  apply count_occ_In in C. apply priority_hits_In in C. apply C.
Qed.

(** X5.  When fewer than five priority terms are found and there is a
    candidate at all, the keyword list holds a candidate of greatest
    frequency. *)
Theorem keywords_hold_a_most_frequent_term :
  forall (nlp : str -> list Token) (s : str),
    (length (Spec.priority_hits Api.priority_terms (Api.keywords_of (nlp s))) < 5)%nat ->
    Api.keywords_of (nlp s) <> [] ->
    exists out w,
      outcome (Api.extract_keywords (answering nlp) s) = Ok out
      /\ In w out
      /\ In w (Api.keywords_of (nlp s))
      /\ forall w', In w' (Api.keywords_of (nlp s)) ->
           (Spec.occurrences w' (Api.keywords_of (nlp s))
            <= Spec.occurrences w (Api.keywords_of (nlp s)))%nat.
Proof.
  intros nlp s Hp Hc.
  destruct (rank_parts (nlp s)) as (r & (Hin & _ & Hs) & _ & E).
  destruct r as [|r0 r].
  - exfalso. destruct (Api.keywords_of (nlp s)) as [|w l]; [congruence|].
    apply (Hin w). now left.
  - exists (Api.rank (nlp s)), r0. split; [reflexivity|]. rewrite E.
    split; [|split].
    + apply in_or_app. right.
      destruct (5 - length (Spec.priority_hits Api.priority_terms
                              (Api.keywords_of (nlp s))))%nat eqn:En; [lia|].
      now left.
    + apply Hin. now left.
    + intros w' Hw'. apply Hin in Hw' as [<-|Hw']; [lia|].
      apply StronglySorted_inv in Hs as [_ Hf]. rewrite Forall_forall in Hf.
      specialize (Hf w' Hw'). unfold Spec.ranks_before in Hf. lia.
Qed.

(** X5 at a text in which "konto" is the most frequent word. *)
Lemma keywords_hold_a_most_frequent_term_witness :
  exists out w,
    outcome (Api.extract_keywords (answering Sample.nouns) (u "Kredit Konto Konto Kundenberatung")) = Ok out
    /\ In w out
    /\ In w (Api.keywords_of (Sample.nouns (u "Kredit Konto Konto Kundenberatung")))
    /\ forall w', In w' (Api.keywords_of (Sample.nouns (u "Kredit Konto Konto Kundenberatung"))) ->
         (Spec.occurrences w' (Api.keywords_of (Sample.nouns (u "Kredit Konto Konto Kundenberatung")))
          <= Spec.occurrences w (Api.keywords_of (Sample.nouns (u "Kredit Konto Konto Kundenberatung"))))%nat.
Proof.
  apply (keywords_hold_a_most_frequent_term Sample.nouns
           (u "Kredit Konto Konto Kundenberatung")).
  - vm_compute. lia.
  - vm_compute. discriminate.
Defined.

(** X6.  When the candidates hold no more different terms than there are
    places left after the priority terms, every candidate term is in the
    keyword list. *)
Theorem keywords_cover_short_texts :
  forall (nlp : str -> list Token) (s : str),
    (length (nodup str_eq_dec (Api.keywords_of (nlp s)))
     <= 5 - length (Spec.priority_hits Api.priority_terms (Api.keywords_of (nlp s))))%nat ->
    exists out,
      outcome (Api.extract_keywords (answering nlp) s) = Ok out
      /\ forall w, In w (Api.keywords_of (nlp s)) -> In w out.
Proof.
  intros nlp s H. exists (Api.rank (nlp s)). split; [reflexivity|].
  destruct (rank_parts (nlp s)) as (r & (Hin & _ & _) & Hl & ->).
  intros w Hw. apply in_or_app. right.
  rewrite firstn_all2 by lia. now apply Hin.
Qed.

(** X6 at a text of three different words. *)
Lemma keywords_cover_short_texts_witness :
  exists out,
    outcome (Api.extract_keywords (answering Sample.nouns) (u "Kredit Konto Konto Filiale")) = Ok out
    /\ forall w, In w (Api.keywords_of (Sample.nouns (u "Kredit Konto Konto Filiale"))) ->
         In w out.
Proof.
  apply (keywords_cover_short_texts Sample.nouns (u "Kredit Konto Konto Filiale")).
  vm_compute. lia.
Defined.

(** ** More on the validator *)

(** X7.  A valid input stays valid when text is put before or after it. *)
Theorem is_valid_input_extends :
  forall a pre post : str,
    Api.is_valid_input a = true ->
    Api.is_valid_input (pre ++ a ++ post) = true
    /\ App.is_valid_input (pre ++ a ++ post) = true.
Proof.
  intros a pre post H.
  assert (V : Api.is_valid_input (pre ++ a ++ post) = true).
  { apply is_valid_input_spec in H as [Hl (p & run & q & -> & Hr & Hf)].
    apply is_valid_input_spec. split.
    - unfold len in *. rewrite !length_app in *. lia.
    - exists (pre ++ p), run, (q ++ post). repeat split; auto.
      now rewrite <- !app_assoc. }
  split; [exact V|]. now rewrite App_is_valid_input_eq.
Qed.

(** X7 at "Teamfähigkeit" inside a sentence. *)
Lemma is_valid_input_extends_witness :
  Api.is_valid_input (u "Meine " ++ u "Teamfähigkeit" ++ u " ist gross") = true
  /\ App.is_valid_input (u "Meine " ++ u "Teamfähigkeit" ++ u " ist gross") = true.
Proof.
  apply (is_valid_input_extends (u "Teamfähigkeit") (u "Meine ") (u " ist gross")).
  vm_compute. reflexivity.
Defined.

(** ** More on the text extractors *)

(** X8.  The PDF extractor of the endpoint always returns; a read error
    (on opening, or on a page) becomes the read-failure text followed by
    its cause; a readable PDF with blank text becomes the
    no-extractable-text failure; any other text is returned unchanged. *)
Theorem api_pdf_extractor_contract :
  forall file : FileStorage,
    (exists s, Api.extract_text_from_pdf file = (Ok s, []))
    /\ (forall e, Spec.pdf_unreadable file e ->
          Api.extract_text_from_pdf file
          = (Ok (u "Fehler beim Lesen der PDF: " ++ e), []))
    /\ (forall t, Spec.pdf_text file t -> Spec.blank t ->
          Api.extract_text_from_pdf file = (Ok Api.NO_TEXT_PDF, []))
    /\ (forall t, Spec.pdf_text file t -> ~ Spec.blank t ->
          Api.extract_text_from_pdf file = (Ok t, [])).
Proof. exact Api_extract_text_from_pdf_contract. Qed.

(** X9.  The same for the word-processing extractor of the endpoint. *)
Theorem api_docx_extractor_contract :
  forall file : FileStorage,
    (exists s, Api.extract_text_from_docx file = (Ok s, []))
    /\ (forall e, docx_open file = Raise e ->
          Api.extract_text_from_docx file
          = (Ok (u "Fehler beim Lesen der DOCX: " ++ e), []))
    /\ (forall t, Spec.docx_text file t -> Spec.blank t ->
          Api.extract_text_from_docx file = (Ok Api.NO_TEXT_DOCX, []))
    /\ (forall t, Spec.docx_text file t -> ~ Spec.blank t ->
          Api.extract_text_from_docx file = (Ok t, [])).
Proof. exact Api_extract_text_from_docx_contract. Qed.

Lemma not_blank_cons (c : Z) (s : str) : is_space c = false -> ~ Spec.blank (c :: s).
Proof. intros Hc Hb. inversion Hb as [|? ? H _]. congruence. Qed.

Lemma contains_prefix (p s : str) : contains p (p ++ s) = true.
Proof.
  assert (H : starts_with p (p ++ s) = true).
  { induction p as [|c p IH]; simpl; [reflexivity|]. now rewrite Z.eqb_refl. }
  destruct (p ++ s); simpl in *; now rewrite H.
Qed.

Lemma marker_first (rest : str) :
  ~ Spec.blank (Api.FEHLER ++ rest) /\ contains Api.FEHLER (Api.FEHLER ++ rest) = true.
Proof.
  split; [|apply contains_prefix].
  assert (E : Api.FEHLER = 70 :: u "ehler") by (vm_compute; reflexivity).
  rewrite E. cbn [app]. apply not_blank_cons. vm_compute. reflexivity.
Qed.

Lemma read_failure_pdf (e : str) :
  ~ Spec.blank (u "Fehler beim Lesen der PDF: " ++ e)
  /\ contains Api.FEHLER (u "Fehler beim Lesen der PDF: " ++ e) = true.
Proof.
  assert (E : u "Fehler beim Lesen der PDF: " = Api.FEHLER ++ u " beim Lesen der PDF: ")
    by (vm_compute; reflexivity).
  rewrite E, <- app_assoc. apply marker_first.
Qed.

Lemma read_failure_docx (e : str) :
  ~ Spec.blank (u "Fehler beim Lesen der DOCX: " ++ e)
  /\ contains Api.FEHLER (u "Fehler beim Lesen der DOCX: " ++ e) = true.
Proof.
  assert (E : u "Fehler beim Lesen der DOCX: " = Api.FEHLER ++ u " beim Lesen der DOCX: ")
    by (vm_compute; reflexivity).
  rewrite E, <- app_assoc. apply marker_first.
Qed.

Lemma no_text_pdf_failure :
  ~ Spec.blank Api.NO_TEXT_PDF /\ contains Api.FEHLER Api.NO_TEXT_PDF = true.
Proof.
  assert (E : Api.NO_TEXT_PDF
              = Api.FEHLER ++ u ": Kein extrahierbarer Text in der PDF-Datei.")
    by (vm_compute; reflexivity).
  rewrite E. apply marker_first.
Qed.

Lemma no_text_docx_failure :
  ~ Spec.blank Api.NO_TEXT_DOCX /\ contains Api.FEHLER Api.NO_TEXT_DOCX = true.
Proof.
  assert (E : Api.NO_TEXT_DOCX
              = Api.FEHLER ++ u ": Kein extrahierbarer Text in der DOCX-Datei.")
    by (vm_compute; reflexivity).
  rewrite E. apply marker_first.
Qed.

Lemma Api_extract_text_from_pdf_result (file : FileStorage) :
  exists s,
    Api.extract_text_from_pdf file = (Ok s, [])
    /\ ~ Spec.blank s
    /\ (contains Api.FEHLER s = true \/ Spec.pdf_text file s).
Proof.
  rewrite Api_extract_text_from_pdf_eq. unfold Spec.pdf_text.
  destruct no_text_pdf_failure as [N1 N2].
  destruct (pdf_open file) as [pages|e].
  - destruct (mapM_page_text pages) as [(texts & -> & F) | (e & _ & _ & -> & _)];
      cbn [outcome fst].
    + destruct (strip (concat texts)) eqn:Es.
      * exists Api.NO_TEXT_PDF. split; [exact eq_refl|]. split; [exact N1 | left; exact N2].
      * exists (concat texts). split; [exact eq_refl|]. split.
        -- intros Hb. apply strip_blank in Hb. congruence.
        -- right. exists pages, texts. auto.
    + destruct (read_failure_pdf e) as [R1 R2].
      exists (u "Fehler beim Lesen der PDF: " ++ e).
      split; [exact eq_refl|]. split; [exact R1 | left; exact R2].
  - destruct (read_failure_pdf e) as [R1 R2].
    exists (u "Fehler beim Lesen der PDF: " ++ e).
    split; [exact eq_refl|]. split; [exact R1 | left; exact R2].
Qed.

Lemma Api_extract_text_from_docx_result (file : FileStorage) :
  exists s,
    Api.extract_text_from_docx file = (Ok s, [])
    /\ ~ Spec.blank s
    /\ (contains Api.FEHLER s = true \/ Spec.docx_text file s).
Proof.
  unfold Api.extract_text_from_docx, Spec.docx_text.
  destruct no_text_docx_failure as [N1 N2].
  destruct (docx_open file) as [ps|e]; cbn [lift bind].
  - destruct (strip (concat ps)) eqn:Es.
    + exists Api.NO_TEXT_DOCX. split; [exact eq_refl|]. split; [exact N1 | left; exact N2].
    + exists (concat ps). split; [exact eq_refl|]. split.
      * intros Hb. apply strip_blank in Hb. congruence.
      * right. exists ps. auto.
  - destruct (read_failure_docx e) as [R1 R2].
    exists (u "Fehler beim Lesen der DOCX: " ++ e).
    split; [exact eq_refl|]. split; [exact R1 | left; exact R2].
Qed.

(** X10.  What the extractors of the endpoint return is never blank, and
    it is either the text of the document or a text that contains the
    marker word "Fehler". *)
Theorem api_extractors_never_blank :
  forall file : FileStorage,
    (exists s,
        Api.extract_text_from_pdf file = (Ok s, [])
        /\ ~ Spec.blank s
        /\ (contains Api.FEHLER s = true \/ Spec.pdf_text file s))
    /\ (exists s,
          Api.extract_text_from_docx file = (Ok s, [])
          /\ ~ Spec.blank s
          /\ (contains Api.FEHLER s = true \/ Spec.docx_text file s)).
Proof.
  intros file. split.
  - apply Api_extract_text_from_pdf_result.
  - apply Api_extract_text_from_docx_result.
Qed.

(** What the extractors of the form do with an upload. *)
Lemma App_extract_text_contract :
  forall file : FileStorage,
    (exists s, App.extract_text_from_pdf file = (Ok s, []))
    /\ (forall e, Spec.pdf_unreadable file e ->
          App.extract_text_from_pdf file
          = (Ok (u "Fehler beim Lesen der PDF: " ++ e), []))
    /\ (forall t, Spec.pdf_text file t ->
          App.extract_text_from_pdf file = (Ok t, []))
    /\ (exists s, App.extract_text_from_docx file = (Ok s, []))
    /\ (forall e, docx_open file = Raise e ->
          App.extract_text_from_docx file
          = (Ok (u "Fehler beim Lesen der DOCX: " ++ e), []))
    /\ (forall t, Spec.docx_text file t ->
          App.extract_text_from_docx file = (Ok t, [])).
Proof.
  intros file.
  assert (P : forall pages, mapM App.page_text pages = mapM Api.page_text pages)
    by reflexivity.
  unfold App.extract_text_from_pdf, App.extract_text_from_docx,
    Spec.pdf_unreadable, Spec.pdf_text, Spec.docx_text.
  repeat apply conj.
  - destruct (pdf_open file) as [pages|e]; [|eexists; reflexivity].
    cbn [lift bind]. rewrite P.
    destruct (mapM_page_text pages) as [(texts & -> & _) | (e & _ & _ & -> & _)];
      eexists; reflexivity.
  - intros e [->|(pages & b & a & -> & -> & F)]; [reflexivity|].
    cbn [lift bind]. rewrite P, mapM_page_text_raise by assumption. reflexivity.
  - intros t (pages & texts & -> & F & ->). cbn [lift bind].
    rewrite P, (mapM_page_text_texts _ _ F). reflexivity.
  - destruct (docx_open file); eexists; reflexivity.
  - intros e ->. reflexivity.
  - intros t (ps & -> & ->). reflexivity.
Qed.

(** X11.  The extractors of the form always return; a read error becomes
    the read-failure text followed by its cause; the text of a readable
    document is returned as it is, blank or not. *)
Theorem app_extractors_contract :
  forall file : FileStorage,
    (exists s, App.extract_text_from_pdf file = (Ok s, []))
    /\ (forall e, Spec.pdf_unreadable file e ->
          App.extract_text_from_pdf file
          = (Ok (u "Fehler beim Lesen der PDF: " ++ e), []))
    /\ (forall t, Spec.pdf_text file t ->
          App.extract_text_from_pdf file = (Ok t, []))
    /\ (exists s, App.extract_text_from_docx file = (Ok s, []))
    /\ (forall e, docx_open file = Raise e ->
          App.extract_text_from_docx file
          = (Ok (u "Fehler beim Lesen der DOCX: " ++ e), []))
    /\ (forall t, Spec.docx_text file t ->
          App.extract_text_from_docx file = (Ok t, [])).
Proof. exact App_extract_text_contract. Qed.

(** ** More on the letter composer *)

Lemma lstrip_snoc_nonspace (a : str) (c : Z) :
  is_space c = false -> lstrip (a ++ [c]) = lstrip a ++ [c].
Proof.
  intros Hc. induction a as [|x a IH]; simpl.
  - now rewrite Hc.
  - destruct (is_space x); [assumption | reflexivity].
Qed.

Lemma lstrip_head (s : str) :
  lstrip s = [] \/ exists c r, lstrip s = c :: r /\ is_space c = false.
Proof.
  induction s as [|c s IH]; simpl; [now left|].
  destruct (is_space c) eqn:E; [assumption|]. right. eauto.
Qed.

Lemma lstrip_fixed (c : Z) (r : str) : is_space c = false -> lstrip (c :: r) = c :: r.
Proof. intros H. simpl. now rewrite H. Qed.

Lemma lstrip_idem (s : str) : lstrip (lstrip s) = lstrip s.
Proof.
  destruct (lstrip_head s) as [->|(c & r & -> & Hc)]; [reflexivity|].
  now apply lstrip_fixed.
Qed.

Lemma rstrip_idem (s : str) : rstrip (rstrip s) = rstrip s.
Proof. unfold rstrip. now rewrite rev_involutive, lstrip_idem. Qed.

Lemma rstrip_head (c : Z) (r : str) :
  is_space c = false -> exists r', rstrip (c :: r) = c :: r'.
Proof.
  intros Hc. unfold rstrip. simpl rev.
  rewrite lstrip_snoc_nonspace by assumption. rewrite rev_unit. eauto.
Qed.

(** What [strip] returns has no white space left at either end. *)
Lemma strip_stripped (s : str) :
  lstrip (strip s) = strip s /\ rstrip (strip s) = strip s.
Proof.
  unfold strip. split; [|apply rstrip_idem].
  destruct (lstrip_head s) as [->|(c & r & -> & Hc)]; [reflexivity|].
  destruct (rstrip_head c r Hc) as [r' ->]. now apply lstrip_fixed.
Qed.

Lemma strip_idem (s : str) : strip (strip s) = strip s.
Proof.
  destruct (strip_stripped s) as [H1 H2].
  unfold strip at 1. now rewrite H1, H2.
Qed.

Lemma service_failure (e : str) :
  contains Api.FEHLER (u "Fehler bei der API-Anfrage: " ++ e) = true.
Proof.
  assert (E : u "Fehler bei der API-Anfrage: " = Api.FEHLER ++ u " bei der API-Anfrage: ")
    by (vm_compute; reflexivity).
  rewrite E, <- app_assoc. apply marker_first.
Qed.

(** The composer once its preconditions hold: the tagger is run on the two
    texts outside the [try], the service inside it. *)
Lemma Api_generate_cover_letter_run (nlp : str -> res (list Token))
    (chat : str -> str -> res str) (cv job s w n c tone : str) :
  Forall (fun f => f <> []) [cv; job; s; w; n; c] ->
  Api.is_valid_input s = true -> Api.is_valid_input w = true ->
  Api.generate_cover_letter nlp chat cv job s w n c tone
  = match nlp cv with
    | Raise e => (Raise e, [Extract cv])
    | Ok cv_doc =>
        match nlp job with
        | Raise e => (Raise e, [Extract cv; Extract job])
        | Ok job_doc =>
            (Ok match chat Api.SYSTEM (Api.prompt_of cv job s w n c tone
                                         (Api.rank cv_doc) (Api.rank job_doc)) with
                | Ok content => strip content
                | Raise e => u "Fehler bei der API-Anfrage: " ++ e
                end,
             Spec.calls_until_chat cv job
               (Api.prompt_of cv job s w n c tone (Api.rank cv_doc) (Api.rank job_doc)))
        end
    end.
Proof.
  intros H Vs Vw. unfold Api.generate_cover_letter.
  apply all_filled_true in H. rewrite H, Vs, Vw. cbn [negb orb].
  unfold Api.extract_keywords. cbn [bind tell lift].
  destruct (nlp cv) as [cv_doc|e]; [|reflexivity]. cbn [bind ret app].
  destruct (nlp job) as [job_doc|e]; [|reflexivity]. cbn [bind ret app].
  destruct (chat _ _); reflexivity.
Qed.

Lemma Api_generate_cover_letter_main (nlp : str -> list Token)
    (chat : str -> str -> res str) (cv job s w n c tone : str) :
  Forall (fun f => f <> []) [cv; job; s; w; n; c] ->
  Api.is_valid_input s = true -> Api.is_valid_input w = true ->
  Api.generate_cover_letter (answering nlp) chat cv job s w n c tone
  = (Ok match chat Api.SYSTEM (Api.prompt_of cv job s w n c tone
                                 (Api.rank (nlp cv)) (Api.rank (nlp job))) with
        | Ok content => strip content
        | Raise e => u "Fehler bei der API-Anfrage: " ++ e
        end,
     Spec.calls_until_chat cv job
       (Api.prompt_of cv job s w n c tone (Api.rank (nlp cv)) (Api.rank (nlp job)))).
Proof.
  intros H Vs Vw.
  exact (Api_generate_cover_letter_run (answering nlp) chat cv job s w n c tone H Vs Vw).
Qed.

(** X12.  For inputs that pass its preconditions the composer runs the
    tagger on the résumé text and then on the job text, outside its [try]:
    an exception of the tagger leaves the composer, and the service is not
    asked.  When the tagger answers both times, the composer asks the
    service once and returns: an answer is returned stripped, with no
    white space left at either end; a failure of the service is returned as
    the failure text followed by its cause, which contains the marker
    word. *)
Theorem composer_returns_stripped_letter_or_failure :
  forall (nlp : str -> res (list Token)) (chat : str -> str -> res str)
         (cv_text job_text strengths weaknesses name company tone : str),
    Forall (fun f => f <> [])
           [cv_text; job_text; strengths; weaknesses; name; company] ->
    Api.is_valid_input strengths = true ->
    Api.is_valid_input weaknesses = true ->
    (forall e, nlp cv_text = Raise e ->
       Api.generate_cover_letter nlp chat cv_text job_text strengths weaknesses
                                 name company tone
       = (Raise e, [Extract cv_text]))
    /\ (forall cv_doc e, nlp cv_text = Ok cv_doc -> nlp job_text = Raise e ->
          Api.generate_cover_letter nlp chat cv_text job_text strengths weaknesses
                                    name company tone
          = (Raise e, [Extract cv_text; Extract job_text]))
    /\ (forall cv_doc job_doc, nlp cv_text = Ok cv_doc -> nlp job_text = Ok job_doc ->
          exists prompt letter,
            Api.generate_cover_letter nlp chat cv_text job_text strengths weaknesses
                                      name company tone
            = (Ok letter, [Extract cv_text; Extract job_text; Chat Api.SYSTEM prompt])
            /\ (forall content, chat Api.SYSTEM prompt = Ok content ->
                  letter = strip content
                  /\ lstrip letter = letter /\ rstrip letter = letter)
            /\ (forall e, chat Api.SYSTEM prompt = Raise e ->
                  letter = u "Fehler bei der API-Anfrage: " ++ e
                  /\ contains Api.FEHLER letter = true)).
Proof.
  intros nlp chat cv job s w n c tone H Vs Vw.
  rewrite (Api_generate_cover_letter_run nlp chat cv job s w n c tone H Vs Vw).
  split; [|split].
  - intros e ->. reflexivity.
  - intros cv_doc e -> ->. reflexivity.
  - intros cv_doc job_doc -> ->.
    eexists. eexists. split; [reflexivity|]. split.
    + intros content ->. split; [reflexivity | apply strip_stripped].
    + intros e ->. split; [reflexivity | apply service_failure].
Qed.

(** X12 for a short résumé and job text: with a tagger and a service that
    answer, and with a tagger that refuses every text. *)
Lemma composer_returns_stripped_letter_or_failure_witness :
  (exists prompt letter,
      Api.generate_cover_letter (answering Sample.nouns) Sample.service
        (u "Ausbildung zur Bankkauffrau") (u "Kundenberatung in der Filiale")
        (u "Teamfähigkeit") (u "Perfektionismus")
        (u "Max Mustermann") (u "Beispiel GmbH") (u "Professionell")
      = (Ok letter,
         [ Extract (u "Ausbildung zur Bankkauffrau");
           Extract (u "Kundenberatung in der Filiale"); Chat Api.SYSTEM prompt ])
      /\ (forall content, Sample.service Api.SYSTEM prompt = Ok content ->
            letter = strip content
            /\ lstrip letter = letter /\ rstrip letter = letter)
      /\ (forall e, Sample.service Api.SYSTEM prompt = Raise e ->
            letter = u "Fehler bei der API-Anfrage: " ++ e
            /\ contains Api.FEHLER letter = true))
  /\ Api.generate_cover_letter Sample.no_tagger Sample.service
       (u "Ausbildung zur Bankkauffrau") (u "Kundenberatung in der Filiale")
       (u "Teamfähigkeit") (u "Perfektionismus")
       (u "Max Mustermann") (u "Beispiel GmbH") (u "Professionell")
     = (Raise (u "[E109] Component 'tagger' could not be run."),
        [Extract (u "Ausbildung zur Bankkauffrau")]).
Proof.
  assert (F : Forall (fun f : str => f <> [])
                [ u "Ausbildung zur Bankkauffrau"; u "Kundenberatung in der Filiale";
                  u "Teamfähigkeit"; u "Perfektionismus";
                  u "Max Mustermann"; u "Beispiel GmbH" ]).
  { repeat (apply Forall_cons; [vm_compute; discriminate|]). apply Forall_nil. }
  assert (Vs : Api.is_valid_input (u "Teamfähigkeit") = true)
    by (vm_compute; reflexivity).
  assert (Vw : Api.is_valid_input (u "Perfektionismus") = true)
    by (vm_compute; reflexivity).
  split.
  - exact (proj2 (proj2 (composer_returns_stripped_letter_or_failure
                           (answering Sample.nouns) Sample.service
                           (u "Ausbildung zur Bankkauffrau")
                           (u "Kundenberatung in der Filiale")
                           (u "Teamfähigkeit") (u "Perfektionismus")
                           (u "Max Mustermann") (u "Beispiel GmbH")
                           (u "Professionell") F Vs Vw))
             _ _ eq_refl eq_refl).
  - exact (proj1 (composer_returns_stripped_letter_or_failure
                    Sample.no_tagger Sample.service
                    (u "Ausbildung zur Bankkauffrau")
                    (u "Kundenberatung in der Filiale")
                    (u "Teamfähigkeit") (u "Perfektionismus")
                    (u "Max Mustermann") (u "Beispiel GmbH")
                    (u "Professionell") F Vs Vw)
             _ eq_refl).
Defined.

(** ** More on the endpoint *)

Lemma field_given_val (f : option str) :
  Api.field_given f = true <-> exists s, f = Some s /\ s <> [].
Proof.
  split.
  - destruct f as [[|c s]|]; try discriminate. intros _. eexists. split; [reflexivity|discriminate].
  - intros (s & -> & H). destruct s; [contradiction | reflexivity].
Qed.

Lemma val_given (f : option str) : Api.field_given f = true -> Api.val f <> [].
Proof.
  intros H. apply field_given_val in H as (s & -> & H). exact H.
Qed.

(** The endpoint after its own checks have passed. *)
Lemma respond_run (nlp : str -> res (list Token)) (chat : str -> str -> res str)
    (req : Api.request) (tone cv job : str) :
  cv <> [] -> job <> [] ->
  contains Api.FEHLER cv = false -> contains Api.FEHLER job = false ->
  forallb Api.field_given
    [Api.name req; Api.company req; Api.strengths req; Api.weaknesses req] = true ->
  Api.is_valid_input (Api.val (Api.strengths req)) = true ->
  Api.is_valid_input (Api.val (Api.weaknesses req)) = true ->
  Api.respond nlp chat req tone cv job
  = match nlp cv with
    | Raise e => (Raise e, [Extract cv])
    | Ok cv_doc =>
        match nlp job with
        | Raise e => (Raise e, [Extract cv; Extract job])
        | Ok job_doc =>
            let prompt :=
              Api.prompt_of cv job (Api.val (Api.strengths req))
                (Api.val (Api.weaknesses req)) (Api.val (Api.name req))
                (Api.val (Api.company req)) tone
                (Api.rank cv_doc) (Api.rank job_doc) in
            match chat Api.SYSTEM prompt with
            | Ok content =>
                if contains Api.FEHLER (strip content)
                then (Ok {| Api.status := 500; Api.body := Api.JError (strip content) |},
                      Spec.calls_until_chat cv job prompt)
                else (Ok {| Api.status := 200;
                            Api.body := Api.JLetter (strip content) (Api.rank cv_doc)
                                                    (Api.rank job_doc) |},
                      Spec.calls_until_chat cv job prompt ++ [Extract cv; Extract job])
            | Raise e =>
                (Ok {| Api.status := 500;
                       Api.body := Api.JError (u "Fehler bei der API-Anfrage: " ++ e) |},
                 Spec.calls_until_chat cv job prompt)
            end
        end
    end.
Proof.
  intros Hcv Hjob Mcv Mjob Hf Vs Vw. unfold Api.respond.
  rewrite Mcv, Mjob, Hf, Vs, Vw. cbn [negb orb].
  cbn [forallb] in Hf. rewrite !andb_true_iff in Hf.
  destruct Hf as (Hn & Hc & Hs & Hw & _).
  rewrite Api_generate_cover_letter_run; auto.
  - unfold Api.extract_keywords.
    destruct (nlp cv) as [cv_doc|e]; [|reflexivity].
    destruct (nlp job) as [job_doc|e]; [|reflexivity].
    cbv zeta. cbn [bind].
    destruct (chat _ _) as [content|e].
    + destruct (contains Api.FEHLER (strip content)); reflexivity.
    + rewrite service_failure. reflexivity.
  - repeat (apply Forall_cons; [auto using val_given|]). apply Forall_nil.
Qed.

Lemma respond_main (nlp : str -> list Token) (chat : str -> str -> res str)
    (req : Api.request) (tone cv job : str) :
  cv <> [] -> job <> [] ->
  contains Api.FEHLER cv = false -> contains Api.FEHLER job = false ->
  forallb Api.field_given
    [Api.name req; Api.company req; Api.strengths req; Api.weaknesses req] = true ->
  Api.is_valid_input (Api.val (Api.strengths req)) = true ->
  Api.is_valid_input (Api.val (Api.weaknesses req)) = true ->
  Api.respond (answering nlp) chat req tone cv job
  = let prompt :=
      Api.prompt_of cv job (Api.val (Api.strengths req)) (Api.val (Api.weaknesses req))
        (Api.val (Api.name req)) (Api.val (Api.company req)) tone
        (Api.rank (nlp cv)) (Api.rank (nlp job)) in
    match chat Api.SYSTEM prompt with
    | Ok content =>
        if contains Api.FEHLER (strip content)
        then (Ok {| Api.status := 500; Api.body := Api.JError (strip content) |},
              Spec.calls_until_chat cv job prompt)
        else (Ok {| Api.status := 200;
                    Api.body := Api.JLetter (strip content) (Api.rank (nlp cv))
                                            (Api.rank (nlp job)) |},
              Spec.calls_until_chat cv job prompt ++ [Extract cv; Extract job])
    | Raise e =>
        (Ok {| Api.status := 500;
               Api.body := Api.JError (u "Fehler bei der API-Anfrage: " ++ e) |},
         Spec.calls_until_chat cv job prompt)
    end.
Proof.
  intros Hcv Hjob Mcv Mjob Hf Vs Vw.
  exact (respond_run (answering nlp) chat req tone cv job Hcv Hjob Mcv Mjob Hf Vs Vw).
Qed.

(** The endpoint from the check of the two texts on, inside its [try]. *)
Lemma respond_answers (nlp : str -> res (list Token)) (chat : str -> str -> res str)
    (req : Api.request) (tone cv job : str) :
  cv <> [] -> job <> [] ->
  Spec.answers nlp chat
    (try_except (Api.respond nlp chat req tone cv job) (fun e => Api.error e 500)).
Proof.
  intros Hcv Hjob. unfold Spec.answers.
  destruct (contains Api.FEHLER cv) eqn:Mcv.
  { left. unfold Api.respond. rewrite Mcv. eexists. reflexivity. }
  destruct (contains Api.FEHLER job) eqn:Mjob.
  { left. unfold Api.respond. rewrite Mcv, Mjob. eexists. reflexivity. }
  destruct (forallb Api.field_given
              [Api.name req; Api.company req; Api.strengths req; Api.weaknesses req])
    eqn:Hf.
  2:{ left. unfold Api.respond. rewrite Mcv, Mjob, Hf. eexists. reflexivity. }
  destruct (Api.is_valid_input (Api.val (Api.strengths req))) eqn:Vs.
  2:{ left. unfold Api.respond. rewrite Mcv, Mjob, Hf, Vs. eexists. reflexivity. }
  destruct (Api.is_valid_input (Api.val (Api.weaknesses req))) eqn:Vw.
  2:{ left. unfold Api.respond. rewrite Mcv, Mjob, Hf, Vs, Vw. eexists. reflexivity. }
  rewrite respond_run by assumption.
  destruct (nlp cv) as [cv_doc|e] eqn:E1.
  2:{ right. right. left. exists cv, job, e. left. split; [exact E1 | reflexivity]. }
  destruct (nlp job) as [job_doc|e] eqn:E2.
  2:{ right. right. left. exists cv, job, e. right.
      split; [exists cv_doc; exact E1|]. split; [exact E2 | reflexivity]. }
  cbv zeta.
  destruct (chat _ _) as [content|e] eqn:Ec.
  - destruct (contains Api.FEHLER (strip content)) eqn:Ml.
    + right. left. do 4 eexists. split; [exact Ml | reflexivity].
    + right. right. right. do 6 eexists.
      split; [exact Ec|]. split; [exact Ml | reflexivity].
  - right. left. do 4 eexists. split; [apply service_failure | reflexivity].
Qed.

(** With a tagger that answers, nothing is left for the handler. *)
Lemma respond_returns (nlp : str -> list Token) (chat : str -> str -> res str)
    (req : Api.request) (tone cv job : str) :
  cv <> [] -> job <> [] ->
  exists resp calls,
    Api.respond (answering nlp) chat req tone cv job = (Ok resp, calls).
Proof.
  intros Hcv Hjob.
  destruct (contains Api.FEHLER cv) eqn:Mcv.
  { unfold Api.respond. rewrite Mcv. do 2 eexists. reflexivity. }
  destruct (contains Api.FEHLER job) eqn:Mjob.
  { unfold Api.respond. rewrite Mcv, Mjob. do 2 eexists. reflexivity. }
  destruct (forallb Api.field_given
              [Api.name req; Api.company req; Api.strengths req; Api.weaknesses req])
    eqn:Hf.
  2:{ unfold Api.respond. rewrite Mcv, Mjob, Hf. do 2 eexists. reflexivity. }
  destruct (Api.is_valid_input (Api.val (Api.strengths req))) eqn:Vs.
  2:{ unfold Api.respond. rewrite Mcv, Mjob, Hf, Vs. do 2 eexists. reflexivity. }
  destruct (Api.is_valid_input (Api.val (Api.weaknesses req))) eqn:Vw.
  2:{ unfold Api.respond. rewrite Mcv, Mjob, Hf, Vs, Vw. do 2 eexists. reflexivity. }
  rewrite respond_main by assumption. cbv zeta.
  destruct (chat _ _) as [content|e].
  - destruct (contains Api.FEHLER (strip content)); do 2 eexists; reflexivity.
  - do 2 eexists. reflexivity.
Qed.

Lemma not_blank_nonempty (s : str) : ~ Spec.blank s -> s <> [].
Proof. intros H ->. apply H. constructor. Qed.

Lemma read_cv_result (cv : FileStorage) :
  Api.read_cv cv = (Ok None, [])
  \/ exists t, Api.read_cv cv = (Ok (Some t), []) /\ t <> [].
Proof.
  unfold Api.read_cv.
  destruct (str_eqb (mimetype cv) MIME_PDF).
  - destruct (Api_extract_text_from_pdf_result cv) as (t & -> & Hb & _).
    right. exists t. split; [reflexivity | now apply not_blank_nonempty].
  - destruct (str_eqb (mimetype cv) MIME_DOCX).
    + destruct (Api_extract_text_from_docx_result cv) as (t & -> & Hb & _).
      right. exists t. split; [reflexivity | now apply not_blank_nonempty].
    + now left.
Qed.

(** The endpoint once both files are given and read: what is left runs
    inside the [try] of the endpoint. *)
Lemma endpoint_try (nlp : str -> res (list Token)) (chat : str -> str -> res str)
    (req : Api.request) (cv job : FileStorage) (cv_text job_text : str) :
  Api.given (Api.cv_file req) = Some cv ->
  Api.given (Api.job_file req) = Some job ->
  Api.read_cv cv = (Ok (Some cv_text), []) ->
  mimetype job = MIME_PDF ->
  Api.extract_text_from_pdf job = (Ok job_text, []) ->
  Api.api_generate_cover_letter nlp chat req
  = try_except (Api.respond nlp chat req (Spec.tone_of req) cv_text job_text)
               (fun e => Api.error e 500).
Proof.
  intros Gcv Gjob Rcv Mjob Rjob. unfold Api.api_generate_cover_letter.
  rewrite Gcv, Gjob, Rcv. cbn [bind].
  rewrite Mjob, str_eqb_refl, Rjob. cbn [bind].
  fold (Spec.tone_of req).
  destruct (Api.respond nlp chat req (Spec.tone_of req) cv_text job_text)
    as [[r|e] t]; reflexivity.
Qed.

Lemma endpoint_respond (nlp : str -> list Token) (chat : str -> str -> res str)
    (req : Api.request) (cv job : FileStorage) (cv_text job_text : str) :
  Api.given (Api.cv_file req) = Some cv ->
  Api.given (Api.job_file req) = Some job ->
  Api.read_cv cv = (Ok (Some cv_text), []) ->
  mimetype job = MIME_PDF ->
  Api.extract_text_from_pdf job = (Ok job_text, []) ->
  cv_text <> [] -> job_text <> [] ->
  Api.api_generate_cover_letter (answering nlp) chat req
  = Api.respond (answering nlp) chat req (Spec.tone_of req) cv_text job_text.
Proof.
  intros Gcv Gjob Rcv Mjob Rjob Hcv Hjob.
  rewrite (endpoint_try (answering nlp) chat req cv job cv_text job_text
             Gcv Gjob Rcv Mjob Rjob).
  destruct (respond_returns nlp chat req (Spec.tone_of req) cv_text job_text Hcv Hjob)
    as (resp & calls & ->).
  reflexivity.
Qed.

(** X13.  Every request is answered, in one of four ways: with status 400
    before any call is made; with status 500 after the extractor ran on the
    two texts and the service was asked once, the message containing the
    marker word; with status 500 and the message of the exception the
    tagger raised, on the résumé text or on the job text, the service not
    having been asked; or with status 200 and the stripped answer of the
    service, which does not contain the marker word, after the extractor
    ran twice more.  So the endpoint never raises, whatever the tagger and
    the service do, and it asks the service at most once and never for a
    request it rejects. *)
Theorem endpoint_always_answers :
  forall (nlp : str -> res (list Token)) (chat : str -> str -> res str)
         (req : Api.request),
    Spec.answers nlp chat (Api.api_generate_cover_letter nlp chat req).
Proof.
  intros nlp chat req.
  assert (R : forall m, Spec.answers nlp chat
                (Ok {| Api.status := 400; Api.body := Api.JError m |}, [])).
  { intros m. left. eexists. reflexivity. }
  destruct (Api.given (Api.cv_file req)) as [cv|] eqn:Gcv.
  2:{ unfold Api.api_generate_cover_letter. rewrite Gcv. apply R. }
  destruct (Api.given (Api.job_file req)) as [job|] eqn:Gjob.
  2:{ unfold Api.api_generate_cover_letter. rewrite Gcv, Gjob. apply R. }
  destruct (read_cv_result cv) as [Rcv | (cv_text & Rcv & Hcv)].
  { unfold Api.api_generate_cover_letter. rewrite Gcv, Gjob, Rcv. apply R. }
  destruct (str_eqb (mimetype job) MIME_PDF) eqn:Mjob.
  2:{ unfold Api.api_generate_cover_letter. rewrite Gcv, Gjob, Rcv. cbn [bind].
      rewrite Mjob. apply R. }
  apply str_eqb_eq in Mjob.
  destruct (Api_extract_text_from_pdf_result job) as (job_text & Rjob & Hb & _).
  rewrite (endpoint_try nlp chat req cv job cv_text job_text Gcv Gjob Rcv Mjob Rjob).
  apply respond_answers; [exact Hcv | now apply not_blank_nonempty].
Qed.

(** X13 at the sample request with a tagger that cannot be run: the
    exception is answered with status 500 after one run of the extractor,
    and the service is not asked. *)
Lemma endpoint_always_answers_witness :
  Spec.answers Sample.no_tagger Sample.service
    (Api.api_generate_cover_letter Sample.no_tagger Sample.service
       (Sample.request_of Sample.cv_pdf Sample.job_pdf))
  /\ Api.api_generate_cover_letter Sample.no_tagger Sample.service
       (Sample.request_of Sample.cv_pdf Sample.job_pdf)
     = (Ok {| Api.status := 500;
              Api.body := Api.JError (u "[E109] Component 'tagger' could not be run.") |},
        [Extract Sample.cv_words]).
Proof.
  split.
  - exact (endpoint_always_answers Sample.no_tagger Sample.service
             (Sample.request_of Sample.cv_pdf Sample.job_pdf)).
  - vm_compute. reflexivity.
Defined.

Lemma usable_cv_read (cv : FileStorage) (t : str) :
  Spec.usable_cv cv t ->
  Api.read_cv cv = (Ok (Some t), []) /\ t <> [] /\ contains Api.FEHLER t = false.
Proof.
  intros (_ & Hr & Hb & Hm). split; [|split; [now apply not_blank_nonempty | exact Hm]].
  unfold Api.read_cv. destruct Hr as [[Ht Hp] | [Ht Hp]]; rewrite Ht.
  - rewrite str_eqb_refl.
    rewrite (proj2 (proj2 (proj2 (Api_extract_text_from_pdf_contract cv))) t Hp Hb).
    reflexivity.
  - assert (E : str_eqb MIME_DOCX MIME_PDF = false) by (vm_compute; reflexivity).
    rewrite E, str_eqb_refl.
    rewrite (proj2 (proj2 (proj2 (Api_extract_text_from_docx_contract cv))) t Hp Hb).
    reflexivity.
Qed.

Lemma usable_job_read (job : FileStorage) (t : str) :
  Spec.usable_job job t ->
  Api.extract_text_from_pdf job = (Ok t, []) /\ t <> []
  /\ contains Api.FEHLER t = false.
Proof.
  intros (_ & _ & Hp & Hb & Hm).
  split; [|split; [now apply not_blank_nonempty | exact Hm]].
  exact (proj2 (proj2 (proj2 (Api_extract_text_from_pdf_contract job))) t Hp Hb).
Qed.

Lemma fields_valid_given (req : Api.request) :
  Spec.fields_valid req ->
  forallb Api.field_given
    [Api.name req; Api.company req; Api.strengths req; Api.weaknesses req] = true.
Proof.
  intros (H & _). apply forallb_forall. rewrite Forall_forall in H.
  intros f Hf. apply field_given_val. now apply H.
Qed.

(** The endpoint on a request whose files and fields pass all checks. *)
Lemma endpoint_accepted (nlp : str -> list Token) (chat : str -> str -> res str)
    (req : Api.request) (cv job : FileStorage) (t1 t2 : str) :
  Api.cv_file req = Some cv -> Api.job_file req = Some job ->
  Spec.usable_cv cv t1 -> Spec.usable_job job t2 -> Spec.fields_valid req ->
  Api.api_generate_cover_letter (answering nlp) chat req
  = match chat Api.SYSTEM (Spec.prompt_for nlp req t1 t2) with
    | Ok content =>
        if contains Api.FEHLER (strip content)
        then (Ok {| Api.status := 500; Api.body := Api.JError (strip content) |},
              Spec.calls_until_chat t1 t2 (Spec.prompt_for nlp req t1 t2))
        else (Ok {| Api.status := 200;
                    Api.body := Api.JLetter (strip content) (Api.rank (nlp t1))
                                            (Api.rank (nlp t2)) |},
              Spec.calls_until_chat t1 t2 (Spec.prompt_for nlp req t1 t2)
              ++ [Extract t1; Extract t2])
    | Raise e =>
        (Ok {| Api.status := 500;
               Api.body := Api.JError (u "Fehler bei der API-Anfrage: " ++ e) |},
         Spec.calls_until_chat t1 t2 (Spec.prompt_for nlp req t1 t2))
    end.
Proof.
  intros Ecv Ejob Ucv Ujob F.
  destruct (usable_cv_read cv t1 Ucv) as (R1 & N1 & M1).
  destruct (usable_job_read job t2 Ujob) as (R2 & N2 & M2).
  pose proof (fields_valid_given req F) as G. destruct F as (_ & Vs & Vw).
  rewrite (endpoint_respond nlp chat req cv job t1 t2).
  - rewrite (respond_main nlp chat req (Spec.tone_of req) t1 t2 N1 N2 M1 M2 G Vs Vw).
    exact eq_refl.
  - apply given_Some. split; [assumption | apply Ucv].
  - apply given_Some. split; [assumption | apply Ujob].
  - exact R1.
  - apply Ujob.
  - exact R2.
  - exact N1.
  - exact N2.
Qed.

(** X14.  A request with usable files and valid fields, answered by the
    service with a text whose stripped form does not contain the marker
    word, gets status 200: the letter is the stripped answer, and the two
    keyword lists are those of [extract_keywords] on the two texts, the
    same lists the prompt was built with. *)
Theorem endpoint_returns_letter :
  forall (nlp : str -> list Token) (chat : str -> str -> res str)
         (req : Api.request) (cv job : FileStorage) (t1 t2 content : str),
    Api.cv_file req = Some cv -> Api.job_file req = Some job ->
    Spec.usable_cv cv t1 -> Spec.usable_job job t2 -> Spec.fields_valid req ->
    chat Api.SYSTEM (Spec.prompt_for nlp req t1 t2) = Ok content ->
    contains Api.FEHLER (strip content) = false ->
    exists cv_keywords job_keywords,
      outcome (Api.extract_keywords (answering nlp) t1) = Ok cv_keywords
      /\ outcome (Api.extract_keywords (answering nlp) t2) = Ok job_keywords
      /\ Spec.embeds (Spec.prompt_for nlp req t1 t2) t1 t2
           (Api.val (Api.strengths req)) (Api.val (Api.weaknesses req))
           cv_keywords job_keywords
      /\ Api.api_generate_cover_letter (answering nlp) chat req
         = (Ok {| Api.status := 200;
                  Api.body := Api.JLetter (strip content) cv_keywords job_keywords |},
            [ Extract t1; Extract t2;
              Chat Api.SYSTEM (Spec.prompt_for nlp req t1 t2);
              Extract t1; Extract t2 ]).
Proof.
  intros nlp chat req cv job t1 t2 content Ecv Ejob Ucv Ujob F Hc Hm.
  exists (Api.rank (nlp t1)), (Api.rank (nlp t2)).
  split; [reflexivity|]. split; [reflexivity|]. split; [apply Api_prompt_embeds|].
  rewrite (endpoint_accepted nlp chat req cv job t1 t2) by assumption.
  rewrite Hc, Hm. reflexivity.
Qed.

(** X15.  The same request gets status 500 when the stripped answer of the
    service contains the marker word: the answer is taken for a failure
    and returned as the error message. *)
Theorem endpoint_takes_letter_with_marker_for_failure :
  forall (nlp : str -> list Token) (chat : str -> str -> res str)
         (req : Api.request) (cv job : FileStorage) (t1 t2 content : str),
    Api.cv_file req = Some cv -> Api.job_file req = Some job ->
    Spec.usable_cv cv t1 -> Spec.usable_job job t2 -> Spec.fields_valid req ->
    chat Api.SYSTEM (Spec.prompt_for nlp req t1 t2) = Ok content ->
    contains Api.FEHLER (strip content) = true ->
    outcome (Api.api_generate_cover_letter (answering nlp) chat req)
    = Ok {| Api.status := 500; Api.body := Api.JError (strip content) |}.
Proof.
  intros nlp chat req cv job t1 t2 content Ecv Ejob Ucv Ujob F Hc Hm.
  rewrite (endpoint_accepted nlp chat req cv job t1 t2) by assumption.
  rewrite Hc, Hm. reflexivity.
Qed.

(** X16.  The same request gets status 500 when the service raises: the
    message is the composer's failure text followed by the cause, and the
    service is not asked again. *)
Theorem endpoint_reports_service_failure :
  forall (nlp : str -> list Token) (chat : str -> str -> res str)
         (req : Api.request) (cv job : FileStorage) (t1 t2 e : str),
    Api.cv_file req = Some cv -> Api.job_file req = Some job ->
    Spec.usable_cv cv t1 -> Spec.usable_job job t2 -> Spec.fields_valid req ->
    chat Api.SYSTEM (Spec.prompt_for nlp req t1 t2) = Raise e ->
    Api.api_generate_cover_letter (answering nlp) chat req
    = (Ok {| Api.status := 500;
             Api.body := Api.JError (u "Fehler bei der API-Anfrage: " ++ e) |},
       [Extract t1; Extract t2; Chat Api.SYSTEM (Spec.prompt_for nlp req t1 t2)]).
Proof.
  intros nlp chat req cv job t1 t2 e Ecv Ejob Ucv Ujob F Hc.
  rewrite (endpoint_accepted nlp chat req cv job t1 t2) by assumption.
  rewrite Hc. reflexivity.
Qed.

Lemma sample_cv_usable : Spec.usable_cv Sample.cv_pdf Sample.cv_words.
Proof.
  split; [vm_compute; discriminate|]. split; [|split].
  - left. split; [reflexivity|].
    exists [Ok (Some Sample.cv_words)], [Sample.cv_words].
    split; [vm_compute; reflexivity|]. split; [|vm_compute; reflexivity].
    constructor; [left; reflexivity | constructor].
  - intros H. vm_compute in H. inversion H as [|? ? Hc _]. discriminate Hc.
  - vm_compute. reflexivity.
Qed.

Lemma sample_job_usable : Spec.usable_job Sample.job_pdf Sample.job_words.
Proof.
  split; [vm_compute; discriminate|]. split; [reflexivity|]. split; [|split].
  - exists [Ok (Some Sample.job_words)], [Sample.job_words].
    split; [vm_compute; reflexivity|]. split; [|vm_compute; reflexivity].
    constructor; [left; reflexivity | constructor].
  - intros H. vm_compute in H. inversion H as [|? ? Hc _]. discriminate Hc.
  - vm_compute. reflexivity.
Qed.

Lemma sample_fields_valid (cv job : FileStorage) :
  Spec.fields_valid (Sample.request_of cv job).
Proof.
  split; [|split; vm_compute; reflexivity].
  repeat (apply Forall_cons;
          [eexists; split; [reflexivity | vm_compute; discriminate]|]).
  apply Forall_nil.
Qed.

(** X14 at the sample request, with the service that answers. *)
Lemma endpoint_returns_letter_witness :
  exists cv_keywords job_keywords,
    outcome (Api.extract_keywords (answering Sample.nouns) Sample.cv_words) = Ok cv_keywords
    /\ outcome (Api.extract_keywords (answering Sample.nouns) Sample.job_words) = Ok job_keywords
    /\ Spec.embeds
         (Spec.prompt_for Sample.nouns (Sample.request_of Sample.cv_pdf Sample.job_pdf)
            Sample.cv_words Sample.job_words)
         Sample.cv_words Sample.job_words
         (Api.val (Api.strengths (Sample.request_of Sample.cv_pdf Sample.job_pdf)))
         (Api.val (Api.weaknesses (Sample.request_of Sample.cv_pdf Sample.job_pdf)))
         cv_keywords job_keywords
    /\ Api.api_generate_cover_letter (answering Sample.nouns) Sample.service
         (Sample.request_of Sample.cv_pdf Sample.job_pdf)
       = (Ok {| Api.status := 200;
                Api.body := Api.JLetter (strip Sample.letter) cv_keywords job_keywords |},
          [ Extract Sample.cv_words; Extract Sample.job_words;
            Chat Api.SYSTEM
              (Spec.prompt_for Sample.nouns
                 (Sample.request_of Sample.cv_pdf Sample.job_pdf)
                 Sample.cv_words Sample.job_words);
            Extract Sample.cv_words; Extract Sample.job_words ]).
Proof.
  apply (endpoint_returns_letter Sample.nouns Sample.service
           (Sample.request_of Sample.cv_pdf Sample.job_pdf)
           Sample.cv_pdf Sample.job_pdf Sample.cv_words Sample.job_words Sample.letter).
  - reflexivity.
  - reflexivity.
  - exact sample_cv_usable.
  - exact sample_job_usable.
  - apply sample_fields_valid.
  - reflexivity.
  - vm_compute. reflexivity.
Defined.

(** X15 at the sample request, with a service whose letter mentions
    "Fehlerkultur". *)
Lemma endpoint_takes_letter_with_marker_for_failure_witness :
  outcome (Api.api_generate_cover_letter (answering Sample.nouns) Sample.service_fehlerkultur
             (Sample.request_of Sample.cv_pdf Sample.job_pdf))
  = Ok {| Api.status := 500;
          Api.body := Api.JError (u "Ich schaetze eine offene Fehlerkultur.") |}.
Proof.
  refine (eq_trans
            (endpoint_takes_letter_with_marker_for_failure Sample.nouns
               Sample.service_fehlerkultur
               (Sample.request_of Sample.cv_pdf Sample.job_pdf)
               Sample.cv_pdf Sample.job_pdf Sample.cv_words Sample.job_words
               _ _ _ _ _ _ _ _) _).
  - reflexivity.
  - reflexivity.
  - exact sample_cv_usable.
  - exact sample_job_usable.
  - apply sample_fields_valid.
  - reflexivity.
  - vm_compute. reflexivity.
  - vm_compute. reflexivity.
Defined.

(** X16 at the sample request, with the service out of reach. *)
Lemma endpoint_reports_service_failure_witness :
  Api.api_generate_cover_letter (answering Sample.nouns) Sample.no_service
    (Sample.request_of Sample.cv_pdf Sample.job_pdf)
  = (Ok {| Api.status := 500;
           Api.body := Api.JError (u "Fehler bei der API-Anfrage: " ++ u "Connection error.") |},
     [ Extract Sample.cv_words; Extract Sample.job_words;
       Chat Api.SYSTEM
         (Spec.prompt_for Sample.nouns (Sample.request_of Sample.cv_pdf Sample.job_pdf)
            Sample.cv_words Sample.job_words) ]).
Proof.
  apply (endpoint_reports_service_failure Sample.nouns Sample.no_service
           (Sample.request_of Sample.cv_pdf Sample.job_pdf)
           Sample.cv_pdf Sample.job_pdf Sample.cv_words Sample.job_words
           (u "Connection error.")).
  - reflexivity.
  - reflexivity.
  - exact sample_cv_usable.
  - exact sample_job_usable.
  - apply sample_fields_valid.
  - reflexivity.
Defined.

(** X17.  The media types are checked before any text is looked at: with
    both files given, a résumé that is declared neither as PDF nor as
    word-processing document is refused with the résumé-format message;
    and a job file that is not declared as PDF is refused with the
    job-format message whatever the two files contain.  Both answers have
    status 400 and no call is made. *)
Theorem endpoint_refuses_media_types :
  forall (nlp : str -> res (list Token)) (chat : str -> str -> res str)
         (req : Api.request) (cv job : FileStorage),
    Api.cv_file req = Some cv -> filename cv <> [] ->
    Api.job_file req = Some job -> filename job <> [] ->
    (mimetype cv <> MIME_PDF -> mimetype cv <> MIME_DOCX ->
     Api.api_generate_cover_letter nlp chat req
     = (Ok {| Api.status := 400;
              Api.body := Api.JError (u "Ungültiges Lebenslauf-Format: " ++ mimetype cv
                                      ++ u ". Nur PDF oder DOCX erlaubt.") |}, []))
    /\ (mimetype cv = MIME_PDF \/ mimetype cv = MIME_DOCX ->
        mimetype job <> MIME_PDF ->
        Api.api_generate_cover_letter nlp chat req
        = (Ok {| Api.status := 400;
                 Api.body := Api.JError (u "Ungültiges Stellenprofil-Format: " ++ mimetype job
                                         ++ u ". Nur PDF erlaubt.") |}, [])).
Proof.
  intros nlp chat req cv job Ecv Ncv Ejob Njob.
  pose proof (proj2 (given_Some _ _) (conj Ecv Ncv)) as Gcv.
  pose proof (proj2 (given_Some _ _) (conj Ejob Njob)) as Gjob.
  split.
  - intros H1 H2. apply str_eqb_neq in H1, H2.
    unfold Api.api_generate_cover_letter, Api.read_cv.
    rewrite Gcv, Gjob, H1, H2. reflexivity.
  - intros Hcv Hjob. apply str_eqb_neq in Hjob.
    destruct (read_cv_result cv) as [Rcv | (t & Rcv & _)].
    + exfalso. unfold Api.read_cv in Rcv.
      assert (E : str_eqb MIME_DOCX MIME_PDF = false) by (vm_compute; reflexivity).
      destruct Hcv as [Hcv|Hcv]; rewrite Hcv in Rcv.
      * rewrite str_eqb_refl in Rcv.
        destruct (Api_extract_text_from_pdf_total cv) as [x Hx].
        rewrite Hx in Rcv. discriminate Rcv.
      * rewrite E, str_eqb_refl in Rcv.
        destruct (Api_extract_text_from_docx_result cv) as (x & Hx & _).
        rewrite Hx in Rcv. discriminate Rcv.
    + unfold Api.api_generate_cover_letter.
      rewrite Gcv, Gjob, Rcv. cbn [bind]. rewrite Hjob. reflexivity.
Qed.

(** X17 at a résumé in PDF sent with a job file declared as a
    word-processing document. *)
Lemma endpoint_refuses_media_types_witness :
  Api.api_generate_cover_letter (answering Sample.nouns) Sample.service
    (Sample.request_of Sample.cv_pdf (Sample.docx [u "Stellenprofil"]))
  = (Ok {| Api.status := 400;
           Api.body := Api.JError (u "Ungültiges Stellenprofil-Format: "
                                   ++ mimetype (Sample.docx [u "Stellenprofil"])
                                   ++ u ". Nur PDF erlaubt.") |}, []).
Proof.
  apply (proj2 (endpoint_refuses_media_types (answering Sample.nouns) Sample.service
                  (Sample.request_of Sample.cv_pdf (Sample.docx [u "Stellenprofil"]))
                  Sample.cv_pdf (Sample.docx [u "Stellenprofil"])
                  eq_refl ltac:(vm_compute; discriminate)
                  eq_refl ltac:(vm_compute; discriminate))).
  - left. reflexivity.
  - vm_compute. discriminate.
Defined.

Lemma field_missing (l : list (option str)) :
  Exists (fun f => f = None \/ f = Some []) l -> forallb Api.field_given l = false.
Proof.
  induction 1 as [f l [->| ->] | f l _ IH]; simpl; try reflexivity.
  rewrite IH. apply andb_false_r.
Qed.

(** X18.  The text fields are checked after both files were read and found
    usable: a missing or empty field gives the fields message, and filled
    fields with strengths or weaknesses that fail the validator give the
    validator message.  Both answers have status 400 and no call is
    made. *)
Theorem endpoint_checks_fields :
  forall (nlp : str -> res (list Token)) (chat : str -> str -> res str)
         (req : Api.request) (cv job : FileStorage) (t1 t2 : str),
    Api.cv_file req = Some cv -> Api.job_file req = Some job ->
    Spec.usable_cv cv t1 -> Spec.usable_job job t2 ->
    (Exists (fun f => f = None \/ f = Some [])
            [Api.name req; Api.company req; Api.strengths req; Api.weaknesses req] ->
     Api.api_generate_cover_letter nlp chat req
     = (Ok {| Api.status := 400;
              Api.body := Api.JError (u "Alle Textfelder müssen ausgefüllt sein.") |}, []))
    /\ (Forall (fun f => exists s, f = Some s /\ s <> [])
               [Api.name req; Api.company req; Api.strengths req; Api.weaknesses req] ->
        Api.is_valid_input (Api.val (Api.strengths req)) = false
        \/ Api.is_valid_input (Api.val (Api.weaknesses req)) = false ->
        Api.api_generate_cover_letter nlp chat req
        = (Ok {| Api.status := 400;
                 Api.body := Api.JError (u "Stärken und Schwächen müssen sinnvolle Eingaben sein.") |},
           [])).
Proof.
  intros nlp chat req cv job t1 t2 Ecv Ejob Ucv Ujob.
  destruct (usable_cv_read cv t1 Ucv) as (R1 & N1 & M1).
  destruct (usable_job_read job t2 Ujob) as (R2 & N2 & M2).
  assert (E : Api.api_generate_cover_letter nlp chat req
              = try_except (Api.respond nlp chat req (Spec.tone_of req) t1 t2)
                           (fun e => Api.error e 500)).
  { apply (endpoint_try nlp chat req cv job t1 t2); auto.
    - apply given_Some. split; [assumption | apply Ucv].
    - apply given_Some. split; [assumption | apply Ujob].
    - apply Ujob. }
  rewrite E. unfold Api.respond. rewrite M1, M2. split.
  - intros H. rewrite (field_missing _ H). reflexivity.
  - intros H V.
    assert (G : forallb Api.field_given
                  [Api.name req; Api.company req; Api.strengths req; Api.weaknesses req]
                = true).
    { apply forallb_forall. rewrite Forall_forall in H.
      intros f Hf. apply field_given_val. now apply H. }
    rewrite G. cbn [negb].
    assert (B : negb (Api.is_valid_input (Api.val (Api.strengths req)))
                || negb (Api.is_valid_input (Api.val (Api.weaknesses req))) = true).
    { destruct V as [-> | ->]; [reflexivity | apply orb_true_r]. }
    rewrite B. reflexivity.
Qed.

(** X18 at the sample request without a name. *)
Lemma endpoint_checks_fields_witness :
  Api.api_generate_cover_letter (answering Sample.nouns) Sample.service
    {| Api.cv_file := Some Sample.cv_pdf;
       Api.job_file := Some Sample.job_pdf;
       Api.strengths := Some (u "Teamfähigkeit, Zuverlässigkeit");
       Api.weaknesses := Some (u "Perfektionismus");
       Api.name := None;
       Api.company := Some (u "Beispiel GmbH");
       Api.tone := None |}
  = (Ok {| Api.status := 400;
           Api.body := Api.JError (u "Alle Textfelder müssen ausgefüllt sein.") |}, []).
Proof.
  apply (proj1 (endpoint_checks_fields (answering Sample.nouns) Sample.service
                  {| Api.cv_file := Some Sample.cv_pdf;
                     Api.job_file := Some Sample.job_pdf;
                     Api.strengths := Some (u "Teamfähigkeit, Zuverlässigkeit");
                     Api.weaknesses := Some (u "Perfektionismus");
                     Api.name := None;
                     Api.company := Some (u "Beispiel GmbH");
                     Api.tone := None |}
                  Sample.cv_pdf Sample.job_pdf Sample.cv_words Sample.job_words
                  eq_refl eq_refl sample_cv_usable sample_job_usable)).
  apply Exists_cons_hd. left. reflexivity.
Defined.

(** ** What a letter in the answer presupposes *)

Lemma respond_200 (nlp : str -> res (list Token)) (chat : str -> str -> res str)
    (req : Api.request) (tone cv job : str) (resp : Api.response) :
  cv <> [] -> job <> [] ->
  outcome (try_except (Api.respond nlp chat req tone cv job)
                      (fun e => Api.error e 500)) = Ok resp ->
  Api.status resp = 200 ->
  contains Api.FEHLER cv = false /\ contains Api.FEHLER job = false
  /\ Spec.fields_valid req
  /\ exists cv_doc job_doc content,
       nlp cv = Ok cv_doc /\ nlp job = Ok job_doc
       /\ chat Api.SYSTEM
            (Api.prompt_of cv job (Api.val (Api.strengths req))
               (Api.val (Api.weaknesses req)) (Api.val (Api.name req))
               (Api.val (Api.company req)) tone
               (Api.rank cv_doc) (Api.rank job_doc)) = Ok content
       /\ contains Api.FEHLER (strip content) = false
       /\ Api.body resp
          = Api.JLetter (strip content) (Api.rank cv_doc) (Api.rank job_doc).
Proof.
  intros Hcv Hjob.
  destruct (contains Api.FEHLER cv) eqn:Mcv.
  { unfold Api.respond. rewrite Mcv. intros H S. injection H as <-. discriminate S. }
  destruct (contains Api.FEHLER job) eqn:Mjob.
  { unfold Api.respond. rewrite Mcv, Mjob. intros H S. injection H as <-. discriminate S. }
  destruct (forallb Api.field_given
              [Api.name req; Api.company req; Api.strengths req; Api.weaknesses req])
    eqn:Hf.
  2:{ unfold Api.respond. rewrite Mcv, Mjob, Hf. intros H S.
      injection H as <-. discriminate S. }
  destruct (Api.is_valid_input (Api.val (Api.strengths req))) eqn:Vs.
  2:{ unfold Api.respond. rewrite Mcv, Mjob, Hf, Vs. intros H S.
      injection H as <-. discriminate S. }
  destruct (Api.is_valid_input (Api.val (Api.weaknesses req))) eqn:Vw.
  2:{ unfold Api.respond. rewrite Mcv, Mjob, Hf, Vs, Vw. intros H S.
      injection H as <-. discriminate S. }
  rewrite (respond_run nlp chat req tone cv job Hcv Hjob Mcv Mjob Hf Vs Vw).
  assert (F : Spec.fields_valid req).
  { split; [|split; assumption]. apply Forall_forall. intros f Hin.
    apply field_given_val. rewrite forallb_forall in Hf. now apply Hf. }
  destruct (nlp cv) as [cv_doc|e].
  2:{ intros H S. injection H as <-. discriminate S. }
  destruct (nlp job) as [job_doc|e].
  2:{ intros H S. injection H as <-. discriminate S. }
  cbv zeta.
  destruct (chat _ _) as [content|e] eqn:Ec.
  - destruct (contains Api.FEHLER (strip content)) eqn:Ml.
    + intros H S. injection H as <-. discriminate S.
    + intros H _. injection H as <-.
      split; [reflexivity|]. split; [reflexivity|]. split; [exact F|].
      exists cv_doc, job_doc, content.
      split; [reflexivity|]. split; [reflexivity|]. split; [exact Ec|].
      split; [exact Ml | reflexivity].
  - intros H S. injection H as <-. discriminate S.
Qed.

(** X28.  The endpoint answers with status 200 only when everything was in
    order: both files were given, the résumé is declared as PDF or as
    word-processing document and the job file as PDF, neither extracted
    text contains the marker word, the four text fields are filled in and
    the strengths and weaknesses pass the validator, the tagger answered on
    both texts, and the service answered the prompt built from them with a
    text whose stripped form, the letter of the answer, does not contain
    the marker word.  The keyword lists of the answer are those of the
    prompt. *)
Theorem endpoint_letter_presupposes :
  forall (nlp : str -> res (list Token)) (chat : str -> str -> res str)
         (req : Api.request) (resp : Api.response),
    outcome (Api.api_generate_cover_letter nlp chat req) = Ok resp ->
    Api.status resp = 200 ->
    exists cv job cv_text job_text cv_doc job_doc content,
      Api.cv_file req = Some cv /\ filename cv <> []
      /\ Api.job_file req = Some job /\ filename job <> []
      /\ (mimetype cv = MIME_PDF \/ mimetype cv = MIME_DOCX)
      /\ mimetype job = MIME_PDF
      /\ outcome (Api.read_cv cv) = Ok (Some cv_text)
      /\ outcome (Api.extract_text_from_pdf job) = Ok job_text
      /\ contains Api.FEHLER cv_text = false
      /\ contains Api.FEHLER job_text = false
      /\ Spec.fields_valid req
      /\ nlp cv_text = Ok cv_doc /\ nlp job_text = Ok job_doc
      /\ chat Api.SYSTEM
           (Api.prompt_of cv_text job_text (Api.val (Api.strengths req))
              (Api.val (Api.weaknesses req)) (Api.val (Api.name req))
              (Api.val (Api.company req)) (Spec.tone_of req)
              (Api.rank cv_doc) (Api.rank job_doc)) = Ok content
      /\ contains Api.FEHLER (strip content) = false
      /\ Api.body resp
         = Api.JLetter (strip content) (Api.rank cv_doc) (Api.rank job_doc).
Proof.
  intros nlp chat req resp.
  destruct (Api.given (Api.cv_file req)) as [cv|] eqn:Gcv.
  2:{ unfold Api.api_generate_cover_letter. rewrite Gcv.
      intros H S. injection H as <-. discriminate S. }
  destruct (Api.given (Api.job_file req)) as [job|] eqn:Gjob.
  2:{ unfold Api.api_generate_cover_letter. rewrite Gcv, Gjob.
      intros H S. injection H as <-. discriminate S. }
  destruct (read_cv_result cv) as [Rcv | (cv_text & Rcv & Hcv)].
  { unfold Api.api_generate_cover_letter. rewrite Gcv, Gjob, Rcv.
    intros H S. injection H as <-. discriminate S. }
  destruct (str_eqb (mimetype job) MIME_PDF) eqn:Mjob.
  2:{ unfold Api.api_generate_cover_letter. rewrite Gcv, Gjob, Rcv. cbn [bind].
      rewrite Mjob. intros H S. injection H as <-. discriminate S. }
  apply str_eqb_eq in Mjob.
  destruct (Api_extract_text_from_pdf_result job) as (job_text & Rjob & Hb & _).
  pose proof (not_blank_nonempty _ Hb) as Hjob.
  rewrite (endpoint_try nlp chat req cv job cv_text job_text Gcv Gjob Rcv Mjob Rjob).
  intros H S.
  destruct (respond_200 nlp chat req (Spec.tone_of req) cv_text job_text resp
              Hcv Hjob H S)
    as (M1 & M2 & F & cv_doc & job_doc & content & E1 & E2 & Ec & Ml & Eb).
  apply given_Some in Gcv as [Ecv Ncv]. apply given_Some in Gjob as [Ejob Njob].
  exists cv, job, cv_text, job_text, cv_doc, job_doc, content.
  repeat apply conj; try assumption; try apply F.
  - unfold Api.read_cv in Rcv.
    destruct (str_eqb (mimetype cv) MIME_PDF) eqn:T1.
    + left. now apply str_eqb_eq.
    + destruct (str_eqb (mimetype cv) MIME_DOCX) eqn:T2.
      * right. now apply str_eqb_eq.
      * discriminate Rcv.
  - rewrite Rcv. reflexivity.
  - rewrite Rjob. reflexivity.
Qed.

(** X28 at the sample request, with the tagger and the service that
    answer. *)
Lemma endpoint_letter_presupposes_witness :
  exists cv job cv_text job_text cv_doc job_doc content,
    Api.cv_file (Sample.request_of Sample.cv_pdf Sample.job_pdf) = Some cv
    /\ filename cv <> []
    /\ Api.job_file (Sample.request_of Sample.cv_pdf Sample.job_pdf) = Some job
    /\ filename job <> []
    /\ (mimetype cv = MIME_PDF \/ mimetype cv = MIME_DOCX)
    /\ mimetype job = MIME_PDF
    /\ outcome (Api.read_cv cv) = Ok (Some cv_text)
    /\ outcome (Api.extract_text_from_pdf job) = Ok job_text
    /\ contains Api.FEHLER cv_text = false
    /\ contains Api.FEHLER job_text = false
    /\ Spec.fields_valid (Sample.request_of Sample.cv_pdf Sample.job_pdf)
    /\ answering Sample.nouns cv_text = Ok cv_doc
    /\ answering Sample.nouns job_text = Ok job_doc
    /\ Sample.service Api.SYSTEM
         (Api.prompt_of cv_text job_text
            (Api.val (Api.strengths (Sample.request_of Sample.cv_pdf Sample.job_pdf)))
            (Api.val (Api.weaknesses (Sample.request_of Sample.cv_pdf Sample.job_pdf)))
            (Api.val (Api.name (Sample.request_of Sample.cv_pdf Sample.job_pdf)))
            (Api.val (Api.company (Sample.request_of Sample.cv_pdf Sample.job_pdf)))
            (Spec.tone_of (Sample.request_of Sample.cv_pdf Sample.job_pdf))
            (Api.rank cv_doc) (Api.rank job_doc)) = Ok content
    /\ contains Api.FEHLER (strip content) = false
    /\ Api.body {| Api.status := 200;
                   Api.body := Api.JLetter (strip Sample.letter)
                                 (Api.rank (Sample.nouns Sample.cv_words))
                                 (Api.rank (Sample.nouns Sample.job_words)) |}
       = Api.JLetter (strip content) (Api.rank cv_doc) (Api.rank job_doc).
Proof.
  apply (endpoint_letter_presupposes (answering Sample.nouns) Sample.service
           (Sample.request_of Sample.cv_pdf Sample.job_pdf)
           {| Api.status := 200;
              Api.body := Api.JLetter (strip Sample.letter)
                            (Api.rank (Sample.nouns Sample.cv_words))
                            (Api.rank (Sample.nouns Sample.job_words)) |}).
  - vm_compute. reflexivity.
  - exact eq_refl.
Defined.

(** ** More on the document exporter *)

Lemma starts_with_iff (p s : str) :
  starts_with p s = true <-> exists b, s = p ++ b.
Proof.
  revert s. induction p as [|x p IH]; intros s; simpl.
  - split; eauto.
  - destruct s as [|y s].
    + split; [discriminate | intros [b H]; discriminate].
    + rewrite andb_true_iff, Z.eqb_eq, IH. split.
      * intros [-> [b ->]]. eauto.
      * intros [b H]. injection H as -> ->. eauto.
Qed.

(** [needle in s] holds exactly when [s] has the needle as a substring. *)
Lemma contains_iff (p s : str) :
  contains p s = true <-> exists a b, s = a ++ p ++ b.
Proof.
  induction s as [|c s IH].
  - simpl. rewrite orb_false_r, starts_with_iff. split.
    + intros [b H]. exists [], b. exact H.
    + intros (a & b & H). destruct a; [eauto|discriminate].
  - cbn [contains]. rewrite orb_true_iff, starts_with_iff, IH. split.
    + intros [[b H] | (a & b & ->)].
      * exists [], b. exact H.
      * exists (c :: a), b. reflexivity.
    + intros (a & b & H). destruct a as [|x a].
      * left. eauto.
      * right. injection H as -> ->. eauto.
Qed.

Lemma contains_false_sub (p a s b : str) :
  contains p (a ++ s ++ b) = false -> contains p s = false.
Proof.
  intros H. destruct (contains p s) eqn:E; [|reflexivity].
  apply contains_iff in E as (x & y & ->).
  rewrite <- H. symmetry. apply contains_iff.
  exists (a ++ x), (y ++ b). now rewrite <- !app_assoc.
Qed.

Lemma contains_blank_rev (l : str) :
  contains [LF; LF] (rev l) = contains [LF; LF] l.
Proof.
  assert (H : forall l, contains [LF; LF] l = true -> contains [LF; LF] (rev l) = true).
  { intros l0 H. apply contains_iff in H as (a & b & ->). apply contains_iff.
    exists (rev b), (rev a). rewrite !rev_app_distr. simpl. now rewrite <- !app_assoc. }
  destruct (contains [LF; LF] l) eqn:E.
  - now apply H.
  - destruct (contains [LF; LF] (rev l)) eqn:E'; [|reflexivity].
    apply H in E'. rewrite rev_involutive in E'. congruence.
Qed.

Lemma lstrip_suffix (s : str) : exists a, s = a ++ lstrip s.
Proof.
  induction s as [|c s [a IH]]; simpl.
  - exists []. reflexivity.
  - destruct (is_space c).
    + exists (c :: a). simpl. now rewrite <- IH.
    + exists []. reflexivity.
Qed.

Lemma strip_substring (s : str) : exists a b, s = a ++ strip s ++ b.
Proof.
  unfold strip, rstrip. destruct (lstrip_suffix s) as [a Ha].
  destruct (lstrip_suffix (rev (lstrip s))) as [b Hb].
  exists a, (rev b). rewrite Ha at 1. f_equal.
  rewrite <- (rev_involutive (lstrip s)) at 1. rewrite Hb at 1.
  now rewrite rev_app_distr.
Qed.

(** No piece that [split] cuts holds a blank-line boundary. *)
Lemma split_blank_from_pieces (s acc : str) :
  contains [LF; LF] acc = false ->
  (forall acc' s', acc = LF :: acc' -> s <> LF :: s') ->
  Forall (fun p => contains [LF; LF] p = false) (split_blank_from acc s).
Proof.
  assert (Push : forall c acc0 s0,
             contains [LF; LF] acc0 = false ->
             (forall acc' s', acc0 = LF :: acc' -> c :: s0 <> LF :: s') ->
             contains [LF; LF] (c :: acc0) = false).
  { intros c acc0 s0 H I. destruct acc0 as [|e acc0]; [simpl|].
    - cbn [contains starts_with]. now rewrite andb_false_r.
    - rewrite contains_cons2, H, orb_false_r.
      destruct (Z.eqb_spec e LF) as [->|Ne]; [|apply andb_false_r].
      rewrite andb_true_r. apply Z.eqb_neq. intros ->.
      now apply (I acc0 s0). }
  assert (G : forall n s acc, (length s <= n)%nat ->
             contains [LF; LF] acc = false ->
             (forall acc' s', acc = LF :: acc' -> s <> LF :: s') ->
             Forall (fun p => contains [LF; LF] p = false) (split_blank_from acc s)).
  { induction n as [|n IH]; intros s0 acc0 Hl H I.
    - destruct s0; [|simpl in Hl |- *; lia]. simpl.
      constructor; [now rewrite contains_blank_rev | constructor].
    - destruct s0 as [|c [|d s0]].
      + simpl. constructor; [now rewrite contains_blank_rev | constructor].
      + simpl. constructor; [|constructor].
        change (rev acc0 ++ [c]) with (rev (c :: acc0)).
        rewrite contains_blank_rev. now apply (Push c acc0 []).
      + rewrite split_blank_from_cons2.
        destruct ((c =? LF) && (d =? LF)) eqn:E.
        * constructor; [now rewrite contains_blank_rev|].
          apply IH; [simpl in Hl |- *; lia | reflexivity | discriminate].
        * apply IH; [simpl in Hl |- *; lia | now apply (Push c acc0 (d :: s0)) |].
          intros acc' s' Ea Es. injection Ea as -> _. injection Es as -> _.
          rewrite !Z.eqb_refl in E. discriminate. }
  apply (G (length s)). lia.
Qed.

Lemma split_blank_from_nonempty (s acc : str) : split_blank_from acc s <> [].
Proof.
  revert acc. induction s as [|c s IH]; intros acc; [discriminate|].
  destruct s as [|d s]; [discriminate|].
  rewrite split_blank_from_cons2. destruct ((c =? LF) && (d =? LF)); [discriminate | apply IH].
Qed.

Lemma join_cons (sep x : str) (l : list str) :
  l <> [] -> join sep (x :: l) = x ++ sep ++ join sep l.
Proof. destruct l; [congruence | reflexivity]. Qed.

Lemma join_split_blank_from (s acc : str) :
  join [LF; LF] (split_blank_from acc s) = rev acc ++ s.
Proof.
  assert (G : forall n s acc, (length s <= n)%nat ->
             join [LF; LF] (split_blank_from acc s) = rev acc ++ s).
  { induction n as [|n IH]; intros s0 acc0 Hl.
    - destruct s0; [|simpl in Hl |- *; lia]. simpl. now rewrite app_nil_r.
    - destruct s0 as [|c [|d s0]];
        [simpl; now rewrite app_nil_r | reflexivity |].
      rewrite split_blank_from_cons2.
      destruct ((c =? LF) && (d =? LF)) eqn:E.
      + apply andb_true_iff in E as [Ec Ed].
        apply Z.eqb_eq in Ec, Ed. subst c d.
        rewrite join_cons by apply split_blank_from_nonempty.
        rewrite IH by (simpl in Hl |- *; lia). reflexivity.
      + rewrite IH by (simpl in Hl |- *; lia). simpl. now rewrite <- app_assoc. }
  apply (G (length s)). lia.
Qed.

(** X19.  The endpoint [/generate_docx] answers 400 when the letter is
    missing or empty, whatever the storage would do; and for a letter that
    is given it answers 500 with the cause when writing the file fails. *)
Theorem generate_docx_failures :
  forall save : document -> res unit,
    Api.generate_docx None save
    = (Ok (Api.JsonError (u "Kein Motivationsschreiben angegeben.") 400), [])
    /\ Api.generate_docx (Some []) save
       = (Ok (Api.JsonError (u "Kein Motivationsschreiben angegeben.") 400), [])
    /\ (forall (letter e : str),
          letter <> [] ->
          save (Heading 1 (u "Motivationsschreiben")
                  :: map (fun p => Paragraph (strip p)) (split_blank letter))
          = Raise e ->
          Api.generate_docx (Some letter) save = (Ok (Api.JsonError e 500), [])).
Proof.
  intros save. split; [reflexivity|]. split; [reflexivity|].
  intros letter e Hl Hs. unfold Api.generate_docx.
  destruct letter as [|c letter]; [contradiction|].
  cbv zeta. rewrite fold_paragraphs.
  change (add_heading new_document Api.TITLE 1 ++ ?x)
    with (Heading 1 (u "Motivationsschreiben") :: x).
  rewrite Hs. reflexivity.
Qed.

(** X19 at a letter of one line and a storage that is full. *)
Lemma generate_docx_failures_witness :
  Api.generate_docx (Some (u "Sehr geehrte Damen und Herren"))
    (fun _ => Raise (u "No space left on device"))
  = (Ok (Api.JsonError (u "No space left on device") 500), []).
Proof.
  apply (proj2 (proj2 (generate_docx_failures
                         (fun _ => Raise (u "No space left on device"))))).
  - vm_compute. discriminate.
  - reflexivity.
Defined.

(** X20.  Every exported document is one level-1 heading with the fixed
    title followed by at least one paragraph; no paragraph has white space
    at either end, and none holds a blank-line boundary.  The form's
    [save_cover_letter] builds it for every text, the endpoint sends it for
    every letter that is not empty when the file can be written. *)
Theorem exported_document_shape :
  forall letter : str,
  exists paragraphs,
    paragraphs <> []
    /\ Forall (fun p => lstrip p = p /\ rstrip p = p
                        /\ contains [LF; LF] p = false) paragraphs
    /\ App.save_cover_letter letter
       = Heading 1 (u "Motivationsschreiben") :: map Paragraph paragraphs
    /\ (forall save : document -> res unit,
          letter <> [] ->
          save (Heading 1 (u "Motivationsschreiben") :: map Paragraph paragraphs)
          = Ok tt ->
          Api.generate_docx (Some letter) save
          = (Ok (Api.SendFile (Heading 1 (u "Motivationsschreiben")
                                 :: map Paragraph paragraphs)), [])).
Proof.
  intros letter. exists (map strip (split_blank letter)).
  split; [|split; [|split]].
  - unfold split_blank. pose proof (split_blank_from_nonempty letter []) as H.
    destruct (split_blank_from [] letter); [congruence | discriminate].
  - apply Forall_forall. intros p Hp. apply in_map_iff in Hp as (q & <- & Hq).
    destruct (strip_stripped q) as [H1 H2]. split; [exact H1|]. split; [exact H2|].
    assert (F : Forall (fun p => contains [LF; LF] p = false) (split_blank letter)).
    { apply split_blank_from_pieces; [reflexivity | discriminate]. }
    rewrite Forall_forall in F. specialize (F q Hq).
    destruct (strip_substring q) as (a & b & E). rewrite E in F.
    now apply contains_false_sub in F.
  - rewrite save_cover_letter_blocks, map_paragraphs. reflexivity.
  - intros save Hl Hs. rewrite generate_docx_blocks.
    + now rewrite map_paragraphs.
    + exact Hl.
    + rewrite map_paragraphs. exact Hs.
Qed.

(** X21.  The exporter loses no text but the white space it strips: the
    pieces whose stripped forms are the paragraphs, put together again with
    blank lines between them, are the letter. *)
Theorem exported_pieces_rejoin :
  forall letter : str,
  exists pieces,
    join [LF; LF] pieces = letter
    /\ App.save_cover_letter letter
       = Heading 1 (u "Motivationsschreiben")
           :: map (fun p => Paragraph (strip p)) pieces
    /\ (forall save : document -> res unit,
          letter <> [] ->
          save (Heading 1 (u "Motivationsschreiben")
                  :: map (fun p => Paragraph (strip p)) pieces) = Ok tt ->
          Api.generate_docx (Some letter) save
          = (Ok (Api.SendFile (Heading 1 (u "Motivationsschreiben")
                                 :: map (fun p => Paragraph (strip p)) pieces)), [])).
Proof.
  intros letter. exists (split_blank letter). split; [|split].
  - unfold split_blank. now rewrite join_split_blank_from.
  - rewrite save_cover_letter_blocks. exact eq_refl.
  - intros save Hl Hs.
    rewrite (generate_docx_blocks letter save Hl Hs). exact eq_refl.
Qed.

(** ** The form *)

Lemma App_generate_cover_letter_main (nlp : str -> list Token)
    (chat : str -> str -> res str) (cv job s w n c : str) :
  App.generate_cover_letter (answering nlp) chat cv job s w n c
  = (Ok match chat App.SYSTEM (App.prompt_of cv job s w n c
                                 (App.rank (nlp cv)) (App.rank (nlp job))) with
        | Ok content => strip content
        | Raise e => u "Fehler bei der API-Anfrage: " ++ e
        end,
     [ Extract cv; Extract job;
       Chat App.SYSTEM (App.prompt_of cv job s w n c
                          (App.rank (nlp cv)) (App.rank (nlp job))) ]).
Proof.
  unfold App.generate_cover_letter, App.extract_keywords.
  cbn [bind tell ret lift app answering].
  destruct (chat _ _); reflexivity.
Qed.

Lemma filled_true (s : str) : s <> [] -> App.filled s = true.
Proof. destruct s; [contradiction | reflexivity]. Qed.

Lemma form_read_cv (cv : FileStorage) (t : str) :
  (mimetype cv = MIME_PDF /\ Spec.pdf_text cv t)
  \/ (mimetype cv = MIME_DOCX /\ Spec.docx_text cv t) ->
  App.read_cv cv = (Ok t, []).
Proof.
  destruct (App_extract_text_contract cv) as (_ & _ & Hp & _ & _ & Hd).
  unfold App.read_cv. intros [[Hm Ht] | [Hm Ht]]; rewrite Hm.
  - rewrite str_eqb_refl. now apply Hp.
  - assert (E : str_eqb MIME_DOCX MIME_PDF = false) by (vm_compute; reflexivity).
    rewrite E, str_eqb_refl. now apply Hd.
Qed.

(** The script on a form it accepts. *)
Lemma form_accepted (nlp : str -> list Token) (chat : str -> str -> res str)
    (save : document -> res unit) (f : App.form) (t1 t2 : str) :
  Spec.form_ready f t1 t2 ->
  App.on_generate (answering nlp) chat save f
  = (Ok (Spec.keyword_lines nlp t1 t2
         ++ [ App.StWrite [u "**Motivationsschreiben:**"];
              App.StWrite [match chat App.SYSTEM (Spec.form_prompt nlp f t1 t2) with
                           | Ok content => strip content
                           | Raise e => u "Fehler bei der API-Anfrage: " ++ e
                           end] ]
         ++ [match save (App.save_cover_letter
                           match chat App.SYSTEM (Spec.form_prompt nlp f t1 t2) with
                           | Ok content => strip content
                           | Raise e => u "Fehler bei der API-Anfrage: " ++ e
                           end) with
             | Ok _ =>
                 App.StDownload (u "Motivationsschreiben herunterladen")
                   (App.save_cover_letter
                      match chat App.SYSTEM (Spec.form_prompt nlp f t1 t2) with
                      | Ok content => strip content
                      | Raise e => u "Fehler bei der API-Anfrage: " ++ e
                      end)
                   App.FILENAME MIME_DOCX
             | Raise e => App.StException e
             end]),
     [ Extract t1; Extract t2; Extract t1; Extract t2;
       Chat App.SYSTEM (Spec.form_prompt nlp f t1 t2) ]).
Proof.
  intros (Vs & Vw & Hn & Hc & (cv & Ecv & Hcv) & (job & Ejob & Hjob)
          & N1 & N2 & M1 & M2).
  unfold App.on_generate.
  rewrite Vs, Vw, (filled_true _ Hn), (filled_true _ Hc), Ecv, Ejob.
  cbn [negb orb]. rewrite (form_read_cv cv t1 Hcv). cbn [bind].
  rewrite (proj1 (proj2 (proj2 (App_extract_text_contract job))) t2 Hjob).
  cbn [bind].
  unfold App.show_keywords, App.show_letter.
  rewrite (filled_true _ N1), (filled_true _ N2), M1, M2. cbn [negb orb andb].
  unfold App.extract_keywords at 1 2. cbn [bind tell ret lift app answering].
  rewrite App_generate_cover_letter_main. cbn [bind].
  unfold Spec.keyword_lines, Spec.form_prompt.
  destruct (save _).
  - cbn [bind ret app]. exact eq_refl.
  - cbn [bind ret app]. exact eq_refl.
Qed.

(** X22.  The script turns a form down with one error line and without
    reading a file or making a call, in this order of checks: strengths or
    weaknesses that fail the validator; an empty name or company; a missing
    résumé.  A missing job file is reported after the résumé was read,
    again without a call. *)
Theorem form_rejects_without_calls :
  forall (nlp : str -> res (list Token)) (chat : str -> str -> res str)
         (save : document -> res unit) (f : App.form),
    (App.is_valid_input (App.strengths f) = false
     \/ App.is_valid_input (App.weaknesses f) = false ->
     App.on_generate nlp chat save f
     = (Ok [App.StError (u "Bitte geben Sie sinnvolle Stärken und Schwächen ein (mindestens 10 Zeichen, keine zufälligen Zeichen).")], []))
    /\ (App.is_valid_input (App.strengths f) = true ->
        App.is_valid_input (App.weaknesses f) = true ->
        (App.name f = [] \/ App.company f = [] ->
         App.on_generate nlp chat save f
         = (Ok [App.StError (u "Bitte geben Sie Ihren Namen und den Unternehmensnamen ein.")], []))
        /\ (App.name f <> [] -> App.company f <> [] ->
            (App.cv_file f = None ->
             App.on_generate nlp chat save f
             = (Ok [App.StError (u "Bitte laden Sie einen Lebenslauf hoch.")], []))
            /\ (App.cv_file f <> None -> App.job_file f = None ->
                App.on_generate nlp chat save f
                = (Ok [App.StError (u "Bitte laden Sie ein Stellenprofil hoch.")], [])))).
Proof.
  intros nlp chat save f. unfold App.on_generate. split.
  - intros V.
    assert (B : negb (App.is_valid_input (App.strengths f))
                || negb (App.is_valid_input (App.weaknesses f)) = true).
    { destruct V as [-> | ->]; [reflexivity | apply orb_true_r]. }
    rewrite B. reflexivity.
  - intros Vs Vw. rewrite Vs, Vw. cbn [negb orb]. split.
    + intros E.
      assert (B : negb (App.filled (App.name f)) || negb (App.filled (App.company f)) = true).
      { destruct E as [-> | ->]; [reflexivity | apply orb_true_r]. }
      rewrite B. reflexivity.
    + intros Hn Hc. rewrite (filled_true _ Hn), (filled_true _ Hc). cbn [negb orb].
      split.
      * intros ->. reflexivity.
      * intros Hcv Ej. destruct (App.cv_file f) as [cv|]; [|congruence].
        rewrite Ej.
        assert (R : exists t, App.read_cv cv = (Ok t, [])).
        { destruct (App_extract_text_contract cv) as ((s1 & H1) & _ & _ & (s2 & H2) & _).
          unfold App.read_cv.
          destruct (str_eqb (mimetype cv) MIME_PDF); [exists s1; exact H1|].
          destruct (str_eqb (mimetype cv) MIME_DOCX); [exists s2; exact H2|].
          exists []. exact eq_refl. }
        destruct R as [t R]. rewrite R. exact eq_refl.
Qed.

(** X22 at the sample form with digits for strengths. *)
Lemma form_rejects_without_calls_witness :
  App.on_generate (answering Sample.nouns) Sample.service Sample.disk
    {| App.name := u "Max Mustermann";
       App.company := u "Beispiel GmbH";
       App.cv_file := Some Sample.cv_pdf;
       App.job_file := Some Sample.job_pdf;
       App.strengths := u "1234567890";
       App.weaknesses := u "Perfektionismus";
       App.tone := u "Professionell" |}
  = (Ok [App.StError (u "Bitte geben Sie sinnvolle Stärken und Schwächen ein (mindestens 10 Zeichen, keine zufälligen Zeichen).")], []).
Proof.
  apply (proj1 (form_rejects_without_calls (answering Sample.nouns) Sample.service Sample.disk
                  {| App.name := u "Max Mustermann";
                     App.company := u "Beispiel GmbH";
                     App.cv_file := Some Sample.cv_pdf;
                     App.job_file := Some Sample.job_pdf;
                     App.strengths := u "1234567890";
                     App.weaknesses := u "Perfektionismus";
                     App.tone := u "Professionell" |})).
  left. vm_compute. reflexivity.
Defined.

(** X23.  For a form the script accepts, with the service answering and
    the file written, the script shows the two lines of keywords, the
    title line, the stripped answer and the download of the document built
    from it.  The extractor ran twice for the keyword lines and twice for
    the prompt, and the service was asked once.  The answer is not
    inspected: it is shown and offered whatever it contains. *)
Theorem form_shows_letter_and_download :
  forall (nlp : str -> list Token) (chat : str -> str -> res str)
         (save : document -> res unit) (f : App.form) (t1 t2 content : str),
    Spec.form_ready f t1 t2 ->
    chat App.SYSTEM (Spec.form_prompt nlp f t1 t2) = Ok content ->
    save (App.save_cover_letter (strip content)) = Ok tt ->
    App.on_generate (answering nlp) chat save f
    = (Ok (Spec.keyword_lines nlp t1 t2
           ++ [ App.StWrite [u "**Motivationsschreiben:**"];
                App.StWrite [strip content];
                App.StDownload (u "Motivationsschreiben herunterladen")
                  (App.save_cover_letter (strip content))
                  App.FILENAME MIME_DOCX ]),
       [ Extract t1; Extract t2; Extract t1; Extract t2;
         Chat App.SYSTEM (Spec.form_prompt nlp f t1 t2) ]).
Proof.
  intros nlp chat save f t1 t2 content R Hc Hs.
  rewrite (form_accepted nlp chat save f t1 t2 R). rewrite Hc. cbv beta iota.
  rewrite Hs. exact eq_refl.
Qed.

(** X24.  When the service raises, the form shows the composer's failure
    text as the letter and offers the document built from it for download:
    the failure is not told apart from a letter. *)
Theorem form_exports_service_failure :
  forall (nlp : str -> list Token) (chat : str -> str -> res str)
         (save : document -> res unit) (f : App.form) (t1 t2 e : str),
    Spec.form_ready f t1 t2 ->
    chat App.SYSTEM (Spec.form_prompt nlp f t1 t2) = Raise e ->
    save (App.save_cover_letter (u "Fehler bei der API-Anfrage: " ++ e)) = Ok tt ->
    outcome (App.on_generate (answering nlp) chat save f)
    = Ok (Spec.keyword_lines nlp t1 t2
          ++ [ App.StWrite [u "**Motivationsschreiben:**"];
               App.StWrite [u "Fehler bei der API-Anfrage: " ++ e];
               App.StDownload (u "Motivationsschreiben herunterladen")
                 (App.save_cover_letter (u "Fehler bei der API-Anfrage: " ++ e))
                 App.FILENAME MIME_DOCX ]).
Proof.
  intros nlp chat save f t1 t2 e R Hc Hs.
  rewrite (form_accepted nlp chat save f t1 t2 R). rewrite Hc. cbv beta iota.
  rewrite Hs. exact eq_refl.
Qed.

Lemma sample_form_ready :
  Spec.form_ready (Sample.form_of Sample.cv_pdf Sample.job_pdf)
                  Sample.cv_words Sample.job_words.
Proof.
  destruct sample_cv_usable as (_ & Hcv & Bcv & Mcv).
  destruct sample_job_usable as (_ & _ & Hjob & Bjob & Mjob).
  split; [vm_compute; reflexivity|]. split; [vm_compute; reflexivity|].
  split; [vm_compute; discriminate|]. split; [vm_compute; discriminate|].
  split; [exists Sample.cv_pdf; split; [exact eq_refl | exact Hcv]|].
  split; [exists Sample.job_pdf; split; [exact eq_refl | exact Hjob]|].
  split; [now apply not_blank_nonempty|]. split; [now apply not_blank_nonempty|].
  split; [exact Mcv | exact Mjob].
Qed.

(** X23 at the sample form, with the service that answers. *)
Lemma form_shows_letter_and_download_witness :
  App.on_generate (answering Sample.nouns) Sample.service Sample.disk
    (Sample.form_of Sample.cv_pdf Sample.job_pdf)
  = (Ok (Spec.keyword_lines Sample.nouns Sample.cv_words Sample.job_words
         ++ [ App.StWrite [u "**Motivationsschreiben:**"];
              App.StWrite [strip Sample.letter];
              App.StDownload (u "Motivationsschreiben herunterladen")
                (App.save_cover_letter (strip Sample.letter))
                App.FILENAME MIME_DOCX ]),
     [ Extract Sample.cv_words; Extract Sample.job_words;
       Extract Sample.cv_words; Extract Sample.job_words;
       Chat App.SYSTEM
         (Spec.form_prompt Sample.nouns (Sample.form_of Sample.cv_pdf Sample.job_pdf)
            Sample.cv_words Sample.job_words) ]).
Proof.
  exact (form_shows_letter_and_download Sample.nouns Sample.service Sample.disk
           (Sample.form_of Sample.cv_pdf Sample.job_pdf)
           Sample.cv_words Sample.job_words Sample.letter
           sample_form_ready eq_refl eq_refl).
Defined.

(** X24 at the sample form, with the service out of reach. *)
Lemma form_exports_service_failure_witness :
  outcome (App.on_generate (answering Sample.nouns) Sample.no_service Sample.disk
             (Sample.form_of Sample.cv_pdf Sample.job_pdf))
  = Ok (Spec.keyword_lines Sample.nouns Sample.cv_words Sample.job_words
        ++ [ App.StWrite [u "**Motivationsschreiben:**"];
             App.StWrite [u "Fehler bei der API-Anfrage: " ++ u "Connection error."];
             App.StDownload (u "Motivationsschreiben herunterladen")
               (App.save_cover_letter
                  (u "Fehler bei der API-Anfrage: " ++ u "Connection error."))
               App.FILENAME MIME_DOCX ]).
Proof.
  exact (form_exports_service_failure Sample.nouns Sample.no_service Sample.disk
           (Sample.form_of Sample.cv_pdf Sample.job_pdf)
           Sample.cv_words Sample.job_words (u "Connection error.")
           sample_form_ready eq_refl eq_refl).
Defined.

Lemma blank_no_marker (t : str) : Spec.blank t -> contains App.FEHLER t = false.
Proof.
  intros Hb. destruct (contains App.FEHLER t) eqn:E; [|reflexivity].
  apply contains_iff in E as (a & b & ->).
  assert (F : App.FEHLER = 70 :: u "ehler") by (vm_compute; reflexivity).
  rewrite F in Hb. unfold Spec.blank in Hb.
  apply Forall_app in Hb as [_ Hb]. cbn [app] in Hb.
  inversion Hb as [|? ? Hc _]. vm_compute in Hc. discriminate Hc.
Qed.

Lemma App_read_cv_total (cv : FileStorage) : exists t, App.read_cv cv = (Ok t, []).
Proof.
  destruct (App_extract_text_contract cv) as ((s1 & H1) & _ & _ & (s2 & H2) & _).
  unfold App.read_cv.
  destruct (str_eqb (mimetype cv) MIME_PDF); [exists s1; exact H1|].
  destruct (str_eqb (mimetype cv) MIME_DOCX); [exists s2; exact H2|].
  exists []. exact eq_refl.
Qed.

(** The script once both files are there and read. *)
Lemma form_read (nlp : str -> res (list Token)) (chat : str -> str -> res str)
    (save : document -> res unit) (f : App.form) (cv job : FileStorage)
    (t1 t2 : str) :
  Spec.form_fields_ok f ->
  App.cv_file f = Some cv -> App.job_file f = Some job ->
  App.read_cv cv = (Ok t1, []) ->
  App.extract_text_from_pdf job = (Ok t2, []) ->
  App.on_generate nlp chat save f
  = (keywords <- App.show_keywords nlp t1 t2 ;;
     letter <- App.show_letter nlp chat save f t1 t2 ;;
     ret (keywords ++ letter)).
Proof.
  intros (Vs & Vw & Hn & Hc) Ecv Ejob R1 R2. unfold App.on_generate.
  rewrite Vs, Vw, (filled_true _ Hn), (filled_true _ Hc), Ecv, Ejob.
  cbn [negb orb]. rewrite R1. cbn [bind]. rewrite R2. cbn [bind app].
  destruct (App.show_keywords nlp t1 t2) as [[k|e] tk]; [|exact eq_refl].
  destruct (App.show_letter nlp chat save f t1 t2) as [[l|e] tl]; exact eq_refl.
Qed.

(** X25.  A résumé PDF whose text is white space only is treated
    differently by the two entry points: the form takes the text as it is
    and asks the generation service with it, while the endpoint answers the
    same upload with status 400 and makes no call. *)
Theorem blank_resume_form_and_endpoint :
  forall (nlp : str -> list Token) (chat : str -> str -> res str)
         (save : document -> res unit) (f : App.form) (req : Api.request)
         (cv job : FileStorage) (t1 t2 : str),
    Spec.form_fields_ok f ->
    App.cv_file f = Some cv -> App.job_file f = Some job ->
    mimetype cv = MIME_PDF -> Spec.pdf_text cv t1 ->
    Spec.blank t1 -> t1 <> [] ->
    Spec.pdf_text job t2 -> t2 <> [] -> contains App.FEHLER t2 = false ->
    Api.cv_file req = Some cv -> filename cv <> [] ->
    trace (App.on_generate (answering nlp) chat save f)
    = [ Extract t1; Extract t2; Extract t1; Extract t2;
        Chat App.SYSTEM (Spec.form_prompt nlp f t1 t2) ]
    /\ exists resp,
        Api.api_generate_cover_letter (answering nlp) chat req = (Ok resp, [])
        /\ Api.status resp = 400.
Proof.
  intros nlp chat save f req cv job t1 t2 (Vs & Vw & Hn & Hc) Ecv Ejob Hm Ht Hb N1
         Hj N2 M2 Rcv Fcv.
  split.
  - assert (R : Spec.form_ready f t1 t2).
    { repeat apply conj; try assumption.
      - exists cv. split; [assumption | left; split; assumption].
      - exists job. split; assumption.
      - now apply blank_no_marker. }
    rewrite (form_accepted nlp chat save f t1 t2 R). exact eq_refl.
  - destruct (endpoint_cv_marker (answering nlp) chat req cv Api.NO_TEXT_PDF Rcv Fcv)
      as (resp & H1 & H2 & _).
    + apply read_cv_pdf; [assumption|].
      exact (proj1 (proj2 (proj2 (Api_extract_text_from_pdf_contract cv))) t1 Ht Hb).
    + apply no_text_pdf_failure.
    + exists resp. split; assumption.
Qed.

(** X26.  With the text fields in order and both files uploaded, the form
    answers "Bitte füllen Sie alle Felder aus." and makes no call when the
    résumé has a media type it does not know, when the résumé is read and
    has no text at all, or when the job file is read and has no text. *)
Theorem form_without_text_asks_for_fields :
  forall (nlp : str -> res (list Token)) (chat : str -> str -> res str)
         (save : document -> res unit) (f : App.form) (cv job : FileStorage),
    Spec.form_fields_ok f ->
    App.cv_file f = Some cv -> App.job_file f = Some job ->
    (mimetype cv <> MIME_PDF /\ mimetype cv <> MIME_DOCX)
    \/ Spec.upload_text cv [] \/ Spec.pdf_text job [] ->
    App.on_generate nlp chat save f
    = (Ok [App.StError (u "Bitte füllen Sie alle Felder aus.")], []).
Proof.
  intros nlp chat save f cv job F Ecv Ejob H.
  destruct (App_read_cv_total cv) as [t1 R1].
  destruct (App_extract_text_contract job) as ((t2 & R2) & _ & Hp & _).
  rewrite (form_read nlp chat save f cv job t1 t2 F Ecv Ejob R1 R2).
  assert (E : App.filled t1 && App.filled t2 = false).
  { destruct H as [[H1 H2] | [H | H]].
    - apply str_eqb_neq in H1, H2. unfold App.read_cv in R1.
      rewrite H1, H2 in R1. injection R1 as <-. exact eq_refl.
    - rewrite (form_read_cv cv [] H) in R1. injection R1 as <-. exact eq_refl.
    - rewrite (Hp [] H) in R2. injection R2 as <-. apply andb_false_r. }
  unfold App.show_keywords, App.show_letter. rewrite E. exact eq_refl.
Qed.

(** X27.  With the text fields in order and both texts read and not
    empty, the form answers "Fehler beim Verarbeiten der hochgeladenen
    Dateien." when one of the texts contains the marker word; it shows no
    keywords and makes no call.  The same happens when the job file cannot
    be read. *)
Theorem form_takes_marker_for_failure :
  forall (nlp : str -> res (list Token)) (chat : str -> str -> res str)
         (save : document -> res unit) (f : App.form) (cv job : FileStorage)
         (t1 : str),
    Spec.form_fields_ok f ->
    App.cv_file f = Some cv -> App.job_file f = Some job ->
    Spec.upload_text cv t1 -> t1 <> [] ->
    (forall t2, Spec.pdf_text job t2 -> t2 <> [] ->
       contains App.FEHLER t1 = true \/ contains App.FEHLER t2 = true ->
       App.on_generate nlp chat save f
       = (Ok [App.StError (u "Fehler beim Verarbeiten der hochgeladenen Dateien.")], []))
    /\ (forall e, Spec.pdf_unreadable job e ->
          App.on_generate nlp chat save f
          = (Ok [App.StError (u "Fehler beim Verarbeiten der hochgeladenen Dateien.")], [])).
Proof.
  intros nlp chat save f cv job t1 F Ecv Ejob H1 N1.
  pose proof (form_read_cv cv t1 H1) as R1.
  destruct (App_extract_text_contract job) as (_ & Hu & Hp & _).
  assert (G : forall t2, t2 <> [] ->
                contains App.FEHLER t1 || contains App.FEHLER t2 = true ->
                (keywords <- App.show_keywords nlp t1 t2 ;;
                 letter <- App.show_letter nlp chat save f t1 t2 ;;
                 ret (keywords ++ letter))
                = (Ok [App.StError (u "Fehler beim Verarbeiten der hochgeladenen Dateien.")], [])).
  { intros t2 N2 M. unfold App.show_keywords, App.show_letter.
    rewrite (filled_true _ N1), (filled_true _ N2), M. exact eq_refl. }
  split.
  - intros t2 H2 N2 M.
    rewrite (form_read nlp chat save f cv job t1 t2 F Ecv Ejob R1 (Hp t2 H2)).
    apply G; [assumption|]. apply orb_true_iff. exact M.
  - intros e He.
    rewrite (form_read nlp chat save f cv job t1 _ F Ecv Ejob R1 (Hu e He)).
    destruct (read_failure_pdf e) as [Nb Mk].
    apply G; [now apply not_blank_nonempty|].
    apply orb_true_iff. right. exact Mk.
Qed.

Lemma sample_form_fields_ok (cv job : FileStorage) :
  Spec.form_fields_ok (Sample.form_of cv job).
Proof.
  split; [vm_compute; reflexivity|]. split; [vm_compute; reflexivity|].
  split; vm_compute; discriminate.
Qed.

Lemma sample_blank_pdf_text : Spec.pdf_text Sample.blank_pdf [32; 10; 10].
Proof.
  exists [Ok (Some [32; 10]); Ok (Some [10])], [[32; 10]; [10]].
  split; [exact eq_refl|]. split; [|exact eq_refl].
  constructor; [left; exact eq_refl|]. constructor; [left; exact eq_refl | constructor].
Qed.

(** X25 at a résumé of one blank and two line feeds. *)
Lemma blank_resume_form_and_endpoint_witness :
  trace (App.on_generate (answering Sample.nouns) Sample.service Sample.disk
           (Sample.form_of Sample.blank_pdf Sample.job_pdf))
  = [ Extract [32; 10; 10]; Extract Sample.job_words;
      Extract [32; 10; 10]; Extract Sample.job_words;
      Chat App.SYSTEM
        (Spec.form_prompt Sample.nouns (Sample.form_of Sample.blank_pdf Sample.job_pdf)
           [32; 10; 10] Sample.job_words) ]
  /\ exists resp,
      Api.api_generate_cover_letter (answering Sample.nouns) Sample.service
        (Sample.request_of Sample.blank_pdf Sample.job_pdf) = (Ok resp, [])
      /\ Api.status resp = 400.
Proof.
  destruct sample_job_usable as (_ & _ & Hjob & Bjob & Mjob).
  apply (blank_resume_form_and_endpoint Sample.nouns Sample.service Sample.disk
           (Sample.form_of Sample.blank_pdf Sample.job_pdf)
           (Sample.request_of Sample.blank_pdf Sample.job_pdf)
           Sample.blank_pdf Sample.job_pdf [32; 10; 10] Sample.job_words).
  - apply sample_form_fields_ok.
  - exact eq_refl.
  - exact eq_refl.
  - exact eq_refl.
  - exact sample_blank_pdf_text.
  - repeat constructor.
  - discriminate.
  - exact Hjob.
  - now apply not_blank_nonempty.
  - exact Mjob.
  - exact eq_refl.
  - vm_compute. discriminate.
Defined.

(** X26 at a scanned résumé. *)
Lemma form_without_text_asks_for_fields_witness :
  App.on_generate (answering Sample.nouns) Sample.service Sample.disk
    (Sample.form_of Sample.scanned_pdf Sample.job_pdf)
  = (Ok [App.StError (u "Bitte füllen Sie alle Felder aus.")], []).
Proof.
  apply (form_without_text_asks_for_fields (answering Sample.nouns) Sample.service Sample.disk
           (Sample.form_of Sample.scanned_pdf Sample.job_pdf)
           Sample.scanned_pdf Sample.job_pdf).
  - apply sample_form_fields_ok.
  - exact eq_refl.
  - exact eq_refl.
  - right. left. left. split; [exact eq_refl|].
    exists [Ok None], [[]]. split; [exact eq_refl|]. split; [|exact eq_refl].
    constructor; [right; split; exact eq_refl | constructor].
Defined.

(** X27 at a résumé that mentions "Fehleranalyse". *)
Lemma form_takes_marker_for_failure_witness :
  App.on_generate (answering Sample.nouns) Sample.service Sample.disk
    (Sample.form_of Sample.cv_fehleranalyse Sample.job_pdf)
  = (Ok [App.StError (u "Fehler beim Verarbeiten der hochgeladenen Dateien.")], []).
Proof.
  destruct sample_job_usable as (_ & _ & Hjob & Bjob & Mjob).
  assert (U : Spec.upload_text Sample.cv_fehleranalyse
                (u "Erfahrung in Fehleranalyse und Kundenberatung")).
  { left. split; [exact eq_refl|].
    exists [Ok (Some (u "Erfahrung in Fehleranalyse und Kundenberatung"))],
      [u "Erfahrung in Fehleranalyse und Kundenberatung"].
    split; [vm_compute; reflexivity|]. split; [|vm_compute; reflexivity].
    constructor; [left; exact eq_refl | constructor]. }
  assert (N : u "Erfahrung in Fehleranalyse und Kundenberatung" <> [])
    by (vm_compute; discriminate).
  apply (proj1 (form_takes_marker_for_failure (answering Sample.nouns) Sample.service Sample.disk
                  (Sample.form_of Sample.cv_fehleranalyse Sample.job_pdf)
                  Sample.cv_fehleranalyse Sample.job_pdf
                  (u "Erfahrung in Fehleranalyse und Kundenberatung")
                  (sample_form_fields_ok _ _) eq_refl eq_refl U N)
          Sample.job_words Hjob).
  - now apply not_blank_nonempty.
  - left. vm_compute. reflexivity.
Defined.

(** ** The properties above at sample inputs *)

(** X4 at a text whose only word is a priority term. *)
Lemma keywords_at_most_twice_witness :
  exists out,
    outcome (Api.extract_keywords (answering Sample.nouns) (u "Finanzwesen")) = Ok out
    /\ count_occ str_eq_dec out (u "finanzwesen") = 2%nat
    /\ In (u "finanzwesen") Api.priority_terms.
Proof.
  destruct (keywords_at_most_twice Sample.nouns (u "Finanzwesen") (u "finanzwesen"))
    as (out & H1 & _ & H3).
  exists out. split; [exact H1|].
  assert (C : count_occ str_eq_dec out (u "finanzwesen") = 2%nat).
  { rewrite extract_keywords_outcome in H1. injection H1 as <-.
    vm_compute. reflexivity. }
  split; [exact C | exact (H3 C)].
Defined.

(** X8 at an upload that cannot be opened, at a blank one and at the sample
    résumé. *)
Lemma api_pdf_extractor_contract_witness :
  Api.extract_text_from_pdf Sample.corrupt_pdf
  = (Ok (u "Fehler beim Lesen der PDF: "
         ++ u "No /Root object! - Is this really a PDF?"), [])
  /\ Api.extract_text_from_pdf Sample.blank_pdf = (Ok Api.NO_TEXT_PDF, [])
  /\ Api.extract_text_from_pdf Sample.cv_pdf = (Ok Sample.cv_words, []).
Proof.
  split; [|split].
  - apply (proj1 (proj2 (api_pdf_extractor_contract Sample.corrupt_pdf))).
    left. exact eq_refl.
  - apply (proj1 (proj2 (proj2 (api_pdf_extractor_contract Sample.blank_pdf)))
             [32; 10; 10]).
    + exact sample_blank_pdf_text.
    + repeat constructor.
  - destruct sample_cv_usable as (_ & [[_ H] | [E _]] & B & _).
    + exact (proj2 (proj2 (proj2 (api_pdf_extractor_contract Sample.cv_pdf)))
               Sample.cv_words H B).
    + vm_compute in E. discriminate E.
Defined.

(** X9 at an upload that is no word-processing document and at a document
    of two blank paragraphs. *)
Lemma api_docx_extractor_contract_witness :
  Api.extract_text_from_docx Sample.cv_pdf
  = (Ok (u "Fehler beim Lesen der DOCX: " ++ u "File is not a zip file"), [])
  /\ Api.extract_text_from_docx (Sample.docx [[32]; [10]])
     = (Ok Api.NO_TEXT_DOCX, []).
Proof.
  split.
  - apply (proj1 (proj2 (api_docx_extractor_contract Sample.cv_pdf))).
    exact eq_refl.
  - apply (proj1 (proj2 (proj2 (api_docx_extractor_contract
                                  (Sample.docx [[32]; [10]])))) [32; 10]).
    + exists [[32]; [10]]. split; exact eq_refl.
    + repeat constructor.
Defined.

(** X11 at the blank upload and at one that cannot be opened. *)
Lemma app_extractors_contract_witness :
  App.extract_text_from_pdf Sample.blank_pdf = (Ok [32; 10; 10], [])
  /\ App.extract_text_from_pdf Sample.corrupt_pdf
     = (Ok (u "Fehler beim Lesen der PDF: "
            ++ u "No /Root object! - Is this really a PDF?"), []).
Proof.
  split.
  - apply (proj1 (proj2 (proj2 (app_extractors_contract Sample.blank_pdf)))).
    exact sample_blank_pdf_text.
  - apply (proj1 (proj2 (app_extractors_contract Sample.corrupt_pdf))).
    left. exact eq_refl.
Defined.

(** X20 at a letter of one word. *)
Lemma exported_document_shape_witness :
  exists paragraphs,
    paragraphs <> []
    /\ Api.generate_docx (Some (u "Anrede")) Sample.disk
       = (Ok (Api.SendFile (Heading 1 (u "Motivationsschreiben")
                              :: map Paragraph paragraphs)), []).
Proof.
  destruct (exported_document_shape (u "Anrede")) as (ps & H1 & _ & _ & H4).
  exists ps. split; [exact H1|].
  apply H4; [vm_compute; discriminate | exact eq_refl].
Defined.

(** X21 at a letter of one word. *)
Lemma exported_pieces_rejoin_witness :
  exists pieces,
    join [LF; LF] pieces = u "Anrede"
    /\ Api.generate_docx (Some (u "Anrede")) Sample.disk
       = (Ok (Api.SendFile (Heading 1 (u "Motivationsschreiben")
                              :: map (fun p => Paragraph (strip p)) pieces)), []).
Proof.
  destruct (exported_pieces_rejoin (u "Anrede")) as (ps & H1 & _ & H3).
  exists ps. split; [exact H1|].
  apply H3; [vm_compute; discriminate | exact eq_refl].
Defined.
